(** * Digital-twin IoT simulator: a shallow embedding and its properties

    The Python sources under [src/] are embedded as Rocq functions.
    - Python floats and ints are exact rationals [Q]; integer counters
      and ticks are [Z].  IEEE rounding error is outside the model.
    - Python dicts are association lists in insertion order
      ([dict_get], [dict_set]); dynamically typed snapshots are [value]s.
    - Objects are records; a method is a function from the record to the
      updated record (plus its return value).
    - A configuration group is a record of the values its keys hold, a
      key read with [.get(key, default)] holding the default when absent.
    - A Python exception is [None] in the [option] monad. *)

From Stdlib Require Import QArith Qround Qabs Lqa ZArith Lia List String Bool.
Import ListNotations.
Local Open Scope Q_scope.
Set Warnings "-register-all".

(* ================================================================== *)
(** * Part I: the embedding                                            *)
(* ================================================================== *)

(** ** Python arithmetic on exact rationals *)
Module Py.

Definition Qltb (a b : Q) : bool := negb (Qle_bool b a).

(** [max(a, b)]: the first argument unless the second is larger. *)
Definition max (a b : Q) : Q := if Qltb a b then b else a.

(** [min(a, b)]: the first argument unless the second is smaller. *)
Definition min (a b : Q) : Q := if Qltb b a then b else a.

(** [a / b], raising [ZeroDivisionError] when [b == 0]. *)
Definition div (a b : Q) : option Q :=
  if Qeq_bool b 0 then None else Some (a / b).

Definition sum (l : list Q) : Q := fold_left Qplus l 0.

Definition len {A} (l : list A) : Q := inject_Z (Z.of_nat (List.length l)).

(** [int(x)]: truncation towards zero. *)
Definition int (x : Q) : Z :=
  if Qle_bool 0 x then Qfloor x else Qceiling x.

(** [round(x, n)]: nearest multiple of [10^-n], ties to even. *)
Definition round (x : Q) (n : nat) : Q :=
  let scale := inject_Z (10 ^ Z.of_nat n) in
  let y := x * scale in
  let f := Qfloor y in
  let r := y - inject_Z f in
  let up :=
    if Qltb r (1 # 2) then false
    else if Qltb (1 # 2) r then true
    else negb (Z.even f) in
  inject_Z (if up then f + 1 else f) / scale.


(** Dictionaries keep insertion order; a key occurs at most once. *)
Fixpoint dict_get {A} (k : string) (d : list (string * A)) : option A :=
  match d with
  | [] => None
  | (k', v) :: rest => if String.eqb k k' then Some v else dict_get k rest
  end.

Fixpoint dict_set {A} (k : string) (v : A) (d : list (string * A))
  : list (string * A) :=
  match d with
  | [] => [(k, v)]
  | (k', v') :: rest =>
      if String.eqb k k' then (k', v) :: rest
      else (k', v') :: dict_set k v rest
  end.

Definition dict_has {A} (k : string) (d : list (string * A)) : bool :=
  match dict_get k d with Some _ => true | None => false end.

(** [d.get(k, default)] *)
Definition get_or {A} (k : string) (default : A) (d : list (string * A)) : A :=
  match dict_get k d with Some v => v | None => default end.

(** [d.keys()] *)
Definition keys {A} (d : list (string * A)) : list string := map fst d.

(** Membership of a float in a list or set, by [==]. *)
Definition mem (x : Q) (l : list Q) : bool := existsb (Qeq_bool x) l.

(** [sorted(l, reverse=True)] by insertion. *)
Fixpoint insert_desc (x : Q) (l : list Q) : list Q :=
  match l with
  | [] => [x]
  | y :: rest => if Qltb y x then x :: l else y :: insert_desc x rest
  end.

Definition sorted_desc (l : list Q) : list Q :=
  fold_right insert_desc [] l.

(** [l[-n:]] for [n > 0]. *)
Definition last_n {A} (n : nat) (l : list A) : list A :=
  skipn (List.length l - n) l.

End Py.

(** ** Dynamically typed snapshots *)
Module PyVal.

(** The values that occur in device snapshots.  [int] and [float] are
    both [VNum]; [bool] is kept apart although Python counts it as [int]. *)
Inductive value : Type :=
| VNone
| VBool (b : bool)
| VNum (q : Q)
| VStr (s : string)
| VList (l : list value)
| VDict (d : list (string * value)).

(** [bool(v)] *)
Definition truthy (v : value) : bool :=
  match v with
  | VNone => false
  | VBool b => b
  | VNum q => negb (Qeq_bool q 0)
  | VStr s => negb (String.eqb s "")
  | VList l => match l with [] => false | _ => true end
  | VDict d => match d with [] => false | _ => true end
  end.

(** The number a value stands for in arithmetic; [None] is a [TypeError]. *)
Definition as_num (v : value) : option Q :=
  match v with
  | VNum q => Some q
  | VBool b => Some (if b then 1 else 0)
  | _ => None
  end.

(** [isinstance(v, (int, float))] *)
Definition is_numeric (v : value) : bool :=
  match v with
  | VNum _ | VBool _ => true
  | _ => false
  end.

Definition VInt (z : Z) : value := VNum (inject_Z z).

(** [d.get(k)] on a dict; [None] when the key is absent or [d] is no dict. *)
Definition get (k : string) (v : value) : option value :=
  match v with
  | VDict d => Py.dict_get k d
  | _ => None
  end.

End PyVal.
Export PyVal.

(** ** The Python runtime the simulator calls into

    The global numpy generator is an explicit state [rng]; every draw
    returns the drawn number and the next state.  The text functions
    stand for the byte length of [json.dumps(v, default=str)] and for
    [format(v, spec)], which an f-string field [{v:spec}] calls. *)
Class Runtime : Type := {
  rng : Type;
  np_random_seed : Z -> rng;
  np_random_normal : Q -> Q -> rng -> Q * rng;
  np_random_random : rng -> Q * rng;
  np_random_uniform : Q -> Q -> rng -> Q * rng;
  np_random_choice : list Q -> rng -> Q * rng;
  np_sin : Q -> Q;
  np_pi : Q;
  json_dumps_len : value -> Z;
  py_format : string -> value -> string
}.

(** ** device/battery_model.py *)
Module BatteryModel.

Record t : Type := mk {
  capacity_mah : Q;
  voltage : Q;
  current_draw_ma : list (string * Q);
  warning_thresholds : list Q;
  remaining_mah : Q;
  total_consumed_mah : Q;
  energy_breakdown : list (string * Q);
  warnings_triggered : list Q;
  depleted : bool;
  drain_history : list Q
}.

(** The [device.battery] group of the configuration. *)
Record config : Type := mk_config {
  cfg_capacity_mah : Q;
  cfg_voltage : Q;
  cfg_current_draw_ma : list (string * Q);
  cfg_warning_thresholds : list Q
}.

Definition init (c : config) : t :=
  {| capacity_mah := cfg_capacity_mah c;
     voltage := cfg_voltage c;
     current_draw_ma := cfg_current_draw_ma c;
     warning_thresholds := Py.sorted_desc (cfg_warning_thresholds c);
     remaining_mah := cfg_capacity_mah c;
     total_consumed_mah := 0;
     energy_breakdown :=
       [("sensing"%string, 0); ("processing"%string, 0);
        ("transmission"%string, 0); ("idle"%string, 0)];
     warnings_triggered := [];
     depleted := false;
     drain_history := [] |}.

Definition consume (operation : string) (duration_s : Q) (b : t) : t :=
  if depleted b then b
  else
    let current_ma := Py.get_or operation 0 (current_draw_ma b) in
    let consumed_mah := current_ma * (duration_s / 3600) in
    let remaining := Py.max 0 (remaining_mah b - consumed_mah) in
    {| capacity_mah := capacity_mah b;
       voltage := voltage b;
       current_draw_ma := current_draw_ma b;
       warning_thresholds := warning_thresholds b;
       remaining_mah := remaining;
       total_consumed_mah := total_consumed_mah b + consumed_mah;
       energy_breakdown :=
         Py.dict_set operation
           (Py.get_or operation 0 (energy_breakdown b) + consumed_mah)
           (energy_breakdown b);
       warnings_triggered := warnings_triggered b;
       depleted := if Qle_bool remaining 0 then true else depleted b;
       drain_history := drain_history b |}.

Definition append_history (b : t) : t :=
  {| capacity_mah := capacity_mah b;
     voltage := voltage b;
     current_draw_ma := current_draw_ma b;
     warning_thresholds := warning_thresholds b;
     remaining_mah := remaining_mah b;
     total_consumed_mah := total_consumed_mah b;
     energy_breakdown := energy_breakdown b;
     warnings_triggered := warnings_triggered b;
     depleted := depleted b;
     drain_history := drain_history b ++ [remaining_mah b] |}.

(** [tick(active_operations, time_step_s)]; the return value is the
    [remaining_mah] of the result. *)
Definition tick (active_operations : list string) (time_step_s : Q) (b : t) : t :=
  if depleted b then append_history b
  else
    let b' :=
      match active_operations with
      | [] => consume "idle" time_step_s b
      | _ => fold_left (fun acc op => consume op time_step_s acc)
               active_operations b
      end in
    append_history b'.

Definition get_percentage (b : t) : option Q :=
  match Py.div (remaining_mah b) (capacity_mah b) with
  | Some f => Some (f * 100)
  | None => None
  end.

Definition add_warning (threshold : Q) (b : t) : t :=
  {| capacity_mah := capacity_mah b;
     voltage := voltage b;
     current_draw_ma := current_draw_ma b;
     warning_thresholds := warning_thresholds b;
     remaining_mah := remaining_mah b;
     total_consumed_mah := total_consumed_mah b;
     energy_breakdown := energy_breakdown b;
     warnings_triggered := threshold :: warnings_triggered b;
     depleted := depleted b;
     drain_history := drain_history b |}.

(** The loop of [check_warnings] over the thresholds still to visit. *)
Fixpoint check_loop (current_pct : Q) (thresholds : list Q)
    (new_warnings : list Q) (b : t) : list Q * t :=
  match thresholds with
  | [] => (new_warnings, b)
  | threshold :: rest =>
      if Qle_bool current_pct threshold
         && negb (Py.mem threshold (warnings_triggered b))
      then check_loop current_pct rest (new_warnings ++ [threshold])
             (add_warning threshold b)
      else check_loop current_pct rest new_warnings b
  end.

Definition check_warnings (b : t) : option (list Q * t) :=
  match Py.div (remaining_mah b) (capacity_mah b) with
  | None => None
  | Some current_pct =>
      Some (check_loop current_pct (warning_thresholds b) [] b)
  end.

Definition get_energy_breakdown_pct (b : t) : list (string * Q) :=
  let total := total_consumed_mah b in
  if Qeq_bool total 0
  then map (fun kv => (fst kv, 0)) (energy_breakdown b)
  else map (fun kv => (fst kv, Py.round ((snd kv / total) * 100) 1))
         (energy_breakdown b).

Definition num_dict (d : list (string * Q)) : value :=
  VDict (map (fun kv => (fst kv, VNum (snd kv))) d).

Definition get_state (b : t) : option value :=
  match get_percentage b with
  | None => None
  | Some pct =>
      Some (VDict
        [("remaining_mah"%string, VNum (Py.round (remaining_mah b) 2));
         ("capacity_mah"%string, VNum (capacity_mah b));
         ("percentage"%string, VNum (Py.round pct 2));
         ("total_consumed_mah"%string,
          VNum (Py.round (total_consumed_mah b) 2));
         ("depleted"%string, VBool (depleted b));
         ("energy_breakdown_mah"%string,
          num_dict (map (fun kv => (fst kv, Py.round (snd kv) 3))
                      (energy_breakdown b)));
         ("energy_breakdown_pct"%string,
          num_dict (get_energy_breakdown_pct b))])
  end.

End BatteryModel.

(** ** device/cpu_model.py *)
Module CPUModel.

Record t : Type := mk {
  clock_mhz : Q;
  max_cycles_per_tick : Q;
  task_costs : list (string * Q);
  current_utilization : Q;
  cycles_used_this_tick : Q;
  task_queue : list (string * Q);
  total_cycles_used : Q;
  peak_utilization : Q;
  overload_events : Z;
  consecutive_overload_ticks : Z;
  utilization_history : list Q
}.

(** The [device.processor] group of the configuration. *)
Record config : Type := mk_config {
  cfg_clock_mhz : Q;
  cfg_task_costs : list (string * Q)
}.

Definition init (c : config) : t :=
  {| clock_mhz := cfg_clock_mhz c;
     max_cycles_per_tick := cfg_clock_mhz c * 1000000;
     task_costs := cfg_task_costs c;
     current_utilization := 0;
     cycles_used_this_tick := 0;
     task_queue := [];
     total_cycles_used := 0;
     peak_utilization := 0;
     overload_events := 0;
     consecutive_overload_ticks := 0;
     utilization_history := [] |}.

Definition schedule_task (task_type : string) (c : t) : t :=
  let cost := Py.get_or (task_type ++ "_cycles")%string 0 (task_costs c) in
  {| clock_mhz := clock_mhz c;
     max_cycles_per_tick := max_cycles_per_tick c;
     task_costs := task_costs c;
     current_utilization := current_utilization c;
     cycles_used_this_tick := cycles_used_this_tick c;
     task_queue := task_queue c ++ [(task_type, cost)];
     total_cycles_used := total_cycles_used c;
     peak_utilization := peak_utilization c;
     overload_events := overload_events c;
     consecutive_overload_ticks := consecutive_overload_ticks c;
     utilization_history := utilization_history c |}.

(** The utilization before jitter. *)
Definition raw_utilization (cycles available_cycles : Q) : Q :=
  if Py.Qltb 0 available_cycles
  then Py.min (cycles / available_cycles) 1
  else 0.

(** [tick] after the jitter has been drawn. *)
Definition tick_with (jitter : Q) (time_step_s : Q) (c : t) : t :=
  let cycles := fold_left (fun acc task => acc + snd task) (task_queue c) 0 in
  let available_cycles := max_cycles_per_tick c * time_step_s in
  let u0 := raw_utilization cycles available_cycles in
  let u := Py.max 0 (Py.min 1 (u0 + jitter)) in
  {| clock_mhz := clock_mhz c;
     max_cycles_per_tick := max_cycles_per_tick c;
     task_costs := task_costs c;
     current_utilization := u;
     cycles_used_this_tick := cycles;
     task_queue := [];
     total_cycles_used := total_cycles_used c + cycles;
     peak_utilization :=
       if Py.Qltb (peak_utilization c) u then u else peak_utilization c;
     overload_events :=
       if Py.Qltb (95 # 100) u then (overload_events c + 1)%Z
       else overload_events c;
     consecutive_overload_ticks :=
       if Py.Qltb (90 # 100) u then (consecutive_overload_ticks c + 1)%Z
       else 0%Z;
     utilization_history := utilization_history c ++ [u] |}.

Definition tick `{Runtime} (time_step_s : Q) (c : t) (g : rng) : t * rng :=
  let (jitter, g') := np_random_normal 0 (2 # 100) g in
  (tick_with jitter time_step_s c, g').

Definition get_state (c : t) : value :=
  VDict [("utilization"%string, VNum (Py.round (current_utilization c) 4));
         ("cycles_used"%string, VNum (cycles_used_this_tick c));
         ("peak_utilization"%string, VNum (Py.round (peak_utilization c) 4));
         ("overload_events"%string, VInt (overload_events c));
         ("consecutive_overload_ticks"%string,
          VInt (consecutive_overload_ticks c))].

Definition get_avg_utilization (c : t) : Q :=
  match utilization_history c with
  | [] => 0
  | _ => Py.sum (utilization_history c) / Py.len (utilization_history c)
  end.

End CPUModel.

(** ** device/memory_model.py *)
Module MemoryModel.

(** The [device.memory] group of the configuration. *)
Record config : Type := mk_config {
  total_ram_kb : Q;
  base_usage_kb : Q;
  per_reading_buffer_kb : Q;
  max_buffer_readings : Z;
  leak_enabled : bool;
  leak_rate_kb_per_minute : Q
}.

Record t : Type := mk {
  cfg : config;
  current_usage_kb : Q;
  buffer_count : Z;
  leaked_kb : Q;
  peak_usage_kb : Q;
  oom_events : Z;
  usage_history : list Q
}.

Definition init (c : config) : t :=
  {| cfg := c;
     current_usage_kb := base_usage_kb c;
     buffer_count := 0;
     leaked_kb := 0;
     peak_usage_kb := base_usage_kb c;
     oom_events := 0;
     usage_history := [] |}.

Definition _update_usage (m : t) : t :=
  let buffer_usage := inject_Z (buffer_count m) * per_reading_buffer_kb (cfg m) in
  let usage := base_usage_kb (cfg m) + buffer_usage + leaked_kb m in
  let capped := Qle_bool (total_ram_kb (cfg m)) usage in
  let usage' := if capped then total_ram_kb (cfg m) else usage in
  {| cfg := cfg m;
     current_usage_kb := usage';
     buffer_count := buffer_count m;
     leaked_kb := leaked_kb m;
     peak_usage_kb :=
       if Py.Qltb (peak_usage_kb m) usage' then usage' else peak_usage_kb m;
     oom_events := if capped then (oom_events m + 1)%Z else oom_events m;
     usage_history := usage_history m |}.

Definition set_buffer_count (n : Z) (m : t) : t :=
  {| cfg := cfg m;
     current_usage_kb := current_usage_kb m;
     buffer_count := n;
     leaked_kb := leaked_kb m;
     peak_usage_kb := peak_usage_kb m;
     oom_events := oom_events m;
     usage_history := usage_history m |}.

Definition allocate_sensor_buffer (m : t) : t :=
  if (buffer_count m <? max_buffer_readings (cfg m))%Z
  then _update_usage (set_buffer_count (buffer_count m + 1)%Z m)
  else m.

(** [free_sensor_buffers(count)]; [None] frees every buffer. *)
Definition free_sensor_buffers (count : option Z) (m : t) : t :=
  let count' := match count with Some n => n | None => buffer_count m end in
  _update_usage (set_buffer_count (Z.max 0 (buffer_count m - count')) m).

Definition leak (time_step_s : Q) (m : t) : t :=
  if leak_enabled (cfg m) && Py.Qltb 0 (leak_rate_kb_per_minute (cfg m))
  then
    {| cfg := cfg m;
       current_usage_kb := current_usage_kb m;
       buffer_count := buffer_count m;
       leaked_kb :=
         leaked_kb m + leak_rate_kb_per_minute (cfg m) * (time_step_s / 60);
       peak_usage_kb := peak_usage_kb m;
       oom_events := oom_events m;
       usage_history := usage_history m |}
  else m.

Definition tick (time_step_s : Q) (m : t) : t :=
  let m' := _update_usage (leak time_step_s m) in
  {| cfg := cfg m';
     current_usage_kb := current_usage_kb m';
     buffer_count := buffer_count m';
     leaked_kb := leaked_kb m';
     peak_usage_kb := peak_usage_kb m';
     oom_events := oom_events m';
     usage_history := usage_history m' ++ [current_usage_kb m'] |}.

Definition get_utilization (m : t) : option Q :=
  Py.div (current_usage_kb m) (total_ram_kb (cfg m)).

Definition get_state (m : t) : option value :=
  match get_utilization m with
  | None => None
  | Some u =>
      Some (VDict
        [("used_kb"%string, VNum (Py.round (current_usage_kb m) 2));
         ("total_kb"%string, VNum (total_ram_kb (cfg m)));
         ("utilization"%string, VNum (Py.round u 4));
         ("buffer_count"%string, VInt (buffer_count m));
         ("leaked_kb"%string, VNum (Py.round (leaked_kb m) 2));
         ("peak_usage_kb"%string, VNum (Py.round (peak_usage_kb m) 2));
         ("oom_events"%string, VInt (oom_events m))])
  end.

Definition get_available_kb (m : t) : Q :=
  Py.max 0 (total_ram_kb (cfg m) - current_usage_kb m).

Definition get_avg_utilization (m : t) : option Q :=
  match usage_history m with
  | [] => Some 0
  | _ =>
      Py.div (Py.sum (usage_history m) / Py.len (usage_history m))
        (total_ram_kb (cfg m))
  end.

(** [sum(1 for i in range(1, len(window)) if window[i] > window[i - 1])] *)
Fixpoint increases (window : list Q) : Z :=
  match window with
  | x :: (y :: _) as rest =>
      ((if Py.Qltb x y then 1 else 0) + increases rest)%Z
  | _ => 0%Z
  end.

(** [is_leak_detected(window_size)]; the slice [usage_history[-0:]] is the
    whole history. *)
Definition is_leak_detected (window_size : nat) (m : t) : option bool :=
  if (List.length (usage_history m) <? window_size)%nat then Some false
  else
    let window :=
      match window_size with
      | O => usage_history m
      | _ => Py.last_n window_size (usage_history m)
      end in
    match Py.div (inject_Z (increases window)) (Py.len window - 1) with
    | Some ratio => Some (Py.Qltb (85 # 100) ratio)
    | None => None
    end.

End MemoryModel.

(** ** device/network_model.py *)
Module NetworkModel.

(** The [device.network] group of the configuration. *)
Record config : Type := mk_config {
  net_type : string;
  max_bandwidth_kbps : Q;
  max_payload_bytes : Z;
  base_packet_loss_rate : Q;
  congestion_threshold : Q;
  congested_packet_loss_rate : Q
}.

Record t : Type := mk {
  cfg : config;
  bytes_sent_this_tick : Z;
  total_bytes_sent : Z;
  total_packets_sent : Z;
  total_packets_lost : Z;
  current_bandwidth_utilization : Q;
  peak_bandwidth_utilization : Q;
  congestion_events : Z;
  utilization_history : list Q
}.

Definition init (c : config) : t :=
  {| cfg := c;
     bytes_sent_this_tick := 0;
     total_bytes_sent := 0;
     total_packets_sent := 0;
     total_packets_lost := 0;
     current_bandwidth_utilization := 0;
     peak_bandwidth_utilization := 0;
     congestion_events := 0;
     utilization_history := [] |}.

(** What [transmit] returns. *)
Record result : Type := mk_result {
  success : bool;
  bytes_sent : Z;
  packet_loss : bool;
  congested : bool
}.

(** [transmit] once the uniform draw [u] of [np.random.random()] is known. *)
Definition transmit_with (u : Q) (payload_bytes : Z) (n : t) : result * t :=
  let is_congested :=
    Qle_bool (congestion_threshold (cfg n)) (current_bandwidth_utilization n) in
  let loss_rate :=
    if is_congested then congested_packet_loss_rate (cfg n)
    else base_packet_loss_rate (cfg n) in
  let packet_lost := Py.Qltb u loss_rate in
  if packet_lost then
    ({| success := false; bytes_sent := 0; packet_loss := true;
        congested := is_congested |},
     {| cfg := cfg n;
        bytes_sent_this_tick := bytes_sent_this_tick n;
        total_bytes_sent := total_bytes_sent n;
        total_packets_sent := (total_packets_sent n + 1)%Z;
        total_packets_lost := (total_packets_lost n + 1)%Z;
        current_bandwidth_utilization := current_bandwidth_utilization n;
        peak_bandwidth_utilization := peak_bandwidth_utilization n;
        congestion_events := congestion_events n;
        utilization_history := utilization_history n |})
  else
    let actual_bytes := Z.min payload_bytes (max_payload_bytes (cfg n)) in
    ({| success := true; bytes_sent := actual_bytes; packet_loss := false;
        congested := is_congested |},
     {| cfg := cfg n;
        bytes_sent_this_tick := (bytes_sent_this_tick n + actual_bytes)%Z;
        total_bytes_sent := (total_bytes_sent n + actual_bytes)%Z;
        total_packets_sent := (total_packets_sent n + 1)%Z;
        total_packets_lost := total_packets_lost n;
        current_bandwidth_utilization := current_bandwidth_utilization n;
        peak_bandwidth_utilization := peak_bandwidth_utilization n;
        congestion_events := congestion_events n;
        utilization_history := utilization_history n |}).

Definition transmit `{Runtime} (payload_bytes : Z) (n : t) (g : rng)
  : result * t * rng :=
  let (u, g') := np_random_random g in
  (transmit_with u payload_bytes n, g').

Definition tick (time_step_s : Q) (n : t) : t :=
  let max_bytes := (max_bandwidth_kbps (cfg n) * 1000 / 8) * time_step_s in
  let u0 :=
    if Py.Qltb 0 max_bytes
    then inject_Z (bytes_sent_this_tick n) / max_bytes
    else 0 in
  let u := Py.min 1 u0 in
  {| cfg := cfg n;
     bytes_sent_this_tick := 0;
     total_bytes_sent := total_bytes_sent n;
     total_packets_sent := total_packets_sent n;
     total_packets_lost := total_packets_lost n;
     current_bandwidth_utilization := u;
     peak_bandwidth_utilization :=
       if Py.Qltb (peak_bandwidth_utilization n) u then u
       else peak_bandwidth_utilization n;
     congestion_events :=
       if Qle_bool (congestion_threshold (cfg n)) u
       then (congestion_events n + 1)%Z else congestion_events n;
     utilization_history := utilization_history n ++ [u] |}.

Definition get_packet_loss_rate (n : t) : Q :=
  if (total_packets_sent n =? 0)%Z then 0
  else inject_Z (total_packets_lost n) / inject_Z (total_packets_sent n).

Definition get_state (n : t) : value :=
  VDict
    [("type"%string, VStr (net_type (cfg n)));
     ("bandwidth_utilization"%string,
      VNum (Py.round (current_bandwidth_utilization n) 4));
     ("peak_bandwidth_utilization"%string,
      VNum (Py.round (peak_bandwidth_utilization n) 4));
     ("total_bytes_sent"%string, VInt (total_bytes_sent n));
     ("total_packets_sent"%string, VInt (total_packets_sent n));
     ("total_packets_lost"%string, VInt (total_packets_lost n));
     ("packet_loss_rate"%string, VNum (Py.round (get_packet_loss_rate n) 4));
     ("congestion_events"%string, VInt (congestion_events n))].

Definition get_avg_utilization (n : t) : Q :=
  match utilization_history n with
  | [] => 0
  | _ => Py.sum (utilization_history n) / Py.len (utilization_history n)
  end.

End NetworkModel.

(** ** Runs of battery calls *)
Module BatteryRun.
Import BatteryModel.

Inductive call : Type :=
| Consume (operation : string) (duration_s : Q)
| Tick (active_operations : list string) (time_step_s : Q).

Definition do_call (c : call) (b : t) : t :=
  match c with
  | Consume operation duration_s => consume operation duration_s b
  | Tick active_operations time_step_s => tick active_operations time_step_s b
  end.

(** Durations are lengths of time. *)
Definition call_ok (c : call) : Prop :=
  match c with
  | Consume _ duration_s => 0 <= duration_s
  | Tick _ time_step_s => 0 <= time_step_s
  end.

(** A battery with a positive capacity whose operations draw current. *)
Definition config_ok (c : config) : Prop :=
  0 < cfg_capacity_mah c /\
  Forall (fun kv => 0 <= snd kv) (cfg_current_draw_ma c).

(** The batteries a run of calls can produce from a fresh one. *)
Inductive reachable (c : config) : t -> Prop :=
| reach_init : reachable c (init c)
| reach_call b k : reachable c b -> call_ok k -> reachable c (do_call k b).

(** What a call keeps fixed, and what it establishes. *)
Definition invariant (c : config) (b : t) : Prop :=
  capacity_mah b = cfg_capacity_mah c /\
  current_draw_ma b = cfg_current_draw_ma c /\
  0 <= remaining_mah b <= capacity_mah b /\
  (remaining_mah b == 0 -> depleted b = true).

End BatteryRun.

(** ** Runs with warning checks *)
Module WarningRun.
Import BatteryModel BatteryRun.

(** One step of a run: a battery call, or [check_warnings]. *)
Inductive event : Type :=
| Call (k : call)
| Check.

(** The warnings a run returns, in order, and the final battery. *)
Fixpoint run (evs : list event) (b : t) : option (list Q * t) :=
  match evs with
  | [] => Some ([], b)
  | Call k :: rest => run rest (do_call k b)
  | Check :: rest =>
      match check_warnings b with
      | None => None
      | Some (ws, b') =>
          match run rest b' with
          | None => None
          | Some (fired, b'') => Some (ws ++ fired, b'')
          end
      end
  end.

(** How often a threshold occurs among returned warnings. *)
Definition count (th : Q) (l : list Q) : nat :=
  List.length (filter (Qeq_bool th) l).

(** A small battery used in examples. *)
Definition demo_config : config :=
  {| cfg_capacity_mah := 10;
     cfg_voltage := 37 # 10;
     cfg_current_draw_ma :=
       [("sensing"%string, 15); ("processing"%string, 30);
        ("transmission"%string, 120); ("idle"%string, 1 # 2)];
     cfg_warning_thresholds := [5 # 100; 1 # 2; 2 # 10; 1 # 10] |}.

End WarningRun.

(** ** Dynamic access to snapshots

    What the simulator's [in], [x[k]] and [x.get(k, d)] do on the values a
    snapshot can hold; an exception is [None]. *)
Module PyDyn.

Notation "x <- e ;; k" :=
  (match e with Some x => k | None => None end)
  (at level 61, e at next level, right associativity).

Definition dict_of (v : value) : option (list (string * value)) :=
  match v with VDict d => Some d | _ => None end.

Fixpoint is_prefix (p s : string) : bool :=
  match p, s with
  | EmptyString, _ => true
  | String a p', String b s' => Ascii.eqb a b && is_prefix p' s'
  | String _ _, EmptyString => false
  end.

Fixpoint is_substring (p s : string) : bool :=
  is_prefix p s ||
  match s with
  | EmptyString => false
  | String _ s' => is_substring p s'
  end.

Definition is_str (k : string) (v : value) : bool :=
  match v with VStr s => String.eqb k s | _ => false end.

(** [k in v] for a string [k]. *)
Definition contains (k : string) (v : value) : option bool :=
  match v with
  | VDict d => Some (Py.dict_has k d)
  | VList l => Some (existsb (is_str k) l)
  | VStr s => Some (is_substring k s)
  | _ => None
  end.

(** [v.get(k, default)] *)
Definition get_default (k : string) (default : value) (v : value) : option value :=
  d <- dict_of v ;; Some (Py.get_or k default d).

(** [v.get(k)], with [None] as Python's default. *)
Definition get_none (k : string) (v : value) : option value :=
  get_default k VNone v.

(** [v[k]] for a string [k]. *)
Definition item (k : string) (v : value) : option value :=
  d <- dict_of v ;; Py.dict_get k d.

End PyDyn.

(** ** twin/digital_twin.py *)
Module DigitalTwin.
Import PyDyn.

Record history_entry : Type := mk_entry {
  h_tick : Z;
  h_state : value;
  h_drift : Q
}.

Record t : Type := mk {
  device_state : option value;
  predicted_state : option value;
  state_history : list history_entry;
  drift_history : list Q;
  total_syncs : Z;
  last_sync_tick : Z;
  sync_success_count : Z;
  sync_fail_count : Z;
  accuracy_history : list Q;
  current_drift : Q
}.

Definition init : t :=
  {| device_state := None;
     predicted_state := None;
     state_history := [];
     drift_history := [];
     total_syncs := 0;
     last_sync_tick := 0;
     sync_success_count := 0;
     sync_fail_count := 0;
     accuracy_history := [];
     current_drift := 0 |}.

(** The battery comparison of [_calculate_drift]: the term, if any. *)
Definition battery_diff (pred_bat actual_bat : value) : option (list Q) :=
  pr <- get_none "remaining_mah" pred_bat ;;
  if truthy pr then
    ar <- get_none "remaining_mah" actual_bat ;;
    if truthy ar then
      cap <- get_default "capacity_mah" (VNum 1000) actual_bat ;;
      p <- item "remaining_mah" pred_bat ;;
      a <- item "remaining_mah" actual_bat ;;
      pn <- as_num p ;;
      an <- as_num a ;;
      cn <- as_num cap ;;
      diff <- Py.div (Qabs (pn - an)) cn ;;
      Some [diff]
    else Some []
  else Some [].

(** The memory comparison of [_calculate_drift]. *)
Definition memory_diff (pred_mem actual_mem : value) : option (list Q) :=
  pt <- get_none "total_kb" pred_mem ;;
  if truthy pt then
    at_ <- get_none "total_kb" actual_mem ;;
    if truthy at_ then
      pu <- get_default "used_kb" (VNum 0) pred_mem ;;
      au <- get_default "used_kb" (VNum 0) actual_mem ;;
      pn <- as_num pu ;;
      an <- as_num au ;;
      total <- item "total_kb" actual_mem ;;
      tn <- as_num total ;;
      diff <- Py.div (Qabs (pn - an)) tn ;;
      Some [diff]
    else Some []
  else Some [].

(** The CPU comparison of [_calculate_drift]. *)
Definition cpu_diff (pred_cpu actual_cpu : value) : option (list Q) :=
  present <- contains "utilization" actual_cpu ;;
  if present then
    pu <- get_default "utilization" (VNum 0) pred_cpu ;;
    au <- get_default "utilization" (VNum 0) actual_cpu ;;
    pn <- as_num pu ;;
    an <- as_num au ;;
    Some [Qabs (pn - an)]
  else Some [].

Definition _calculate_drift (predicted actual : value) : option Q :=
  pred_bat <- get_default "battery" (VDict []) predicted ;;
  actual_bat <- get_default "battery" (VDict []) actual ;;
  d1 <- battery_diff pred_bat actual_bat ;;
  pred_mem <- get_default "memory" (VDict []) predicted ;;
  actual_mem <- get_default "memory" (VDict []) actual ;;
  d2 <- memory_diff pred_mem actual_mem ;;
  pred_cpu <- get_default "cpu" (VDict []) predicted ;;
  actual_cpu <- get_default "cpu" (VDict []) actual ;;
  d3 <- cpu_diff pred_cpu actual_cpu ;;
  let diffs := d1 ++ d2 ++ d3 in
  match diffs with
  | [] => Some 0
  | _ => Some (Py.sum diffs / Py.len diffs)
  end.

Definition receive_sync (state : value) (tick : Z) (tw : t) : option t :=
  drift <- match predicted_state tw with
           | Some predicted => _calculate_drift predicted state
           | None => Some 0
           end ;;
  Some {| device_state := Some state;
          predicted_state := Some state;
          state_history :=
            state_history tw ++
            [{| h_tick := tick; h_state := state; h_drift := drift |}];
          drift_history := drift_history tw ++ [drift];
          total_syncs := (total_syncs tw + 1)%Z;
          last_sync_tick := tick;
          sync_success_count := (sync_success_count tw + 1)%Z;
          sync_fail_count := sync_fail_count tw;
          accuracy_history := accuracy_history tw ++ [1 - drift];
          current_drift := drift |}.

Definition record_sync_failure (tick : Z) (tw : t) : t :=
  {| device_state := device_state tw;
     predicted_state := predicted_state tw;
     state_history := state_history tw;
     drift_history := drift_history tw;
     total_syncs := (total_syncs tw + 1)%Z;
     last_sync_tick := last_sync_tick tw;
     sync_success_count := sync_success_count tw;
     sync_fail_count := (sync_fail_count tw + 1)%Z;
     accuracy_history := accuracy_history tw;
     current_drift := current_drift tw |}.

(** The battery extrapolation of [tick] on the predicted snapshot. *)
Definition extrapolate (last_sync current_tick : Z) (predicted : value)
  : option value :=
  has_bat <- contains "battery" predicted ;;
  if has_bat then
    bat <- item "battery" predicted ;;
    has_rem <- contains "remaining_mah" bat ;;
    if has_rem then
      rem <- item "remaining_mah" bat ;;
      r <- as_num rem ;;
      if Py.Qltb 0 r then
        if (0 <? last_sync)%Z then
          consumed <- get_default "total_consumed_mah" (VNum 0) bat ;;
          c <- as_num consumed ;;
          let drain_rate := c / inject_Z (Z.max last_sync 1) in
          let r' := Py.max 0 (r - drain_rate * inject_Z (current_tick - last_sync)) in
          bd <- dict_of bat ;;
          pd <- dict_of predicted ;;
          Some (VDict (Py.dict_set "battery"
                         (VDict (Py.dict_set "remaining_mah" (VNum r') bd)) pd))
        else Some predicted
      else Some predicted
    else Some predicted
  else Some predicted.

Definition tick (current_tick : Z) (tw : t) : option t :=
  match predicted_state tw with
  | None => Some tw
  | Some predicted =>
      let ticks_since_sync := (current_tick - last_sync_tick tw)%Z in
      let drift := Py.min 1 (inject_Z ticks_since_sync * (5 # 10000)) in
      predicted' <- extrapolate (last_sync_tick tw) current_tick predicted ;;
      Some {| device_state := device_state tw;
              predicted_state := Some predicted';
              state_history := state_history tw;
              drift_history := drift_history tw ++ [drift];
              total_syncs := total_syncs tw;
              last_sync_tick := last_sync_tick tw;
              sync_success_count := sync_success_count tw;
              sync_fail_count := sync_fail_count tw;
              accuracy_history := accuracy_history tw ++ [Py.max 0 (1 - drift)];
              current_drift := drift |}
  end.

Definition get_avg_accuracy (tw : t) : Q :=
  match accuracy_history tw with
  | [] => 1
  | _ => Py.sum (accuracy_history tw) / Py.len (accuracy_history tw)
  end.

(** [max(l)] with its first index, for a non-empty list [x :: l]. *)
Fixpoint max_index (best : Q) (best_i i : Z) (l : list Q) : Q * Z :=
  match l with
  | [] => (best, best_i)
  | y :: rest =>
      if Py.Qltb best y then max_index y i (i + 1)%Z rest
      else max_index best best_i (i + 1)%Z rest
  end.

Definition get_max_drift (tw : t) : Q * Z :=
  match drift_history tw with
  | [] => (0, 0%Z)
  | x :: rest => max_index x 0%Z 1%Z rest
  end.

Definition get_sync_success_rate (tw : t) : Q :=
  if (total_syncs tw =? 0)%Z then 1
  else inject_Z (sync_success_count tw) / inject_Z (total_syncs tw).

Definition get_state (tw : t) : value :=
  let (max_drift, max_drift_tick) := get_max_drift tw in
  VDict
    [("device_state"%string,
      match device_state tw with Some s => s | None => VNone end);
     ("current_drift"%string, VNum (Py.round (current_drift tw) 4));
     ("avg_accuracy"%string, VNum (Py.round (get_avg_accuracy tw) 4));
     ("max_drift"%string, VNum (Py.round max_drift 4));
     ("max_drift_tick"%string, VInt max_drift_tick);
     ("total_syncs"%string, VInt (total_syncs tw));
     ("sync_success_rate"%string, VNum (Py.round (get_sync_success_rate tw) 4));
     ("last_sync_tick"%string, VInt (last_sync_tick tw))].

End DigitalTwin.

(** ** The drift metric in words

    [num_field sec k s] is the number stored under key [k] of section
    [sec] of snapshot [s], if that key is there. *)
Module DriftSpec.

Definition num_field (sec k : string) (s : value) : option Q :=
  match PyVal.get sec s with
  | Some (VDict d) =>
      match Py.dict_get k d with
      | Some (VNum q) => Some q
      | _ => None
      end
  | _ => None
  end.

Definition or_default (default : Q) (o : option Q) : Q :=
  match o with Some q => q | None => default end.

Definition mean (l : list Q) : Q :=
  match l with
  | [] => 0
  | _ => Py.sum l / Py.len l
  end.

(** The terms the code includes: the battery term when both snapshots
    carry [remaining_mah], normalised by the actual [capacity_mah] or
    1000; the memory term when both carry [total_kb]; the CPU term when
    the actual snapshot carries [utilization]. *)
Definition included_terms (predicted actual : value) : list Q :=
  match num_field "battery" "remaining_mah" predicted,
        num_field "battery" "remaining_mah" actual with
  | Some p, Some a =>
      [Qabs (p - a) / or_default 1000 (num_field "battery" "capacity_mah" actual)]
  | _, _ => []
  end ++
  match num_field "memory" "total_kb" predicted,
        num_field "memory" "total_kb" actual with
  | Some _, Some total =>
      [Qabs (or_default 0 (num_field "memory" "used_kb" predicted)
             - or_default 0 (num_field "memory" "used_kb" actual)) / total]
  | _, _ => []
  end ++
  match num_field "cpu" "utilization" actual with
  | Some a => [Qabs (or_default 0 (num_field "cpu" "utilization" predicted) - a)]
  | None => []
  end.

(** The terms as the specification words them: each comparison is gated
    on its normaliser being present in the actual snapshot. *)
Definition normalizer_terms (predicted actual : value) : list Q :=
  match num_field "battery" "capacity_mah" actual with
  | Some cap =>
      [Qabs (or_default 0 (num_field "battery" "remaining_mah" predicted)
             - or_default 0 (num_field "battery" "remaining_mah" actual)) / cap]
  | None => []
  end ++
  match num_field "memory" "total_kb" actual with
  | Some total =>
      [Qabs (or_default 0 (num_field "memory" "used_kb" predicted)
             - or_default 0 (num_field "memory" "used_kb" actual)) / total]
  | None => []
  end ++
  match num_field "cpu" "utilization" actual with
  | Some a => [Qabs (or_default 0 (num_field "cpu" "utilization" predicted) - a)]
  | None => []
  end.

(** Key [k] of section [sec], when present, holds a number (a non-zero
    one if [nonzero]); the section, when present, is a dict. *)
Definition field_ok (nonzero : bool) (sec k : string) (s : value) : bool :=
  match PyVal.get sec s with
  | None => true
  | Some (VDict d) =>
      match Py.dict_get k d with
      | None => true
      | Some (VNum q) => if nonzero then negb (Qeq_bool q 0) else true
      | Some _ => false
      end
  | Some _ => false
  end.

(** A snapshot whose compared fields are numbers, with no zero among
    the charges and the normalisers. *)
Definition comparable (s : value) : bool :=
  match s with VDict _ => true | _ => false end
  && field_ok true "battery" "remaining_mah" s
  && field_ok true "battery" "capacity_mah" s
  && field_ok true "memory" "total_kb" s
  && field_ok false "memory" "used_kb" s
  && field_ok false "cpu" "utilization" s.

End DriftSpec.

(** ** Sample snapshots (after tests/test_twin.py and tests/test_sync.py) *)
Module Samples.

(** [SAMPLE_STATE] of the sync tests: no [capacity_mah], no [total_kb]. *)
Definition sync_state (remaining : Q) (tick : Z) : value :=
  VDict
    [("cpu"%string, VDict [("utilization"%string, VNum (35 # 100))]);
     ("memory"%string,
      VDict [("utilization"%string, VNum (18 # 100));
             ("used_kb"%string, VNum 46)]);
     ("battery"%string,
      VDict [("percentage"%string, VNum 95);
             ("remaining_mah"%string, VNum remaining)]);
     ("network"%string,
      VDict [("bandwidth_utilization"%string, VNum (15 # 100))]);
     ("tick"%string, VInt tick)].

(** The compared part of [SAMPLE_DEVICE_STATE] of the twin tests. *)
Definition device_state (util used remaining : Q) (tick : Z) : value :=
  VDict
    [("cpu"%string, VDict [("utilization"%string, VNum util)]);
     ("memory"%string,
      VDict [("used_kb"%string, VNum used); ("total_kb"%string, VNum 256)]);
     ("battery"%string,
      VDict [("remaining_mah"%string, VNum remaining);
             ("capacity_mah"%string, VNum 1000);
             ("total_consumed_mah"%string, VNum (1000 - remaining));
             ("depleted"%string, VBool false)]);
     ("is_active"%string, VBool true);
     ("tick"%string, VInt tick)].

(** A twin that has received [s] at tick [tick]. *)
Definition synced (s : value) (tick : Z) : DigitalTwin.t :=
  match DigitalTwin.receive_sync s tick DigitalTwin.init with
  | Some tw => tw
  | None => DigitalTwin.init
  end.

End Samples.

(** ** Runs of the resource models *)
Module MemoryRun.
Import MemoryModel.

Definition config_ok (c : config) : Prop :=
  0 < total_ram_kb c /\ 0 <= base_usage_kb c /\ 0 <= per_reading_buffer_kb c.

Inductive reachable (c : config) : t -> Prop :=
| reach_init : reachable c (init c)
| reach_allocate m : reachable c m -> reachable c (allocate_sensor_buffer m)
| reach_free m count : reachable c m -> reachable c (free_sensor_buffers count m)
| reach_tick m dt : reachable c m -> 0 <= dt -> reachable c (tick dt m).

(** What every reachable memory satisfies. *)
Definition invariant (c : config) (m : t) : Prop :=
  cfg m = c /\ (0 <= buffer_count m)%Z /\ 0 <= leaked_kb m.

End MemoryRun.

Module NetworkRun.
Import NetworkModel.

Definition config_ok (c : config) : Prop := (0 <= max_payload_bytes c)%Z.

Inductive reachable (c : config) : t -> Prop :=
| reach_init : reachable c (init c)
| reach_transmit n u payload_bytes :
    reachable c n -> (0 <= payload_bytes)%Z ->
    reachable c (snd (transmit_with u payload_bytes n))
| reach_tick n dt : reachable c n -> reachable c (tick dt n).

End NetworkRun.

Module TwinRun.
Import DigitalTwin.

Inductive reachable : t -> Prop :=
| reach_init : reachable init
| reach_sync tw s tick tw' :
    reachable tw -> receive_sync s tick tw = Some tw' -> reachable tw'
| reach_failure tw tick : reachable tw -> reachable (record_sync_failure tick tw)
| reach_tick tw tick tw' :
    reachable tw -> DigitalTwin.tick tick tw = Some tw' -> reachable tw'.

(** The battery section of a predicted snapshot, when there is one,
    holds numbers where [tick] computes with them. *)
Definition battery_shape_ok (p : value) : bool :=
  match p with
  | VDict pd =>
      match Py.dict_get "battery" pd with
      | None => true
      | Some (VDict bd) =>
          match Py.dict_get "remaining_mah" bd with
          | None => true
          | Some r => is_numeric r
          end
          && match Py.dict_get "total_consumed_mah" bd with
             | None => true
             | Some c => is_numeric c
             end
      | Some _ => false
      end
  | _ => false
  end.

End TwinRun.

(** ** A runtime to run examples with

    A linear congruential generator stands in for numpy's; [sin] is a
    cubic, text sizes count characters of keys and strings.  Only the
    examples use it: every theorem holds for all runtimes. *)
Module ExampleRuntime.

Definition next (g : Z) : Z := ((g * 1103515245 + 12345) mod 2147483648)%Z.

(** A number in [[0, 1)] read off the generator state. *)
Definition unit_of (g : Z) : Q := inject_Z (g mod 1000) / 1000.

Fixpoint text_size (fuel : nat) (v : value) : Z :=
  match fuel with
  | O => 0
  | S fuel' =>
      match v with
      | VNone => 4
      | VBool _ => 5
      | VNum _ => 6
      | VStr s => Z.of_nat (String.length s) + 2
      | VList l => fold_left (fun acc x => acc + text_size fuel' x + 2) l 2
      | VDict d =>
          fold_left
            (fun acc kv =>
               acc + Z.of_nat (String.length (fst kv)) + 4
               + text_size fuel' (snd kv) + 2) d 2
      end
  end%Z.

Definition runtime : Runtime :=
  {| rng := Z;
     np_random_seed := fun seed => seed;
     np_random_normal :=
       fun loc scale g => (loc + scale * (2 * unit_of g - 1), next g);
     np_random_random := fun g => (unit_of g, next g);
     np_random_uniform :=
       fun lo hi g => (lo + (hi - lo) * unit_of g, next g);
     np_random_choice := fun l g => (nth (Z.to_nat (g mod 2)) l 0, next g);
     np_sin := fun x => x - x * x * x / 6;
     np_pi := 355 # 113;
     json_dumps_len := text_size 16;
     py_format :=
       fun spec v => match v with VStr s => s | _ => ("0" ++ spec)%string end |}.

(** Device groups of a small configuration. *)
Definition cpu_config : CPUModel.config :=
  {| CPUModel.cfg_clock_mhz := 48;
     CPUModel.cfg_task_costs :=
       [("sensing_cycles"%string, 5000000);
        ("processing_cycles"%string, 12000000);
        ("transmission_cycles"%string, 8000000)] |}.

Definition memory_config : MemoryModel.config :=
  {| MemoryModel.total_ram_kb := 256;
     MemoryModel.base_usage_kb := 40;
     MemoryModel.per_reading_buffer_kb := 1 # 2;
     MemoryModel.max_buffer_readings := 100;
     MemoryModel.leak_enabled := true;
     MemoryModel.leak_rate_kb_per_minute := 2 |}.

Definition network_config : NetworkModel.config :=
  {| NetworkModel.net_type := "LoRa";
     NetworkModel.max_bandwidth_kbps := 50;
     NetworkModel.max_payload_bytes := 256;
     NetworkModel.base_packet_loss_rate := 2 # 100;
     NetworkModel.congestion_threshold := 8 # 10;
     NetworkModel.congested_packet_loss_rate := 15 # 100 |}.

End ExampleRuntime.

(** ** analysis/predictive_maintenance.py *)
Module PredictiveMaintenance.
Import PyDyn.

Record t : Type := mk {
  total_kb : Q;
  battery_history : list (Z * Q);
  memory_history : list (Z * Q)
}.

(** [self.prediction_window], set once and for all in [__init__]. *)
Definition prediction_window : nat := 300.

(** [total_kb] is [config["device"]["memory"]["total_ram_kb"]]. *)
Definition init (total_ram_kb : Q) : t :=
  {| total_kb := total_ram_kb;
     battery_history := [];
     memory_history := [] |}.

(** [history.append((tick, section[key]))] when the key is there.  The
    histories hold numbers: a sample that is none is refused here, where
    Python would only fail in the later regression. *)
Definition sample (key : string) (tick : Z) (section : value)
    (history : list (Z * Q)) : option (list (Z * Q)) :=
  present <- contains key section ;;
  if present then
    v <- item key section ;;
    q <- as_num v ;;
    Some (history ++ [(tick, q)])
  else Some history.

Definition trim (max_history : nat) (history : list (Z * Q)) : list (Z * Q) :=
  if (max_history <? List.length history)%nat
  then Py.last_n max_history history
  else history.

Definition update (tick : Z) (device_state : value) (p : t) : option t :=
  bat <- get_default "battery" (VDict []) device_state ;;
  mem <- get_default "memory" (VDict []) device_state ;;
  bh <- sample "remaining_mah" tick bat (battery_history p) ;;
  mh <- sample "used_kb" tick mem (memory_history p) ;;
  let max_history := (prediction_window * 2)%nat in
  Some {| total_kb := total_kb p;
          battery_history := trim max_history bh;
          memory_history := trim max_history mh |}.




















End PredictiveMaintenance.

(** ** Sample histories *)
Module Histories.










End Histories.

(** ** sync/delta_sync.py *)
Module DeltaSync.
Import PyDyn.

(** A numeric leaf: [isinstance(v, (int, float))], which covers [bool]. *)
Inductive scalar : Type :=
| SNum (q : Q)
| SBool (b : bool).

Definition scalar_num (x : scalar) : Q :=
  match x with
  | SNum q => q
  | SBool b => if b then 1 else 0
  end.

Definition scalar_value (x : scalar) : value :=
  match x with
  | SNum q => VNum q
  | SBool b => VBool b
  end.

Record t : Type := mk {
  interval_s : Q;
  delta_threshold : Q;
  last_sync_tick : value;
  last_synced_state : option (list (string * scalar))
}.

(** [interval_s] and [delta_threshold] come from the [sync] group, with
    defaults 10 and 0.02. *)
Definition init (interval threshold : Q) : t :=
  {| interval_s := interval;
     delta_threshold := threshold;
     last_sync_tick := VInt 0;
     last_synced_state := None |}.

Definition should_sync (tick : Z) (s : t) : option bool :=
  last <- as_num (last_sync_tick s) ;;
  Some (Qle_bool (interval_s s) (inject_Z tick - last)).

(** [f"{prefix}.{key}" if prefix else key] *)
Definition full_key (prefix key : string) : string :=
  match prefix with
  | EmptyString => key
  | _ => (prefix ++ "." ++ key)%string
  end.

Fixpoint _flatten (d : value) (prefix : string)
    (result : list (string * scalar)) : list (string * scalar) :=
  match d with
  | VDict items =>
      (fix loop (items : list (string * value))
           (result : list (string * scalar)) : list (string * scalar) :=
         match items with
         | [] => result
         | (key, v) :: rest =>
             match v with
             | VNum q =>
                 loop rest (Py.dict_set (full_key prefix key) (SNum q) result)
             | VBool b =>
                 loop rest (Py.dict_set (full_key prefix key) (SBool b) result)
             | VDict _ => loop rest (_flatten v (full_key prefix key) result)
             | _ => loop rest result
             end
         end) items result
  | _ => result
  end.

Definition _extract_numerics (state : value) : list (string * scalar) :=
  _flatten state "" [].

Definition _changed_significantly (threshold old new : Q) : bool :=
  if Qeq_bool old 0 then negb (Qeq_bool new 0)
  else Py.Qltb threshold (Qabs (new - old) / Qabs old).

(** Whether the loop of [prepare_payload] emits [key]. *)
Definition emits (threshold : Q) (last : list (string * scalar))
    (key : string) (v : scalar) : bool :=
  match Py.dict_get key last with
  | None => true
  | Some old_value =>
      _changed_significantly threshold (scalar_num old_value) (scalar_num v)
  end.

Definition build_delta (threshold : Q) (last current : list (string * scalar))
  : list (string * scalar) :=
  fold_left
    (fun delta kv =>
       if emits threshold last (fst kv) (snd kv)
       then Py.dict_set (fst kv) (snd kv) delta
       else delta)
    current [].

Definition scalars_value (d : list (string * scalar)) : value :=
  VDict (map (fun kv => (fst kv, scalar_value (snd kv))) d).

Definition prepare_payload (device_state : value) (s : t) : option (value * t) :=
  match last_synced_state s with
  | None =>
      tick <- get_default "tick" (VInt 0) device_state ;;
      Some (VDict [("type"%string, VStr "full_state");
                   ("data"%string, device_state)],
            {| interval_s := interval_s s;
               delta_threshold := delta_threshold s;
               last_sync_tick := tick;
               last_synced_state := Some (_extract_numerics device_state) |})
  | Some last =>
      let current := _extract_numerics device_state in
      let delta := build_delta (delta_threshold s) last current in
      d <- dict_of device_state ;;
      l <- as_num (last_sync_tick s) ;;
      let tick := Py.get_or "tick" (VNum (l + interval_s s)) d in
      Some (VDict [("type"%string, VStr "delta");
                   ("data"%string, scalars_value delta);
                   ("fields_changed"%string,
                    VInt (Z.of_nat (List.length delta)));
                   ("fields_total"%string,
                    VInt (Z.of_nat (List.length current)))],
            {| interval_s := interval_s s;
               delta_threshold := delta_threshold s;
               last_sync_tick := tick;
               last_synced_state := Some current |})
  end.

(** A key changed significantly, as the specification words it. *)
Definition changed (threshold old new : Q) : Prop :=
  (old == 0 /\ ~ new == 0) \/
  (~ old == 0 /\ threshold < Qabs (new - old) / Qabs old).

End DeltaSync.

(** ** Induction over nested snapshots *)
Section ValueInduction.
Variable P : value -> Prop.
Hypothesis HNone : P VNone.
Hypothesis HBool : forall b, P (VBool b).
Hypothesis HNum : forall q, P (VNum q).
Hypothesis HStr : forall s, P (VStr s).
Hypothesis HList : forall l, Forall P l -> P (VList l).
Hypothesis HDict : forall d, Forall (fun kv => P (snd kv)) d -> P (VDict d).

Fixpoint value_nested_ind (v : value) : P v :=
  match v with
  | VNone => HNone
  | VBool b => HBool b
  | VNum q => HNum q
  | VStr s => HStr s
  | VList l =>
      HList l
        ((fix go (l : list value) : Forall P l :=
            match l with
            | [] => Forall_nil P
            | x :: rest => Forall_cons x (value_nested_ind x) (go rest)
            end) l)
  | VDict d =>
      HDict d
        ((fix go (d : list (string * value))
            : Forall (fun kv => P (snd kv)) d :=
            match d with
            | [] => Forall_nil _
            | kv :: rest =>
                Forall_cons kv (value_nested_ind (snd kv)) (go rest)
            end) d)
  end.

End ValueInduction.

(** ** Sample snapshots around the first sensor reading *)
Module DeltaSamples.

(** Before the first reading: [last_reading] is [None]. *)
Definition before_reading : value :=
  VDict
    [("cpu"%string, VDict [("utilization"%string, VNum (2 # 100))]);
     ("battery"%string, VDict [("remaining_mah"%string, VNum 1000)]);
     ("sensors"%string,
      VDict [("last_reading"%string, VNone);
             ("total_readings"%string, VInt 0)]);
     ("is_active"%string, VBool true);
     ("tick"%string, VInt 10)].

(** After it: the reading's fields are new keys of the flattened state. *)
Definition after_reading : value :=
  VDict
    [("cpu"%string, VDict [("utilization"%string, VNum (2 # 100))]);
     ("battery"%string, VDict [("remaining_mah"%string, VNum 999)]);
     ("sensors"%string,
      VDict [("last_reading"%string,
              VDict [("temperature"%string, VNum 25);
                     ("anomalies"%string, VList [])]);
             ("total_readings"%string, VInt 1)]);
     ("is_active"%string, VBool true);
     ("tick"%string, VInt 20)].

(** The strategy after its first payload, for [before_reading]. *)
Definition after_first : DeltaSync.t :=
  match DeltaSync.prepare_payload before_reading
          (DeltaSync.init 10 (2 # 100)) with
  | Some (_, s) => s
  | None => DeltaSync.init 10 (2 # 100)
  end.

End DeltaSamples.

(** ** device/sensor_data.py *)
Module SensorDataGenerator.

(** One of [sensors.temperature] and [sensors.humidity]. *)
Record channel : Type := mk_channel {
  base_value : Q;
  noise_std_dev : Q;
  anomaly_probability : Q;
  anomaly_spike_range : Q * Q
}.

(** [sensors.light] *)
Record light_channel : Type := mk_light {
  light_noise_std_dev : Q;
  day_value : Q;
  night_value : Q;
  cycle_period_hours : Q
}.

Record anomaly : Type := mk_anomaly {
  a_tick : Z;
  a_sensor : string;
  a_value : Q
}.

Record t : Type := mk {
  temp_config : channel;
  humid_config : channel;
  light_config : light_channel;
  total_anomalies : Z;
  anomaly_log : list anomaly
}.

Definition init (temp humid : channel) (light : light_channel) : t :=
  {| temp_config := temp; humid_config := humid; light_config := light;
     total_anomalies := 0; anomaly_log := [] |}.

(** The draws shared by the temperature and humidity channels: the
    noise, the anomaly Bernoulli and, for an anomaly, the signed spike. *)
Definition draw_channel `{Runtime} (c : channel) (g : rng)
  : Q * bool * rng :=
  let (noise, g1) := np_random_normal 0 (noise_std_dev c) g in
  let (u, g2) := np_random_random g1 in
  if Py.Qltb u (anomaly_probability c) then
    let (spike, g3) :=
      np_random_uniform (fst (anomaly_spike_range c))
        (snd (anomaly_spike_range c)) g2 in
    let (sign, g4) := np_random_choice [-1; 1] g3 in
    (spike * sign, true, g4)
  else (noise, false, g2).

Definition _generate_temperature `{Runtime} (tick : Z) (s : t) (g : rng)
  : Q * bool * rng :=
  let '(offset, is_anomaly, g') := draw_channel (temp_config s) g in
  let time_hours := inject_Z tick / 3600 in
  let drift := 2 * np_sin (2 * np_pi * time_hours / 24) in
  (base_value (temp_config s) + drift + offset, is_anomaly, g').

Definition _generate_humidity `{Runtime} (tick : Z) (s : t) (g : rng)
  : Q * bool * rng :=
  let '(offset, is_anomaly, g') := draw_channel (humid_config s) g in
  (Py.max 0 (Py.min 100 (base_value (humid_config s) + offset)),
   is_anomaly, g').

(** [x % y] on floats, raising when [y == 0]. *)
Definition fmod (x y : Q) : option Q :=
  if Qeq_bool y 0 then None
  else Some (x - inject_Z (Qfloor (x / y)) * y).

Definition _generate_light `{Runtime} (tick : Z) (time_step_s : Q) (s : t)
    (g : rng) : option (Q * rng) :=
  let time_hours := inject_Z tick * time_step_s / 3600 in
  let cycle := cycle_period_hours (light_config s) in
  match fmod time_hours cycle with
  | None => None
  | Some r =>
      let phase := r / cycle * 2 * np_pi in
      let sine_val := np_sin (phase - np_pi / 2) in
      let normalized := (sine_val + 1) / 2 in
      let base_light :=
        night_value (light_config s)
        + (day_value (light_config s) - night_value (light_config s))
          * normalized in
      let (noise, g') :=
        np_random_normal 0 (light_noise_std_dev (light_config s)) g in
      Some (Py.max 0 (base_light + noise), g')
  end.

Definition log_anomaly (tick : Z) (sensor : string) (v : Q) (s : t) : t :=
  {| temp_config := temp_config s;
     humid_config := humid_config s;
     light_config := light_config s;
     total_anomalies := (total_anomalies s + 1)%Z;
     anomaly_log :=
       anomaly_log s
       ++ [{| a_tick := tick; a_sensor := sensor; a_value := v |}] |}.

Definition generate_reading `{Runtime} (tick : Z) (time_step_s : Q) (s : t)
    (g : rng) : option (value * t * rng) :=
  let '(temp, temp_anomaly, g1) := _generate_temperature tick s g in
  let '(humidity, humid_anomaly, g2) := _generate_humidity tick s g1 in
  match _generate_light tick time_step_s s g2 with
  | None => None
  | Some (light, g3) =>
      let s1 := if temp_anomaly then log_anomaly tick "temperature" temp s
                else s in
      let s2 := if humid_anomaly then log_anomaly tick "humidity" humidity s1
                else s1 in
      let anomalies :=
        (if temp_anomaly then [VStr "temperature"] else [])
        ++ (if humid_anomaly then [VStr "humidity"] else []) in
      Some (VDict [("temperature"%string, VNum (Py.round temp 2));
                   ("humidity"%string, VNum (Py.round humidity 2));
                   ("light"%string, VNum (Py.round light 1));
                   ("anomalies"%string, VList anomalies)],
            s2, g3)
  end.

End SensorDataGenerator.

(** ** device/sensor_node.py *)
Module SensorNode.
Import PyDyn.

Record t : Type := mk {
  sampling_rate_s : Z;
  cpu : CPUModel.t;
  memory : MemoryModel.t;
  battery : BatteryModel.t;
  network : NetworkModel.t;
  sensors : SensorDataGenerator.t;
  tick_count : Z;
  total_readings : Z;
  last_reading : option value;
  is_active : bool
}.

(** [SensorNode(config)] from the groups of the configuration it reads. *)
Definition init (sampling_rate_seconds : Z) (processor : CPUModel.config)
    (mem : MemoryModel.config) (bat : BatteryModel.config)
    (net : NetworkModel.config)
    (temperature humidity : SensorDataGenerator.channel)
    (light : SensorDataGenerator.light_channel) : t :=
  {| sampling_rate_s := sampling_rate_seconds;
     cpu := CPUModel.init processor;
     memory := MemoryModel.init mem;
     battery := BatteryModel.init bat;
     network := NetworkModel.init net;
     sensors := SensorDataGenerator.init temperature humidity light;
     tick_count := 0;
     total_readings := 0;
     last_reading := None;
     is_active := true |}.

(** What [tick] returns. *)
Record tick_result : Type := mk_result {
  r_tick : Z;
  r_is_active : bool;
  new_reading : option value;
  is_sensing_tick : bool;
  battery_warnings : list Q;
  state : value
}.

(** What [transmit_data] returns. *)
Inductive tx_result : Type :=
| DeviceInactive
| Transmitted (r : NetworkModel.result).

Definition tx_success (r : tx_result) : bool :=
  match r with
  | DeviceInactive => false
  | Transmitted r => NetworkModel.success r
  end.

Definition get_full_state (n : t) : option value :=
  mem <- MemoryModel.get_state (memory n) ;;
  bat <- BatteryModel.get_state (battery n) ;;
  Some (VDict
    [("cpu"%string, CPUModel.get_state (cpu n));
     ("memory"%string, mem);
     ("battery"%string, bat);
     ("network"%string, NetworkModel.get_state (network n));
     ("sensors"%string,
      VDict [("last_reading"%string,
              match last_reading n with Some r => r | None => VNone end);
             ("total_readings"%string, VInt (total_readings n));
             ("anomaly_count"%string,
              VInt (SensorDataGenerator.total_anomalies (sensors n)))]);
     ("is_active"%string, VBool (is_active n));
     ("tick"%string, VInt (tick_count n))]).

Definition set_active (a : bool) (n : t) : t :=
  {| sampling_rate_s := sampling_rate_s n; cpu := cpu n; memory := memory n;
     battery := battery n; network := network n; sensors := sensors n;
     tick_count := tick_count n; total_readings := total_readings n;
     last_reading := last_reading n; is_active := a |}.

Definition _get_inactive_state (n : t) : option tick_result :=
  st <- get_full_state n ;;
  Some {| r_tick := tick_count n; r_is_active := false; new_reading := None;
          is_sensing_tick := false; battery_warnings := []; state := st |}.

(** [a % b == 0] on ints, raising when [b] is zero. *)
Definition divides (b a : Z) : option bool :=
  if (b =? 0)%Z then None else Some ((a mod b =? 0)%Z).

Definition tick `{Runtime} (time_step_s : Q) (n : t) (g : rng)
  : option (tick_result * t * rng) :=
  if negb (is_active n) || BatteryModel.depleted (battery n) then
    let n' := set_active false n in
    r <- _get_inactive_state n' ;;
    Some (r, n', g)
  else
    let tick_count' := (tick_count n + 1)%Z in
    sensing <- divides (sampling_rate_s n) tick_count' ;;
    sensed <-
      (if sensing then
         let cpu1 := CPUModel.schedule_task "sensing" (cpu n) in
         gen <- SensorDataGenerator.generate_reading tick_count' time_step_s
                  (sensors n) g ;;
         let '(reading, sensors', g1) := gen in
         let memory1 := MemoryModel.allocate_sensor_buffer (memory n) in
         let cpu2 := CPUModel.schedule_task "processing" cpu1 in
         Some (cpu2, memory1, sensors', Some reading,
               (total_readings n + 1)%Z, Some reading,
               ["sensing"; "processing"]%string, g1)
       else
         Some (cpu n, memory n, sensors n, last_reading n,
               total_readings n, None, ["idle"%string], g)) ;;
    let '(cpu1, memory1, sensors1, last1, readings1, new1, active_operations, g1)
      := sensed in
    let (cpu2, g2) := CPUModel.tick time_step_s cpu1 g1 in
    let memory2 := MemoryModel.tick time_step_s memory1 in
    let battery2 := BatteryModel.tick active_operations time_step_s (battery n) in
    let network2 := NetworkModel.tick time_step_s (network n) in
    checked <- BatteryModel.check_warnings battery2 ;;
    let (warnings, battery3) := checked in
    let n' :=
      {| sampling_rate_s := sampling_rate_s n; cpu := cpu2; memory := memory2;
         battery := battery3; network := network2; sensors := sensors1;
         tick_count := tick_count'; total_readings := readings1;
         last_reading := last1; is_active := is_active n |} in
    st <- get_full_state n' ;;
    Some ({| r_tick := tick_count'; r_is_active := is_active n;
             new_reading := new1; is_sensing_tick := sensing;
             battery_warnings := warnings; state := st |},
          n', g2).

(** [tx_duration_s] of [transmit_data]. *)
Definition tx_duration (payload_bytes : Z) (max_bandwidth_kbps : Q) : Q :=
  let max_bytes_per_sec := max_bandwidth_kbps * 1000 / 8 in
  if Py.Qltb 0 max_bytes_per_sec
  then inject_Z payload_bytes / max_bytes_per_sec
  else 1.

Definition transmit_data `{Runtime} (payload_bytes : Z) (n : t) (g : rng)
  : tx_result * t * rng :=
  if negb (is_active n) then (DeviceInactive, n, g)
  else
    let cpu1 := CPUModel.schedule_task "transmission" (cpu n) in
    let tx_duration_s :=
      tx_duration payload_bytes
        (NetworkModel.max_bandwidth_kbps (NetworkModel.cfg (network n))) in
    let battery1 := BatteryModel.consume "transmission" tx_duration_s (battery n) in
    let '(result, network1, g1) :=
      NetworkModel.transmit payload_bytes (network n) g in
    let memory1 :=
      if NetworkModel.success result
      then MemoryModel.free_sensor_buffers None (memory n)
      else memory n in
    (Transmitted result,
     {| sampling_rate_s := sampling_rate_s n; cpu := cpu1; memory := memory1;
        battery := battery1; network := network1; sensors := sensors n;
        tick_count := tick_count n; total_readings := total_readings n;
        last_reading := last_reading n; is_active := is_active n |},
     g1).

End SensorNode.

(** ** A small device to run examples on *)
Module ExampleDevice.

Definition temperature : SensorDataGenerator.channel :=
  {| SensorDataGenerator.base_value := 25;
     SensorDataGenerator.noise_std_dev := 1 # 2;
     SensorDataGenerator.anomaly_probability := 1 # 100;
     SensorDataGenerator.anomaly_spike_range := (10, 20) |}.

Definition humidity : SensorDataGenerator.channel :=
  {| SensorDataGenerator.base_value := 60;
     SensorDataGenerator.noise_std_dev := 2;
     SensorDataGenerator.anomaly_probability := 1 # 100;
     SensorDataGenerator.anomaly_spike_range := (20, 40) |}.

Definition light : SensorDataGenerator.light_channel :=
  {| SensorDataGenerator.light_noise_std_dev := 10;
     SensorDataGenerator.day_value := 800;
     SensorDataGenerator.night_value := 5;
     SensorDataGenerator.cycle_period_hours := 24 |}.

(** A fresh node with the given radio and the demo battery. *)
Definition node (net : NetworkModel.config) : SensorNode.t :=
  {| SensorNode.sampling_rate_s := 10;
     SensorNode.cpu := CPUModel.init ExampleRuntime.cpu_config;
     SensorNode.memory := MemoryModel.init ExampleRuntime.memory_config;
     SensorNode.battery := BatteryModel.init WarningRun.demo_config;
     SensorNode.network := NetworkModel.init net;
     SensorNode.sensors := SensorDataGenerator.init temperature humidity light;
     SensorNode.tick_count := 0;
     SensorNode.total_readings := 0;
     SensorNode.last_reading := None;
     SensorNode.is_active := true |}.

(** The demo radio with another bandwidth. *)
Definition radio (kbps : Q) : NetworkModel.config :=
  {| NetworkModel.net_type := "LoRa";
     NetworkModel.max_bandwidth_kbps := kbps;
     NetworkModel.max_payload_bytes := 256;
     NetworkModel.base_packet_loss_rate := 2 # 100;
     NetworkModel.congestion_threshold := 8 # 10;
     NetworkModel.congested_packet_loss_rate := 15 # 100 |}.

End ExampleDevice.

(** ** sync/full_state_sync.py *)
Module FullStateSync.
Import PyDyn.

Record t : Type := mk {
  interval_s : Q;
  last_sync_tick : value
}.

Definition init (interval : Q) : t :=
  {| interval_s := interval; last_sync_tick := VInt 0 |}.

Definition should_sync (tick : Z) (s : t) : option bool :=
  last <- as_num (last_sync_tick s) ;;
  Some (Qle_bool (interval_s s) (inject_Z tick - last)).

Definition prepare_payload (device_state : value) (s : t) : option (value * t) :=
  d <- dict_of device_state ;;
  l <- as_num (last_sync_tick s) ;;
  Some (VDict [("type"%string, VStr "full_state");
               ("data"%string, device_state)],
        {| interval_s := interval_s s;
           last_sync_tick := Py.get_or "tick" (VNum (l + interval_s s)) d |}).

End FullStateSync.

(** ** sync/event_driven_sync.py *)
Module EventDrivenSync.
Import PyDyn.

Record t : Type := mk {
  change_threshold : Q;
  max_silent_interval : Q;
  last_sync_tick : value;
  last_synced_state : option value
}.

Definition init (threshold interval : Q) : t :=
  {| change_threshold := threshold;
     max_silent_interval := interval * 6;
     last_sync_tick := VInt 0;
     last_synced_state := None |}.

(** [state.get(section, {}).get(field, 0)] as a number. *)
Definition metric (section field : string) (state : value) : option Q :=
  sec <- get_default section (VDict []) state ;;
  v <- get_default field (VNum 0) sec ;;
  as_num v.

Definition checks : list (string * string) :=
  [("cpu", "utilization"); ("memory", "utilization");
   ("battery", "percentage"); ("network", "bandwidth_utilization")]%string.

(** The loop of [_detect_significant_change]: it stops at the first
    metric that moved. *)
Fixpoint detect_loop (threshold : Q) (last current : value)
    (cs : list (string * string)) : option bool :=
  match cs with
  | [] => Some false
  | (section, field) :: rest =>
      old_val <- metric section field last ;;
      new_val <- metric section field current ;;
      if Py.Qltb threshold (Qabs (new_val - old_val)) then Some true
      else detect_loop threshold last current rest
  end.

Definition _detect_significant_change (current_state : value) (s : t)
  : option bool :=
  match last_synced_state s with
  | None => Some true
  | Some last => detect_loop (change_threshold s) last current_state checks
  end.

Definition should_sync (tick : Z) (device_state : value) (s : t) : option bool :=
  last <- as_num (last_sync_tick s) ;;
  if Qle_bool (max_silent_interval s) (inject_Z tick - last) then Some true
  else
    match last_synced_state s with
    | None => Some true
    | Some _ => _detect_significant_change device_state s
    end.

Definition prepare_payload (device_state : value) (s : t) : option (value * t) :=
  d <- dict_of device_state ;;
  Some (VDict [("type"%string, VStr "event_driven");
               ("data"%string, device_state)],
        {| change_threshold := change_threshold s;
           max_silent_interval := max_silent_interval s;
           last_sync_tick := Py.get_or "tick" (last_sync_tick s) d;
           last_synced_state :=
             Some (VDict
               [("cpu"%string, Py.get_or "cpu" (VDict []) d);
                ("memory"%string, Py.get_or "memory" (VDict []) d);
                ("battery"%string, Py.get_or "battery" (VDict []) d);
                ("network"%string, Py.get_or "network" (VDict []) d)]) |}).

End EventDrivenSync.

(** ** sync/adaptive_sync.py *)
Module AdaptiveSync.
Import PyDyn.

(** The [sync.adaptive_config] group. *)
Record config : Type := mk_config {
  high_battery_interval : Q;
  medium_battery_interval : Q;
  low_battery_interval : Q;
  high_battery_threshold : Q;
  low_battery_threshold : Q
}.

Record t : Type := mk {
  cfg : config;
  last_sync_tick : value;
  current_interval : Q
}.

Definition init (c : config) : t :=
  {| cfg := c; last_sync_tick := VInt 0;
     current_interval := high_battery_interval c |}.

Definition _update_interval (battery_pct : Q) (s : t) : t :=
  {| cfg := cfg s;
     last_sync_tick := last_sync_tick s;
     current_interval :=
       if Py.Qltb (high_battery_threshold (cfg s)) battery_pct
       then high_battery_interval (cfg s)
       else if Py.Qltb (low_battery_threshold (cfg s)) battery_pct
       then medium_battery_interval (cfg s)
       else low_battery_interval (cfg s) |}.

Definition should_sync (tick : Z) (battery_pct : Q) (s : t) : option (bool * t) :=
  let s' := _update_interval battery_pct s in
  last <- as_num (last_sync_tick s') ;;
  Some (Qle_bool (current_interval s') (inject_Z tick - last), s').

Definition prepare_payload (device_state : value) (s : t) : option (value * t) :=
  d <- dict_of device_state ;;
  Some (VDict [("type"%string, VStr "adaptive");
               ("interval_used"%string, VNum (current_interval s));
               ("data"%string, device_state)],
        {| cfg := cfg s;
           last_sync_tick := Py.get_or "tick" (last_sync_tick s) d;
           current_interval := current_interval s |}).

End AdaptiveSync.

(** ** sync/sync_engine.py *)
Module SyncEngine.
Import PyDyn.

(** The [sync] group; each field is what [config.get(key, default)] yields. *)
Record config : Type := mk_config {
  default_strategy : string;
  full_state_interval_s : Q;
  delta_threshold : Q;
  event_change_threshold : Q;
  adaptive_config : AdaptiveSync.config
}.

(** The instance [STRATEGY_MAP] builds. *)
Inductive strategy : Type :=
| FullState (s : FullStateSync.t)
| Delta (s : DeltaSync.t)
| EventDriven (s : EventDrivenSync.t)
| Adaptive (s : AdaptiveSync.t).

Record sync_event : Type := mk_event {
  e_tick : Z;
  e_size_bytes : Z;
  e_success : bool;
  e_strategy : string
}.

Record t : Type := mk {
  strategy_name : string;
  the_strategy : strategy;
  total_syncs : Z;
  total_bytes_synced : Z;
  sync_events : list sync_event
}.

(** [STRATEGY_MAP[name](sync_config)]; an unknown name is a [ValueError]. *)
Definition make_strategy (c : config) (name : string) : option strategy :=
  if String.eqb name "full_state" then
    Some (FullState (FullStateSync.init (full_state_interval_s c)))
  else if String.eqb name "delta" then
    Some (Delta (DeltaSync.init (full_state_interval_s c) (delta_threshold c)))
  else if String.eqb name "event_driven" then
    Some (EventDriven (EventDrivenSync.init (event_change_threshold c)
                         (full_state_interval_s c)))
  else if String.eqb name "adaptive" then
    Some (Adaptive (AdaptiveSync.init (adaptive_config c)))
  else None.

Definition init (c : config) (name : string) : option t :=
  let name' := if String.eqb name "" then default_strategy c else name in
  st <- make_strategy c name' ;;
  Some {| strategy_name := name'; the_strategy := st; total_syncs := 0;
          total_bytes_synced := 0; sync_events := [] |}.

Definition with_strategy (st : strategy) (e : t) : t :=
  {| strategy_name := strategy_name e; the_strategy := st;
     total_syncs := total_syncs e;
     total_bytes_synced := total_bytes_synced e;
     sync_events := sync_events e |}.

Definition should_sync (tick : Z) (device_state : value) (battery_pct : Q)
    (e : t) : option (bool * t) :=
  match the_strategy e with
  | FullState s => b <- FullStateSync.should_sync tick s ;; Some (b, e)
  | Delta s => b <- DeltaSync.should_sync tick s ;; Some (b, e)
  | EventDriven s =>
      b <- EventDrivenSync.should_sync tick device_state s ;; Some (b, e)
  | Adaptive s =>
      r <- AdaptiveSync.should_sync tick battery_pct s ;;
      Some (fst r, with_strategy (Adaptive (snd r)) e)
  end.

(** [prepare_payload]: the payload, its [size_bytes], the engine. *)
Definition prepare_payload `{Runtime} (device_state : value) (e : t)
  : option (value * Z * t) :=
  r <- match the_strategy e with
       | FullState s =>
           r <- FullStateSync.prepare_payload device_state s ;;
           Some (fst r, FullState (snd r))
       | Delta s =>
           r <- DeltaSync.prepare_payload device_state s ;;
           Some (fst r, Delta (snd r))
       | EventDriven s =>
           r <- EventDrivenSync.prepare_payload device_state s ;;
           Some (fst r, EventDriven (snd r))
       | Adaptive s =>
           r <- AdaptiveSync.prepare_payload device_state s ;;
           Some (fst r, Adaptive (snd r))
       end ;;
  let (payload, st) := r in
  Some (payload, json_dumps_len payload, with_strategy st e).

Definition record_sync (tick size_bytes : Z) (success : bool) (e : t) : t :=
  {| strategy_name := strategy_name e;
     the_strategy := the_strategy e;
     total_syncs := (total_syncs e + 1)%Z;
     total_bytes_synced :=
       if success then (total_bytes_synced e + size_bytes)%Z
       else total_bytes_synced e;
     sync_events :=
       sync_events e
       ++ [{| e_tick := tick; e_size_bytes := size_bytes;
              e_success := success; e_strategy := strategy_name e |}] |}.

(** The [avg_payload_bytes] entry of [get_stats]. *)
Definition avg_payload_bytes (e : t) : Q :=
  if (0 <? total_syncs e)%Z
  then inject_Z (total_bytes_synced e) / inject_Z (total_syncs e)
  else 0.

Definition get_stats (e : t) : value :=
  VDict
    [("strategy"%string, VStr (strategy_name e));
     ("total_syncs"%string, VInt (total_syncs e));
     ("total_bytes_synced"%string, VInt (total_bytes_synced e));
     ("avg_payload_bytes"%string, VNum (avg_payload_bytes e))].

End SyncEngine.

(** ** Equality of snapshots *)
Module PyEq.

(** [a == b]: numbers by value ([True == 1]), lists pointwise, dicts by
    key whatever the order. *)
Fixpoint eqb (a b : value) {struct a} : bool :=
  match a, b with
  | VNone, VNone => true
  | VStr s, VStr s' => String.eqb s s'
  | VNum q, VNum q' => Qeq_bool q q'
  | VNum q, VBool b' => Qeq_bool q (if b' then 1 else 0)
  | VBool b', VNum q => Qeq_bool (if b' then 1 else 0) q
  | VBool x, VBool y => Bool.eqb x y
  | VList l, VList l' =>
      (fix go (l l' : list value) : bool :=
         match l, l' with
         | [], [] => true
         | x :: r, y :: r' => eqb x y && go r r'
         | _, _ => false
         end) l l'
  | VDict d, VDict d' =>
      (List.length d =? List.length d')%nat
      && (fix go (d : list (string * value)) : bool :=
            match d with
            | [] => true
            | (k, x) :: r =>
                match Py.dict_get k d' with
                | Some y => eqb x y
                | None => false
                end && go r
            end) d
  | _, _ => false
  end.

End PyEq.

(** ** edge/data_filter.py *)
Module DataFilter.
Import PyDyn.

Record t : Type := mk {
  window_size : nat;
  windows : list (string * list Q)
}.

Definition init (size : nat) : t := {| window_size := size; windows := [] |}.

(** [deque(maxlen=n).append(x)] *)
Definition deque_append (maxlen : nat) (x : Q) (w : list Q) : list Q :=
  Py.last_n maxlen (w ++ [x]).

(** One turn of the loop of [filter_reading], for sensor [key].  The
    windows hold numbers: a reading that is none is refused when it
    enters its window, where Python would fail on its first average. *)
Definition filter_key (key : string) (reading : list (string * value))
    (acc : list (string * value) * t) : option (list (string * value) * t) :=
  let (filtered, f) := acc in
  match Py.dict_get key reading with
  | None => Some acc
  | Some v =>
      x <- as_num v ;;
      let w := deque_append (window_size f) x (Py.get_or key [] (windows f)) in
      let f' := {| window_size := window_size f;
                   windows := Py.dict_set key w (windows f) |} in
      if (2 <=? List.length w)%nat
      then Some (Py.dict_set key (VNum (Py.round (Py.sum w / Py.len w) 2))
                   filtered, f')
      else Some (filtered, f')
  end.

Definition filter_reading (reading : value) (f : t) : option (value * t) :=
  d <- dict_of reading ;;
  r1 <- filter_key "temperature" d (d, f) ;;
  r2 <- filter_key "humidity" d r1 ;;
  r3 <- filter_key "light" d r2 ;;
  Some (VDict (fst r3), snd r3).

End DataFilter.

(** ** edge/compressor.py *)
Module DataCompressor.

Record t : Type := mk {
  compression_ratio : Q;
  total_original_bytes : Z;
  total_compressed_bytes : Z
}.

Definition init (ratio : Q) : t :=
  {| compression_ratio := ratio; total_original_bytes := 0;
     total_compressed_bytes := 0 |}.

Definition estimate_compressed_size (original_bytes : Z) (c : t) : Z * t :=
  let compressed := Py.int (inject_Z original_bytes * compression_ratio c) in
  (compressed,
   {| compression_ratio := compression_ratio c;
      total_original_bytes := (total_original_bytes c + original_bytes)%Z;
      total_compressed_bytes := (total_compressed_bytes c + compressed)%Z |}).

Definition get_savings_pct (c : t) : Q :=
  if (total_original_bytes c =? 0)%Z then 0
  else
    let saved := (total_original_bytes c - total_compressed_bytes c)%Z in
    (inject_Z saved / inject_Z (total_original_bytes c)) * 100.

End DataCompressor.

(** ** edge/priority_queue.py *)
Module PriorityDataQueue.

Record t : Type := mk {
  critical_queue : list value;
  normal_queue : list value;
  total_critical : Z;
  total_normal : Z
}.

Definition init : t :=
  {| critical_queue := []; normal_queue := []; total_critical := 0;
     total_normal := 0 |}.

Definition enqueue (data : value) (priority : string) (q : t) : t :=
  if String.eqb priority "critical" then
    {| critical_queue := critical_queue q ++ [data];
       normal_queue := normal_queue q;
       total_critical := (total_critical q + 1)%Z;
       total_normal := total_normal q |}
  else
    {| critical_queue := critical_queue q;
       normal_queue := normal_queue q ++ [data];
       total_critical := total_critical q;
       total_normal := (total_normal q + 1)%Z |}.

Definition dequeue_critical (q : t) : list value * t :=
  (critical_queue q,
   {| critical_queue := [];
      normal_queue := normal_queue q;
      total_critical := total_critical q;
      total_normal := total_normal q |}).

(** [range(min(batch_size, len(normal_queue)))] is empty when
    [batch_size] is negative. *)
Definition dequeue_normal (batch_size : Z) (q : t) : list value * t :=
  let n := Z.to_nat (Z.min batch_size (Z.of_nat (List.length (normal_queue q)))) in
  (firstn n (normal_queue q),
   {| critical_queue := critical_queue q;
      normal_queue := skipn n (normal_queue q);
      total_critical := total_critical q;
      total_normal := total_normal q |}).

Definition has_critical (q : t) : bool :=
  (0 <? List.length (critical_queue q))%nat.

Definition get_stats (q : t) : value :=
  VDict
    [("critical_pending"%string, VInt (Z.of_nat (List.length (critical_queue q))));
     ("normal_pending"%string, VInt (Z.of_nat (List.length (normal_queue q))));
     ("total_critical_processed"%string, VInt (total_critical q));
     ("total_normal_processed"%string, VInt (total_normal q))].

End PriorityDataQueue.

(** ** edge/edge_processor.py *)
Module EdgeProcessor.
Import PyDyn.

(** The [edge] group; each field is what [.get(key, default)] yields. *)
Record config : Type := mk_config {
  cfg_enabled : bool;
  cfg_compression_enabled : bool;
  cfg_anomaly_immediate_sync : bool;
  cfg_filter_window_size : nat;
  cfg_compression_ratio : Q
}.

Record t : Type := mk {
  enabled : bool;
  compression_enabled : bool;
  anomaly_immediate_sync : bool;
  data_filter : DataFilter.t;
  compressor : DataCompressor.t;
  priority_queue : PriorityDataQueue.t;
  total_processed : Z;
  total_filtered : Z;
  total_compressed_bytes_saved : Z;
  anomalies_fast_tracked : Z
}.

Definition init (c : config) : t :=
  {| enabled := cfg_enabled c;
     compression_enabled := cfg_compression_enabled c;
     anomaly_immediate_sync := cfg_anomaly_immediate_sync c;
     data_filter := DataFilter.init (cfg_filter_window_size c);
     compressor := DataCompressor.init (cfg_compression_ratio c);
     priority_queue := PriorityDataQueue.init;
     total_processed := 0;
     total_filtered := 0;
     total_compressed_bytes_saved := 0;
     anomalies_fast_tracked := 0 |}.

Definition _check_critical_resources (state : value) : option bool :=
  cpu <- get_default "cpu" (VDict []) state ;;
  cpu_v <- get_default "utilization" (VNum 0) cpu ;;
  mem <- get_default "memory" (VDict []) state ;;
  mem_v <- get_default "utilization" (VNum 0) mem ;;
  bat <- get_default "battery" (VDict []) state ;;
  bat_v <- get_default "percentage" (VNum 100) bat ;;
  pct <- as_num bat_v ;;
  let bat_pct := pct / 100 in
  cpu_util <- as_num cpu_v ;;
  if Py.Qltb (95 # 100) cpu_util then Some true
  else
    mem_util <- as_num mem_v ;;
    if Py.Qltb (95 # 100) mem_util then Some true
    else Some (Py.Qltb bat_pct (5 # 100)).

(** [process]; the returned summary is not used by the simulation loop
    and is left out. *)
Definition process `{Runtime} (sensor_reading device_state : value) (e : t)
  : option t :=
  if negb (enabled e) then
    Some e
  else
    fr <- DataFilter.filter_reading sensor_reading (data_filter e) ;;
    let (filtered_reading, data_filter') := fr in
    let is_filtered := negb (PyEq.eqb filtered_reading sensor_reading) in
    anomalies <- get_default "anomalies" (VList []) sensor_reading ;;
    let has_anomaly := truthy anomalies in
    has_critical_resource <- _check_critical_resources device_state ;;
    let priority :=
      if has_anomaly || has_critical_resource then "critical"%string
      else "normal"%string in
    let queue' :=
      PriorityDataQueue.enqueue filtered_reading priority (priority_queue e) in
    let original_bytes := json_dumps_len sensor_reading in
    let (processed_bytes, compressor') :=
      if compression_enabled e
      then DataCompressor.estimate_compressed_size original_bytes (compressor e)
      else (original_bytes, compressor e) in
    Some {| enabled := enabled e;
            compression_enabled := compression_enabled e;
            anomaly_immediate_sync := anomaly_immediate_sync e;
            data_filter := data_filter';
            compressor := compressor';
            priority_queue := queue';
            total_processed := (total_processed e + 1)%Z;
            total_filtered :=
              if is_filtered then (total_filtered e + 1)%Z
              else total_filtered e;
            total_compressed_bytes_saved :=
              if compression_enabled e
              then (total_compressed_bytes_saved e
                    + (original_bytes - processed_bytes))%Z
              else total_compressed_bytes_saved e;
            anomalies_fast_tracked :=
              if has_anomaly then (anomalies_fast_tracked e + 1)%Z
              else anomalies_fast_tracked e |}.

Definition get_data_reduction_ratio (e : t) : Q :=
  if (total_processed e =? 0)%Z then 0
  else inject_Z (total_filtered e) / inject_Z (total_processed e).

End EdgeProcessor.

(** ** analysis/fault_detector.py *)
Module FaultDetector.
Import PyDyn.

(** The [fault_detection] group. *)
Record config : Type := mk_config {
  cpu_critical : Q;
  cpu_critical_duration : Q;
  cpu_warning : Q;
  cpu_warning_duration : Q;
  mem_critical : Q;
  mem_warning : Q;
  bat_critical : Q;
  bat_warning : Q;
  bw_warning : Q;
  pkt_loss_critical : Q;
  drift_warning : Q;
  leak_window : Q;
  comm_timeout_mult : Q;
  sensor_sigma : Q
}.

Record alert : Type := mk_alert {
  a_tick : Z;
  a_time : string;
  a_severity : string;
  a_component : string;
  a_message : string;
  a_icon : string
}.

Record fault : Type := mk_fault {
  f_type : string;
  f_tick : Z
}.

Record t : Type := mk {
  cfg : config;
  cpu_high_ticks : Z;
  cpu_warning_ticks : Z;
  alerts : list alert;
  critical_count : Z;
  warning_count : Z;
  faults_detected : list fault
}.

Definition init (c : config) : t :=
  {| cfg := c; cpu_high_ticks := 0; cpu_warning_ticks := 0; alerts := [];
     critical_count := 0; warning_count := 0; faults_detected := [] |}.

Definition _tick_to_time `{Runtime} (tick : Z) : string :=
  (py_format "02d" (VInt (tick / 3600)) ++ ":"
   ++ py_format "02d" (VInt ((tick mod 3600) / 60)) ++ ":"
   ++ py_format "02d" (VInt (tick mod 60)))%string.

(** The counters and lists a check works on, and the alerts of this tick. *)
Record work : Type := mk_work {
  w_det : t;
  w_new : list alert
}.

Definition set_counts (high warn : Z) (d : t) : t :=
  {| cfg := cfg d; cpu_high_ticks := high; cpu_warning_ticks := warn;
     alerts := alerts d; critical_count := critical_count d;
     warning_count := warning_count d;
     faults_detected := faults_detected d |}.

(** [_create_alert] followed by [new_alerts.append(alert)]. *)
Definition emit `{Runtime} (tick : Z) (severity component message : string)
    (w : work) : work :=
  let d := w_det w in
  let critical := String.eqb severity "CRITICAL" in
  let warning := String.eqb severity "WARNING" in
  let icon :=
    if critical then "🔴"%string
    else if warning then "🟡"%string
    else "⚠️ "%string in
  {| w_det :=
       {| cfg := cfg d; cpu_high_ticks := cpu_high_ticks d;
          cpu_warning_ticks := cpu_warning_ticks d; alerts := alerts d;
          critical_count :=
            if critical then (critical_count d + 1)%Z else critical_count d;
          warning_count :=
            if critical then warning_count d
            else if warning then (warning_count d + 1)%Z
            else warning_count d;
          faults_detected := faults_detected d |};
     w_new :=
       w_new w
       ++ [{| a_tick := tick; a_time := _tick_to_time tick;
              a_severity := severity; a_component := component;
              a_message := message; a_icon := icon |}] |}.

(** Append a fault type unless it was recorded before. *)
Definition note_fault (type : string) (tick : Z) (w : work) : work :=
  let d := w_det w in
  if existsb (fun f => String.eqb type (f_type f)) (faults_detected d)
  then w
  else
    {| w_det :=
         {| cfg := cfg d; cpu_high_ticks := cpu_high_ticks d;
            cpu_warning_ticks := cpu_warning_ticks d; alerts := alerts d;
            critical_count := critical_count d;
            warning_count := warning_count d;
            faults_detected :=
              faults_detected d ++ [{| f_type := type; f_tick := tick |}] |};
       w_new := w_new w |}.

Definition has_fault (type : string) (w : work) : bool :=
  existsb (fun f => String.eqb type (f_type f)) (faults_detected (w_det w)).

(** [{x*100:spec}] *)
Definition pct `{Runtime} (spec : string) (x : Q) : string :=
  py_format spec (VNum (x * 100)).

Definition check_cpu `{Runtime} (tick : Z) (cpu_state : value) (w : work)
  : option work :=
  v <- get_default "utilization" (VNum 0) cpu_state ;;
  cpu_util <- as_num v ;;
  let d := w_det w in
  let c := cfg d in
  if Py.Qltb (cpu_critical c) cpu_util then
    let high := (cpu_high_ticks d + 1)%Z in
    let w1 := {| w_det := set_counts high (cpu_warning_ticks d) d;
                 w_new := w_new w |} in
    if Qle_bool (cpu_critical_duration c) (inject_Z high)
    then Some (emit tick "CRITICAL" "CPU"
                 ("CPU utilization > " ++ pct ".0f" (cpu_critical c) ++ "% for "
                  ++ py_format "" (VInt high) ++ "s") w1)
    else Some w1
  else if Py.Qltb (cpu_warning c) cpu_util then
    let warn := (cpu_warning_ticks d + 1)%Z in
    let w1 := {| w_det := set_counts (cpu_high_ticks d) warn d;
                 w_new := w_new w |} in
    if Qle_bool (cpu_warning_duration c) (inject_Z warn)
    then Some (emit tick "WARNING" "CPU"
                 ("CPU utilization > " ++ pct ".0f" (cpu_warning c) ++ "% for "
                  ++ py_format "" (VInt warn) ++ "s") w1)
    else Some w1
  else Some {| w_det := set_counts 0 0 d; w_new := w_new w |}.

Definition check_memory `{Runtime} (tick : Z) (mem_state : value) (w : work)
  : option work :=
  v <- get_default "utilization" (VNum 0) mem_state ;;
  mem_util <- as_num v ;;
  let c := cfg (w_det w) in
  let w1 :=
    if Py.Qltb (mem_critical c) mem_util then
      note_fault "memory_oom" tick
        (emit tick "CRITICAL" "MEMORY"
           ("Memory usage at " ++ pct ".1f" mem_util ++ "% — near OOM!") w)
    else if Py.Qltb (mem_warning c) mem_util then
      emit tick "WARNING" "MEMORY"
        ("Memory usage at " ++ pct ".1f" mem_util ++ "%") w
    else w in
  lv <- get_default "leaked_kb" (VNum 0) mem_state ;;
  leaked <- as_num lv ;;
  if Py.Qltb 1 leaked then
    if has_fault "memory_leak" w1 then Some w1
    else
      Some (note_fault "memory_leak" tick
              (emit tick "FAULT" "MEMORY"
                 ("Memory leak detected! " ++ py_format ".1f" (VNum leaked)
                  ++ " KB leaked") w1))
  else Some w1.

Definition check_battery `{Runtime} (tick : Z) (bat_state : value) (w : work)
  : option work :=
  v <- get_default "percentage" (VNum 100) bat_state ;;
  p <- as_num v ;;
  let bat_pct := p / 100 in
  let c := cfg (w_det w) in
  let w1 :=
    if Py.Qltb bat_pct (bat_critical c) then
      emit tick "CRITICAL" "BATTERY"
        ("Battery at " ++ pct ".1f" bat_pct ++ "% — critically low!") w
    else if Py.Qltb bat_pct (bat_warning c) then
      emit tick "WARNING" "BATTERY" ("Battery at " ++ pct ".1f" bat_pct ++ "%") w
    else w in
  dep <- get_default "depleted" (VBool false) bat_state ;;
  if truthy dep
  then Some (emit tick "CRITICAL" "BATTERY"
               "Battery depleted! Device shutdown imminent." w1)
  else Some w1.

Definition check_network `{Runtime} (tick : Z) (net_state : value) (w : work)
  : option work :=
  bv <- get_default "bandwidth_utilization" (VNum 0) net_state ;;
  pv <- get_default "packet_loss_rate" (VNum 0) net_state ;;
  pkt_loss <- as_num pv ;;
  let c := cfg (w_det w) in
  let w1 :=
    if Py.Qltb (pkt_loss_critical c) pkt_loss
    then emit tick "CRITICAL" "NETWORK"
           ("Packet loss rate at " ++ pct ".1f" pkt_loss ++ "%!") w
    else w in
  bw_util <- as_num bv ;;
  if Py.Qltb (bw_warning c) bw_util
  then Some (emit tick "WARNING" "NETWORK"
               ("Bandwidth utilization at " ++ pct ".1f" bw_util ++ "%") w1)
  else Some w1.

Definition check_comm `{Runtime} (tick : Z) (last_sync_tick : Q)
    (expected_sync_interval : Q) (w : work) : work :=
  let ticks_since_sync := inject_Z tick - last_sync_tick in
  let timeout_threshold :=
    expected_sync_interval * comm_timeout_mult (cfg (w_det w)) in
  if Py.Qltb timeout_threshold ticks_since_sync && Py.Qltb 0 last_sync_tick
  then
    note_fault "comm_timeout" tick
      (emit tick "FAULT" "COMMUNICATION"
         ("No sync for " ++ py_format "" (VNum ticks_since_sync)
          ++ "s (expected every " ++ py_format "" (VNum expected_sync_interval)
          ++ "s)") w)
  else w.

(** The anomaly names of a reading are a list, as [generate_reading]
    builds them; any other non-empty value is refused. *)
Definition check_sensors `{Runtime} (tick : Z) (sensors : value)
    (is_sensing_tick : bool) (w : work) : option work :=
  last_reading <- get_default "last_reading" (VDict []) sensors ;;
  if is_sensing_tick && truthy last_reading then
    anomalies <- get_none "anomalies" last_reading ;;
    if truthy anomalies then
      names <- item "anomalies" last_reading ;;
      match names with
      | VList l =>
          Some (fold_left
                  (fun acc sensor_name =>
                     note_fault ("sensor_" ++ py_format "" sensor_name) tick
                       (emit tick "FAULT" "SENSOR"
                          ("Anomaly detected on " ++ py_format "" sensor_name
                           ++ " sensor") acc))
                  l w)
      | _ => None
      end
    else Some w
  else Some w.

Definition check_twin `{Runtime} (tick : Z) (twin_state : value) (w : work)
  : option work :=
  if truthy twin_state then
    v <- get_default "current_drift" (VNum 0) twin_state ;;
    drift <- as_num v ;;
    if Py.Qltb (drift_warning (cfg (w_det w))) drift
    then Some (emit tick "WARNING" "TWIN"
                 ("Digital Twin state drift at " ++ pct ".1f" drift
                  ++ "% — twin may be out of sync") w)
    else Some w
  else Some w.

Definition check `{Runtime} (tick : Z) (device_state twin_state : value)
    (last_sync_tick expected_sync_interval : Q) (is_sensing_tick : bool)
    (d : t) : option (list alert * t) :=
  cpu_state <- get_default "cpu" (VDict []) device_state ;;
  mem_state <- get_default "memory" (VDict []) device_state ;;
  bat_state <- get_default "battery" (VDict []) device_state ;;
  net_state <- get_default "network" (VDict []) device_state ;;
  sensors <- get_default "sensors" (VDict []) device_state ;;
  w1 <- check_cpu tick cpu_state {| w_det := d; w_new := [] |} ;;
  w2 <- check_memory tick mem_state w1 ;;
  w3 <- check_battery tick bat_state w2 ;;
  w4 <- check_network tick net_state w3 ;;
  let w5 := check_comm tick last_sync_tick expected_sync_interval w4 in
  w6 <- check_sensors tick sensors is_sensing_tick w5 ;;
  w7 <- check_twin tick twin_state w6 ;;
  let d' := w_det w7 in
  Some (w_new w7,
        {| cfg := cfg d'; cpu_high_ticks := cpu_high_ticks d';
           cpu_warning_ticks := cpu_warning_ticks d';
           alerts := alerts d' ++ w_new w7;
           critical_count := critical_count d';
           warning_count := warning_count d';
           faults_detected := faults_detected d' |}).

End FaultDetector.

(** ** utils/logger.py *)
Module SimulationLogger.
Import PyDyn.

Record t : Type := mk {
  log_format : string;
  output_dir : string;
  filename_base : string;
  tick_data : list value
}.

(** [timestamp] is [datetime.now().strftime("%Y%m%d_%H%M%S")]. *)
Definition init (format dir timestamp : string) : t :=
  {| log_format := format; output_dir := dir;
     filename_base := ("simulation_" ++ timestamp)%string;
     tick_data := [] |}.

(** [state.get(section, {}).get(field, default)] *)
Definition field (section key : string) (default : value) (state : value)
  : option value :=
  sec <- get_default section (VDict []) state ;;
  get_default key default sec.

Definition time_of `{Runtime} (tick : Z) : string :=
  (py_format "02d" (VInt (tick / 3600)) ++ ":"
   ++ py_format "02d" (VInt ((tick mod 3600) / 60)) ++ ":"
   ++ py_format "02d" (VInt (tick mod 60)))%string.

(** The [entry] that [log_tick] builds. *)
Definition make_entry `{Runtime} (tick : Z) (device_state twin_state : value)
    (alerts : list FaultDetector.alert) (sync_event : bool) : option value :=
  cpu_utilization <- field "cpu" "utilization" (VNum 0) device_state ;;
  memory_used_kb <- field "memory" "used_kb" (VNum 0) device_state ;;
  memory_total_kb <- field "memory" "total_kb" (VNum 0) device_state ;;
  battery_remaining_mah <- field "battery" "remaining_mah" (VNum 0) device_state ;;
  battery_percent <- field "battery" "percentage" (VNum 0) device_state ;;
  sensors <- field "sensors" "last_reading" (VDict []) device_state ;;
  bytes_sent <- field "network" "total_bytes_sent" (VNum 0) device_state ;;
  bandwidth_utilization <-
    field "network" "bandwidth_utilization" (VNum 0) device_state ;;
  packet_loss_rate <- field "network" "packet_loss_rate" (VNum 0) device_state ;;
  drift_v <- get_default "current_drift" (VNum 0) twin_state ;;
  drift <- as_num drift_v ;;
  last_sync_tick <- get_default "last_sync_tick" (VNum 0) twin_state ;;
  Some
    (VDict
      [("tick"%string, VInt tick);
       ("timestamp_s"%string, VInt tick);
       ("time"%string, VStr (time_of tick));
       ("device"%string,
        VDict
          [("cpu_utilization"%string, cpu_utilization);
           ("memory_used_kb"%string, memory_used_kb);
           ("memory_total_kb"%string, memory_total_kb);
           ("battery_remaining_mah"%string, battery_remaining_mah);
           ("battery_percent"%string, battery_percent);
           ("sensors"%string, sensors);
           ("network"%string,
            VDict [("bytes_sent"%string, bytes_sent);
                   ("bandwidth_utilization"%string, bandwidth_utilization);
                   ("packet_loss_rate"%string, packet_loss_rate)])]);
       ("twin"%string,
        VDict [("state_accuracy"%string, VNum (1 - drift));
               ("state_drift"%string, drift_v);
               ("last_sync_tick"%string, last_sync_tick)]);
       ("alerts"%string,
        VList (map (fun a => VStr (FaultDetector.a_message a)) alerts));
       ("sync_event"%string, VBool sync_event)]).

Definition log_tick `{Runtime} (tick : Z) (device_state twin_state : value)
    (alerts : list FaultDetector.alert) (sync_event : bool) (l : t) : option t :=
  entry <- make_entry tick device_state twin_state alerts sync_event ;;
  Some {| log_format := log_format l; output_dir := output_dir l;
          filename_base := filename_base l;
          tick_data := tick_data l ++ [entry] |}.

Definition get_filepath (l : t) : string :=
  let ext := if String.eqb (log_format l) "json" then "json"%string
             else "csv"%string in
  (output_dir l ++ "/" ++ filename_base l ++ "." ++ ext)%string.

End SimulationLogger.

(** ** analysis/reporter.py: the live status line *)
Module Reporter.
Import PyDyn.

(** [state[section][key]] as a number. *)
Definition reading (section key : string) (state : value) : option Q :=
  sec <- item section state ;;
  v <- item key sec ;;
  as_num v.

Definition colour (red : bool) : string :=
  if red then "red"%string else "green"%string.

(** The lines [print_live_tick(tick, device_state, alerts, twin_drift, 1)]
    prints; with [interval = 1] no tick is skipped. *)
Definition print_live_tick `{Runtime} (tick : Z) (device_state : value)
    (alerts : list FaultDetector.alert) (twin_drift : Q)
  : option (list string) :=
  let time_str := SimulationLogger.time_of tick in
  c <- reading "cpu" "utilization" device_state ;;
  m <- reading "memory" "utilization" device_state ;;
  bat <- reading "battery" "percentage" device_state ;;
  b <- reading "network" "bandwidth_utilization" device_state ;;
  let cpu := c * 100 in
  let mem := m * 100 in
  let bw := b * 100 in
  let status :=
    ("[dim][" ++ time_str ++ "][/dim] "
     ++ "CPU: [" ++ colour (Py.Qltb 80 cpu) ++ "]"
     ++ py_format "5.1f" (VNum cpu) ++ "%[/] │ "
     ++ "RAM: [" ++ colour (Py.Qltb 80 mem) ++ "]"
     ++ py_format "5.1f" (VNum mem) ++ "%[/] │ "
     ++ "BAT: [" ++ colour (Py.Qltb bat 20) ++ "]"
     ++ py_format "5.1f" (VNum bat) ++ "%[/] │ "
     ++ "BW: [" ++ colour (Py.Qltb 80 bw) ++ "]"
     ++ py_format "5.1f" (VNum bw) ++ "%[/] │ "
     ++ "Drift: " ++ py_format "4.1f" (VNum (twin_drift * 100)) ++ "%")%string in
  Some (status ::
        map (fun a =>
               let severity := FaultDetector.a_severity a in
               let severity_color :=
                 if String.eqb severity "CRITICAL" then "red"%string
                 else if String.eqb severity "WARNING" then "yellow"%string
                 else "bright_magenta"%string in
               ("  " ++ FaultDetector.a_icon a ++ " [" ++ severity_color ++ "]"
                ++ severity ++ "[/" ++ severity_color ++ "] ["
                ++ FaultDetector.a_component a ++ "] "
                ++ FaultDetector.a_message a)%string)
            alerts).

End Reporter.

(** ** main.py: the simulation loop *)
Module Main.
Import PyDyn.

(** The [simulation] group. *)
Record simulation_config : Type := mk_simulation {
  duration_hours : Q;
  time_step_seconds : Q;
  sampling_rate_seconds : Z;
  random_seed : Z;
  log_format : string;
  log_output_dir : string
}.

Record config : Type := mk_config {
  simulation : simulation_config;
  processor : CPUModel.config;
  memory : MemoryModel.config;
  battery : BatteryModel.config;
  network : NetworkModel.config;
  temperature : SensorDataGenerator.channel;
  humidity : SensorDataGenerator.channel;
  light : SensorDataGenerator.light_channel;
  sync : SyncEngine.config;
  fault_detection : FaultDetector.config;
  edge : EdgeProcessor.config
}.

(** What one tick of the loop produced. *)
Record tick_record : Type := mk_record {
  t_tick : Z;
  t_device_state : value;
  t_twin_state : value;
  t_alerts : list FaultDetector.alert;
  t_sync_occurred : bool
}.

Section Loop.
Context `{R : Runtime}.

(** Everything the loop reads and writes: the components, the dedup
    table, the generator, the terminal, and the record of every tick. *)
Record sim : Type := mk_sim {
  device : SensorNode.t;
  twin : DigitalTwin.t;
  sync_engine : SyncEngine.t;
  edge_processor : EdgeProcessor.t;
  fault_detector : FaultDetector.t;
  predictive : PredictiveMaintenance.t;
  logger : SimulationLogger.t;
  last_alert_ticks : list (string * Z);
  generator : rng;
  console : list string;
  trace : list tick_record
}.

(** Step 3 of the loop body: sync, or let the twin extrapolate. *)
Definition sync_step (tick : Z) (device_state : value) (s : sim)
  : option (bool * sim) :=
  bat <- item "battery" device_state ;;
  pv <- item "percentage" bat ;;
  p <- as_num pv ;;
  let battery_pct := p / 100 in
  decided <- SyncEngine.should_sync tick device_state battery_pct (sync_engine s) ;;
  let (wanted, engine1) := decided in
  if wanted then
    prepared <- SyncEngine.prepare_payload device_state engine1 ;;
    let '(_, size_bytes, engine2) := prepared in
    let '(tx_result, device1, g1) :=
      SensorNode.transmit_data size_bytes (device s) (generator s) in
    if SensorNode.tx_success tx_result then
      twin1 <- DigitalTwin.receive_sync device_state tick (twin s) ;;
      Some (true,
            {| device := device1; twin := twin1;
               sync_engine := SyncEngine.record_sync tick size_bytes true engine2;
               edge_processor := edge_processor s;
               fault_detector := fault_detector s;
               predictive := predictive s; logger := logger s;
               last_alert_ticks := last_alert_ticks s;
               generator := g1; console := console s; trace := trace s |})
    else
      Some (false,
            {| device := device1;
               twin := DigitalTwin.record_sync_failure tick (twin s);
               sync_engine := SyncEngine.record_sync tick size_bytes false engine2;
               edge_processor := edge_processor s;
               fault_detector := fault_detector s;
               predictive := predictive s; logger := logger s;
               last_alert_ticks := last_alert_ticks s;
               generator := g1; console := console s; trace := trace s |})
  else
    twin1 <- DigitalTwin.tick tick (twin s) ;;
    Some (false,
          {| device := device s; twin := twin1; sync_engine := engine1;
             edge_processor := edge_processor s;
             fault_detector := fault_detector s;
             predictive := predictive s; logger := logger s;
             last_alert_ticks := last_alert_ticks s;
             generator := generator s; console := console s;
             trace := trace s |}).

(** The deduplication of step 4: an alert passes unless the same
    component and severity passed within the last 60 ticks. *)
Fixpoint dedup (tick : Z) (raw_alerts : list FaultDetector.alert)
    (new_alerts : list FaultDetector.alert) (last : list (string * Z))
  : list FaultDetector.alert * list (string * Z) :=
  match raw_alerts with
  | [] => (new_alerts, last)
  | alert :: rest =>
      let key := (FaultDetector.a_component alert ++ "_"
                  ++ FaultDetector.a_severity alert)%string in
      let pass :=
        match Py.dict_get key last with
        | None => true
        | Some t => (60 <=? tick - t)%Z
        end in
      if pass
      then dedup tick rest (new_alerts ++ [alert]) (Py.dict_set key tick last)
      else dedup tick rest new_alerts last
  end.

(** Step 7: the live output of a verbose run. *)
Fixpoint live_output (tick : Z) (device_state : value) (drift : Q)
    (alerts : list FaultDetector.alert) : option (list string) :=
  match alerts with
  | [] => Some []
  | alert :: rest =>
      lines <- Reporter.print_live_tick tick device_state [alert] drift ;;
      more <- live_output tick device_state drift rest ;;
      Some (lines ++ more)
  end.

(** The body of the loop of [_run_loop] for one tick. *)
Definition step (c : config) (verbose : bool) (tick : Z) (s : sim)
  : option sim :=
  let time_step_s := time_step_seconds (simulation c) in
  let sampling_rate := sampling_rate_seconds (simulation c) in
  let expected_sync_interval := SyncEngine.full_state_interval_s (sync c) in
  ticked <- SensorNode.tick time_step_s (device s) (generator s) ;;
  let '(device_result, device1, g1) := ticked in
  device_state <- SensorNode.get_full_state device1 ;;
  edge1 <-
    match SensorNode.new_reading device_result with
    | Some reading =>
        if truthy reading
        then EdgeProcessor.process reading device_state (edge_processor s)
        else Some (edge_processor s)
    | None => Some (edge_processor s)
    end ;;
  let s1 :=
    {| device := device1; twin := twin s; sync_engine := sync_engine s;
       edge_processor := edge1; fault_detector := fault_detector s;
       predictive := predictive s; logger := logger s;
       last_alert_ticks := last_alert_ticks s;
       generator := g1; console := console s; trace := trace s |} in
  synced <- sync_step tick device_state s1 ;;
  let (sync_occurred, s2) := synced in
  let twin_state := DigitalTwin.get_state (twin s2) in
  lv <- item "last_sync_tick" twin_state ;;
  last_sync_tick <- as_num lv ;;
  checked <-
    FaultDetector.check tick device_state twin_state last_sync_tick
      expected_sync_interval (SensorNode.is_sensing_tick device_result)
      (fault_detector s2) ;;
  let (raw_alerts, detector1) := checked in
  let (new_alerts, last1) := dedup tick raw_alerts [] (last_alert_ticks s2) in
  predictive1 <-
    (if (tick mod 10 =? 0)%Z
     then PredictiveMaintenance.update tick device_state (predictive s2)
     else Some (predictive s2)) ;;
  logger1 <-
    (if (tick mod Z.max 1 sampling_rate =? 0)%Z
     then SimulationLogger.log_tick tick device_state twin_state new_alerts
            sync_occurred (logger s2)
     else Some (logger s2)) ;;
  printed <-
    (if verbose
     then live_output tick device_state (DigitalTwin.current_drift (twin s2))
            new_alerts
     else Some []) ;;
  Some {| device := device s2; twin := twin s2;
          sync_engine := sync_engine s2;
          edge_processor := edge_processor s2;
          fault_detector := detector1;
          predictive := predictive1;
          logger := logger1;
          last_alert_ticks := last1;
          generator := generator s2;
          console := console s2 ++ printed;
          trace :=
            trace s2
            ++ [{| t_tick := tick; t_device_state := device_state;
                   t_twin_state := twin_state; t_alerts := new_alerts;
                   t_sync_occurred := sync_occurred |}] |}.

Definition say (line : string) (s : sim) : sim :=
  {| device := device s; twin := twin s; sync_engine := sync_engine s;
     edge_processor := edge_processor s; fault_detector := fault_detector s;
     predictive := predictive s; logger := logger s;
     last_alert_ticks := last_alert_ticks s; generator := generator s;
     console := console s ++ [line]; trace := trace s |}.

(** [for tick in range(first, first + remaining)], leaving the loop when
    the device has gone inactive.  The progress bar, which only renders,
    is left out. *)
Fixpoint _run_loop (c : config) (verbose : bool) (remaining : nat)
    (tick : Z) (s : sim) : option sim :=
  match remaining with
  | O => Some s
  | S remaining' =>
      s1 <- step c verbose tick s ;;
      if negb (SensorNode.is_active (device s1)) then
        Some (if verbose
              then say "[bold red]⚡ Device battery depleted — simulation stopped.[/bold red]" s1
              else s1)
      else _run_loop c verbose remaining' (tick + 1)%Z s1
  end.

(** What [run_simulation] hands back. *)
Record outcome : Type := mk_outcome {
  final : sim;
  log_filepath : string;
  run_label : string
}.

(** [run_simulation(config, verbose, label)].  [timestamp] is the wall
    clock the logger reads; [ambient] is the state numpy's global
    generator is in when the call is made. *)
Definition run_simulation (c : config) (verbose : bool) (label : string)
    (timestamp : string) (ambient : rng) : option outcome :=
  let g := np_random_seed (random_seed (simulation c)) in
  let device0 :=
    SensorNode.init (sampling_rate_seconds (simulation c)) (processor c)
      (memory c) (battery c) (network c) (temperature c) (humidity c)
      (light c) in
  engine0 <- SyncEngine.init (sync c) (SyncEngine.default_strategy (sync c)) ;;
  ticks <- Py.div (duration_hours (simulation c) * 3600)
             (time_step_seconds (simulation c)) ;;
  let total_ticks := Py.int ticks in
  let s0 :=
    {| device := device0;
       twin := DigitalTwin.init;
       sync_engine := engine0;
       edge_processor := EdgeProcessor.init (edge c);
       fault_detector := FaultDetector.init (fault_detection c);
       predictive := PredictiveMaintenance.init (MemoryModel.total_ram_kb (memory c));
       logger :=
         SimulationLogger.init (log_format (simulation c))
           (log_output_dir (simulation c)) timestamp;
       last_alert_ticks := [];
       generator := g;
       console := if verbose then [("[cyan]" ++ label ++ "...")%string] else [];
       trace := [] |} in
  s <- _run_loop c verbose (Z.to_nat total_ticks) 1%Z s0 ;;
  Some {| final := s;
          log_filepath := SimulationLogger.get_filepath (logger s);
          run_label := label |}.

(** What a run lets the outside see of the simulation itself: the record
    of every tick, the tick log, and the final state of each component
    and of the generator. *)
Record observation : Type := mk_observation {
  o_trace : list tick_record;
  o_tick_log : list value;
  o_device : SensorNode.t;
  o_twin : DigitalTwin.t;
  o_sync_engine : SyncEngine.t;
  o_edge : EdgeProcessor.t;
  o_fault_detector : FaultDetector.t;
  o_predictive : PredictiveMaintenance.t;
  o_generator : rng
}.

Definition observe (s : sim) : observation :=
  {| o_trace := trace s;
     o_tick_log := SimulationLogger.tick_data (logger s);
     o_device := device s;
     o_twin := twin s;
     o_sync_engine := sync_engine s;
     o_edge := edge_processor s;
     o_fault_detector := fault_detector s;
     o_predictive := predictive s;
     o_generator := generator s |}.

(** Two simulations that agree on everything but the terminal and the
    name of the log file. *)
Definition same_simulation (s s' : sim) : Prop :=
  device s = device s' /\ twin s = twin s' /\
  sync_engine s = sync_engine s' /\
  edge_processor s = edge_processor s' /\
  fault_detector s = fault_detector s' /\
  predictive s = predictive s' /\
  SimulationLogger.tick_data (logger s) = SimulationLogger.tick_data (logger s') /\
  last_alert_ticks s = last_alert_ticks s' /\
  generator s = generator s' /\ trace s = trace s'.

Definition same_result (a b : option sim) : Prop :=
  match a, b with
  | Some x, Some y => same_simulation x y
  | None, None => True
  | _, _ => False
  end.

End Loop.

End Main.

(** ** A half-minute run to try the loop on *)
Module ExampleRun.

Definition fault_detection : FaultDetector.config :=
  {| FaultDetector.cpu_critical := 95 # 100;
     FaultDetector.cpu_critical_duration := 5;
     FaultDetector.cpu_warning := 8 # 10;
     FaultDetector.cpu_warning_duration := 10;
     FaultDetector.mem_critical := 95 # 100;
     FaultDetector.mem_warning := 8 # 10;
     FaultDetector.bat_critical := 5 # 100;
     FaultDetector.bat_warning := 2 # 10;
     FaultDetector.bw_warning := 8 # 10;
     FaultDetector.pkt_loss_critical := 1 # 10;
     FaultDetector.drift_warning := 1 # 10;
     FaultDetector.leak_window := 300;
     FaultDetector.comm_timeout_mult := 3;
     FaultDetector.sensor_sigma := 3 |}.

Definition sync (strategy : string) : SyncEngine.config :=
  {| SyncEngine.default_strategy := strategy;
     SyncEngine.full_state_interval_s := 10;
     SyncEngine.delta_threshold := 2 # 100;
     SyncEngine.event_change_threshold := 5 # 100;
     SyncEngine.adaptive_config :=
       {| AdaptiveSync.high_battery_interval := 5;
          AdaptiveSync.medium_battery_interval := 15;
          AdaptiveSync.low_battery_interval := 60;
          AdaptiveSync.high_battery_threshold := 1 # 2;
          AdaptiveSync.low_battery_threshold := 15 # 100 |} |}.

Definition edge : EdgeProcessor.config :=
  {| EdgeProcessor.cfg_enabled := true;
     EdgeProcessor.cfg_compression_enabled := true;
     EdgeProcessor.cfg_anomaly_immediate_sync := true;
     EdgeProcessor.cfg_filter_window_size := 5;
     EdgeProcessor.cfg_compression_ratio := 6 # 10 |}.

(** [ticks] one-second ticks, a reading every five. *)
Definition config (strategy : string) (ticks : Z) : Main.config :=
  {| Main.simulation :=
       {| Main.duration_hours := inject_Z ticks / 3600;
          Main.time_step_seconds := 1;
          Main.sampling_rate_seconds := 5;
          Main.random_seed := 42;
          Main.log_format := "json";
          Main.log_output_dir := "logs" |};
     Main.processor := ExampleRuntime.cpu_config;
     Main.memory := ExampleRuntime.memory_config;
     Main.battery := WarningRun.demo_config;
     Main.network := ExampleRuntime.network_config;
     Main.temperature := ExampleDevice.temperature;
     Main.humidity := ExampleDevice.humidity;
     Main.light := ExampleDevice.light;
     Main.sync := sync strategy;
     Main.fault_detection := fault_detection;
     Main.edge := edge |}.

End ExampleRun.

(** ** Runs of the processor, and of a memory whose frees are counts *)
Module CPURun.
Import CPUModel.

Inductive reachable (c : config) : t -> Prop :=
| reach_init : reachable c (init c)
| reach_schedule p task_type :
    reachable c p -> reachable c (schedule_task task_type p)
| reach_tick p jitter dt : reachable c p -> reachable c (tick_with jitter dt p).

End CPURun.

Module MemoryBufferRun.
Import MemoryModel.

(** [free_sensor_buffers] is called with no count or with a count. *)
Definition count_ok (count : option Z) : Prop :=
  match count with
  | None => True
  | Some n => (0 <= n)%Z
  end.

Inductive reachable (c : config) : t -> Prop :=
| reach_init : reachable c (init c)
| reach_allocate m : reachable c m -> reachable c (allocate_sensor_buffer m)
| reach_free m count :
    reachable c m -> count_ok count -> reachable c (free_sensor_buffers count m)
| reach_tick m dt : reachable c m -> reachable c (tick dt m).

(** Each entry is greater than the one before it. *)
Fixpoint rising (l : list Q) : Prop :=
  match l with
  | x :: (y :: _) as rest => x < y /\ rising rest
  | _ => True
  end.

(** No entry is greater than the one before it. *)
Fixpoint never_rising (l : list Q) : Prop :=
  match l with
  | x :: (y :: _) as rest => y <= x /\ never_rising rest
  | _ => True
  end.

End MemoryBufferRun.

(** ** Runs of the sync engine *)
Module SyncRun.
Import SyncEngine.

(** An engine after any number of [record_sync] calls; the strategy
    object may have changed in between. *)
Inductive reachable (c : config) (name : string) : t -> Prop :=
| reach_init e : init c name = Some e -> reachable c name e
| reach_strategy e st : reachable c name e -> reachable c name (with_strategy st e)
| reach_record e tick size_bytes success :
    reachable c name e -> (0 <= size_bytes)%Z ->
    reachable c name (record_sync tick size_bytes success e).

(** The bytes of the events that succeeded. *)
Definition bytes_delivered (events : list sync_event) : Z :=
  fold_right
    (fun ev acc => if e_success ev then (e_size_bytes ev + acc)%Z else acc)
    0%Z events.

(** The [tick] entry of a state, when there is one, is a number. *)
Definition tick_numeric (d : list (string * value)) : Prop :=
  match Py.dict_get "tick" d with
  | Some v => is_numeric v = true
  | None => True
  end.

End SyncRun.

(** ** Runs of the edge components *)
Module QueueRun.
Import PriorityDataQueue.

Inductive op : Type :=
| Enqueue (data : value) (priority : string)
| DequeueCritical
| DequeueNormal (batch_size : Z).

(** A queue together with what its callers have taken out of it so far. *)
Record state : Type := mk_state {
  queue : t;
  critical_out : list value;
  normal_out : list value
}.

Definition start : state :=
  {| queue := init; critical_out := []; normal_out := [] |}.

Definition step (s : state) (o : op) : state :=
  match o with
  | Enqueue data priority =>
      {| queue := enqueue data priority (queue s);
         critical_out := critical_out s;
         normal_out := normal_out s |}
  | DequeueCritical =>
      let (items, q) := dequeue_critical (queue s) in
      {| queue := q;
         critical_out := critical_out s ++ items;
         normal_out := normal_out s |}
  | DequeueNormal batch_size =>
      let (items, q) := dequeue_normal batch_size (queue s) in
      {| queue := q;
         critical_out := critical_out s;
         normal_out := normal_out s ++ items |}
  end.

Definition run (ops : list op) : state := fold_left step ops start.

(** The payloads enqueued as critical ([critical = true]) or as
    anything else, in the order of their [enqueue] calls. *)
Fixpoint enqueued (critical : bool) (ops : list op) : list value :=
  match ops with
  | [] => []
  | Enqueue data priority :: rest =>
      if Bool.eqb (String.eqb priority "critical") critical
      then data :: enqueued critical rest
      else enqueued critical rest
  | _ :: rest => enqueued critical rest
  end.

End QueueRun.

Module CompressorRun.
Import DataCompressor.

Inductive reachable (ratio : Q) : t -> Prop :=
| reach_init : reachable ratio (init ratio)
| reach_estimate c original_bytes :
    reachable ratio c -> (0 <= original_bytes)%Z ->
    reachable ratio (snd (estimate_compressed_size original_bytes c)).

End CompressorRun.

Module EdgeRun.
Import EdgeProcessor.

Inductive reachable `{Runtime} (c : config) : t -> Prop :=
| reach_init : reachable c (init c)
| reach_process e sensor_reading device_state e' :
    reachable c e -> process sensor_reading device_state e = Some e' ->
    reachable c e'.

(** A reading with an anomaly, and the processor after seeing it. *)
Definition reading : value :=
  VDict [("temperature"%string, VNum (905 # 10));
         ("humidity"%string, VNum 50);
         ("light"%string, VNum 300);
         ("anomalies"%string, VList [VStr "temperature_spike"])].

Definition after_reading : t :=
  match process (H := ExampleRuntime.runtime) reading
          (Samples.sync_state 950 10) (init ExampleRun.edge) with
  | Some e => e
  | None => init ExampleRun.edge
  end.

End EdgeRun.

(** ** Runs of the moving-average filter *)
Module FilterRun.
Import DataFilter.

Inductive reachable (size : nat) : t -> Prop :=
| reach_init : reachable size (init size)
| reach_filter f reading filtered f' :
    reachable size f -> filter_reading reading f = Some (filtered, f') ->
    reachable size f'.

Definition sensors : list string := ["temperature"; "humidity"; "light"]%string.

(** The filter after the readings 20 and 22 of the temperature. *)
Definition after_two : t :=
  {| window_size := 5; windows := [("temperature"%string, [20; 22])] |}.

End FilterRun.

(* ================================================================== *)
(** * Part II: properties                                              *)
(* ================================================================== *)

(** ** Comparison lemmas *)

Lemma Qltb_lt (a b : Q) : Py.Qltb a b = true <-> a < b.
Proof.
  unfold Py.Qltb. rewrite negb_true_iff.
  split; intro H.
  - apply Qnot_le_lt. intro Hle. apply Qle_bool_iff in Hle. congruence.
  - destruct (Qle_bool b a) eqn:E; auto.
    apply Qle_bool_iff in E. lra.
Qed.

Lemma Qltb_ge (a b : Q) : Py.Qltb a b = false <-> b <= a.
Proof.
  unfold Py.Qltb. rewrite negb_false_iff. apply Qle_bool_iff.
Qed.

Lemma Qle_bool_false (a b : Q) : Qle_bool a b = false <-> b < a.
Proof.
  split; intro H.
  - apply Qnot_le_lt. intro Hle. apply Qle_bool_iff in Hle. congruence.
  - destruct (Qle_bool a b) eqn:E; auto. apply Qle_bool_iff in E. lra.
Qed.

Lemma Qeq_bool_false (a b : Q) : Qeq_bool a b = false <-> ~ a == b.
Proof.
  split; intro H.
  - intro E. apply Qeq_bool_iff in E. congruence.
  - destruct (Qeq_bool a b) eqn:E; auto. apply Qeq_bool_iff in E. contradiction.
Qed.

(** Case analysis on every rational comparison in sight. *)
Ltac qcase c :=
  let E := fresh "E" in
  destruct c eqn:E;
  [ first [ apply Qltb_lt in E | apply Qle_bool_iff in E | apply Qeq_bool_iff in E ]
  | first [ apply Qltb_ge in E | apply Qle_bool_false in E | apply Qeq_bool_false in E ] ].

(** Split a conjunction into its conjuncts, and nothing else. *)
Ltac conjs := repeat match goal with |- _ /\ _ => split end.

Lemma max_lower (a b : Q) : a <= Py.max a b.
Proof. unfold Py.max. qcase (Py.Qltb a b); lra. Qed.

Lemma max_upper (a b c : Q) : a <= c -> b <= c -> Py.max a b <= c.
Proof. intros. unfold Py.max. qcase (Py.Qltb a b); lra. Qed.

Lemma min_upper (a b : Q) : Py.min a b <= a.
Proof. unfold Py.min. qcase (Py.Qltb b a); lra. Qed.

Lemma min_lower (a b c : Q) : c <= a -> c <= b -> c <= Py.min a b.
Proof. intros. unfold Py.min. qcase (Py.Qltb b a); lra. Qed.

(** ** Battery: bounds and the depletion latch *)
Section BatteryFacts.
Import BatteryModel BatteryRun.

Lemma get_or_nonneg (k : string) (d : list (string * Q)) :
  Forall (fun kv => 0 <= snd kv) d -> 0 <= Py.get_or k 0 d.
Proof.
  unfold Py.get_or. induction 1 as [|[k' v] d Hv _ IH]; simpl.
  - lra.
  - destruct (String.eqb k k'); auto.
Qed.

Lemma consume_depleted (op : string) (d : Q) (b : t) :
  depleted b = true -> consume op d b = b.
Proof. intro H. unfold consume. now rewrite H. Qed.

Lemma consume_inv (c : config) (op : string) (d : Q) (b : t) :
  config_ok c -> 0 <= d -> invariant c b -> invariant c (consume op d b).
Proof.
  intros [Hcap Hdraw] Hd (Hc & Hm & [Hlo Hhi] & Hlatch).
  unfold consume. destruct (depleted b) eqn:Edep.
  - repeat split; auto.
  - set (used := Py.get_or op 0 (current_draw_ma b) * (d / 3600)).
    assert (Hused : 0 <= used).
    { unfold used. apply Qmult_le_0_compat.
      - rewrite Hm. now apply get_or_nonneg.
      - apply Qle_shift_div_l; lra. }
    unfold invariant; simpl. repeat split; auto.
    + apply max_lower.
    + apply max_upper; lra.
    + intro Hz. qcase (Qle_bool (Py.max 0 (remaining_mah b - used)) 0); auto. lra.
Qed.

Lemma fold_consume_inv (c : config) (d : Q) (ops : list string) (b : t) :
  config_ok c -> 0 <= d -> invariant c b ->
  invariant c (fold_left (fun acc op => consume op d acc) ops b).
Proof.
  intros Hc Hd. revert b.
  induction ops as [|op ops IH]; simpl; intros b Hb; auto.
  apply IH. now apply consume_inv.
Qed.

Lemma append_history_inv (c : config) (b : t) :
  invariant c b -> invariant c (append_history b).
Proof. intros H. exact H. Qed.

Lemma do_call_inv (c : config) (k : call) (b : t) :
  config_ok c -> call_ok k -> invariant c b -> invariant c (do_call k b).
Proof.
  intros Hc Hk Hb. destruct k as [op d | ops d]; simpl in *.
  - now apply consume_inv.
  - unfold tick. destruct (depleted b).
    + now apply append_history_inv.
    + apply append_history_inv. destruct ops as [|o ops].
      * now apply consume_inv.
      * now apply fold_consume_inv.
Qed.

Lemma reachable_inv (c : config) (b : t) :
  config_ok c -> reachable c b -> invariant c b.
Proof.
  intros Hc. induction 1 as [|b k _ IH Hk].
  - destruct Hc as [Hcap _]. unfold invariant; simpl.
    repeat split; auto; lra.
  - now apply do_call_inv.
Qed.

Lemma fold_consume_depleted (d : Q) (ops : list string) (b : t) :
  depleted b = true ->
  fold_left (fun acc op => consume op d acc) ops b = b.
Proof.
  intro H. induction ops as [|op ops IH]; simpl; auto.
  now rewrite (consume_depleted op d b H).
Qed.

Lemma do_call_depleted (k : call) (b : t) :
  depleted b = true ->
  depleted (do_call k b) = true /\
  remaining_mah (do_call k b) = remaining_mah b /\
  total_consumed_mah (do_call k b) = total_consumed_mah b /\
  energy_breakdown (do_call k b) = energy_breakdown b.
Proof.
  intro H. destruct k as [op d | ops d]; simpl.
  - rewrite (consume_depleted op d b H). auto.
  - unfold tick. rewrite H. simpl. auto.
Qed.

(** C2.  Along every run of [consume] and [tick] calls from a fresh
    battery (positive capacity, non-negative draws and durations),
    [0 <= remaining_mah <= capacity_mah]; a battery whose charge is zero
    is [depleted]; a depleted battery stays depleted over any further
    call, which leaves [remaining_mah], [total_consumed_mah] and
    [energy_breakdown] as they were; and [consume] on it is a no-op. *)
Theorem battery_bounds_and_latch (c : config) (b : t) :
  config_ok c -> reachable c b ->
  (0 <= remaining_mah b <= capacity_mah b) /\
  (remaining_mah b == 0 -> depleted b = true) /\
  (depleted b = true ->
     (forall op d, consume op d b = b) /\
     (forall k, depleted (do_call k b) = true /\
                remaining_mah (do_call k b) = remaining_mah b /\
                total_consumed_mah (do_call k b) = total_consumed_mah b /\
                energy_breakdown (do_call k b) = energy_breakdown b)).
Proof.
  intros Hc Hr. destruct (reachable_inv c b Hc Hr) as (_ & _ & Hb & Hl).
  split; [exact Hb|]. split; [exact Hl|].
  intro Hdep. split.
  - intros op d. now apply consume_depleted.
  - intro k. now apply do_call_depleted.
Qed.

End BatteryFacts.

(** A run that drains the demo battery in one long transmission. *)
Lemma battery_bounds_and_latch_witness :
  let b := BatteryRun.do_call (BatteryRun.Tick ["sensing"; "processing"]%string 1)
             (BatteryRun.do_call (BatteryRun.Consume "transmission" 3600)
                (BatteryModel.init WarningRun.demo_config)) in
  (0 <= BatteryModel.remaining_mah b <= BatteryModel.capacity_mah b) /\
  BatteryModel.depleted b = true /\
  BatteryModel.consume "idle" 1 b = b.
Proof.
  intro b.
  assert (Hc : BatteryRun.config_ok WarningRun.demo_config).
  { split; [reflexivity | repeat constructor; simpl; discriminate]. }
  assert (Hr : BatteryRun.reachable WarningRun.demo_config b).
  { apply BatteryRun.reach_call; [apply BatteryRun.reach_call|].
    - apply BatteryRun.reach_init.
    - simpl. discriminate.
    - simpl. discriminate. }
  destruct (battery_bounds_and_latch WarningRun.demo_config b Hc Hr)
    as (Hb & Hl & Hd).
  split; [exact Hb|].
  assert (Hdep : BatteryModel.depleted b = true) by (apply Hl; reflexivity).
  split; [exact Hdep|]. apply (proj1 (Hd Hdep)).
Defined.

(** ** Battery warnings fire at most once *)
Section WarningFacts.
Import BatteryModel BatteryRun WarningRun.

Lemma mem_app (x : Q) (l1 l2 : list Q) :
  Py.mem x (l1 ++ l2) = Py.mem x l1 || Py.mem x l2.
Proof. unfold Py.mem. apply existsb_app. Qed.

Lemma Qeq_bool_sym (x y : Q) : Qeq_bool x y = Qeq_bool y x.
Proof.
  destruct (Qeq_bool x y) eqn:E1, (Qeq_bool y x) eqn:E2; auto.
  - apply Qeq_bool_iff in E1. apply Qeq_bool_false in E2. symmetry in E1. tauto.
  - apply Qeq_bool_iff in E2. apply Qeq_bool_false in E1. symmetry in E2. tauto.
Qed.

Lemma mem_Qeq (x y : Q) (l : list Q) : x == y -> Py.mem x l = Py.mem y l.
Proof.
  intro H. unfold Py.mem. induction l as [|z l IH]; simpl; auto.
  rewrite IH. f_equal.
  destruct (Qeq_bool x z) eqn:E1, (Qeq_bool y z) eqn:E2; auto.
  - apply Qeq_bool_iff in E1. apply Qeq_bool_false in E2. rewrite <- H in E2. tauto.
  - apply Qeq_bool_iff in E2. apply Qeq_bool_false in E1. rewrite H in E1. tauto.
Qed.

Lemma count_app (x : Q) (l1 l2 : list Q) :
  count x (l1 ++ l2) = (count x l1 + count x l2)%nat.
Proof. unfold count. now rewrite filter_app, length_app. Qed.

Lemma count_zero_mem (x : Q) (l : list Q) :
  count x l = 0%nat <-> Py.mem x l = false.
Proof.
  unfold count, Py.mem. induction l as [|y l IH]; simpl.
  - tauto.
  - destruct (Qeq_bool x y); simpl.
    + split; discriminate.
    + exact IH.
Qed.

(** The effect of the threshold loop, for an arbitrary accumulator. *)
Lemma check_loop_props (pct : Q) (ths acc : list Q) (b : t) :
  exists new,
    fst (check_loop pct ths acc b) = acc ++ new /\
    (forall th, Py.mem th (warnings_triggered b) = true -> Py.mem th new = false) /\
    (forall th, (count th new <= 1)%nat) /\
    (forall th, Py.mem th (warnings_triggered (snd (check_loop pct ths acc b)))
                = Py.mem th (warnings_triggered b) || Py.mem th new) /\
    (forall th, Py.mem th new = true <->
                Py.mem th ths = true /\ pct <= th /\
                Py.mem th (warnings_triggered b) = false) /\
    remaining_mah (snd (check_loop pct ths acc b)) = remaining_mah b /\
    capacity_mah (snd (check_loop pct ths acc b)) = capacity_mah b /\
    warning_thresholds (snd (check_loop pct ths acc b)) = warning_thresholds b.
Proof.
  revert acc b. induction ths as [|t ths IH]; intros acc b; cbn [check_loop].
  - exists []. cbn [fst snd]. rewrite app_nil_r. conjs; auto.
    + intro th. now rewrite orb_false_r.
    + intro th. simpl. split; [discriminate | intros [H _]; discriminate].
  - destruct (Qle_bool pct t && negb (Py.mem t (warnings_triggered b))) eqn:Efire.
    + apply andb_true_iff in Efire. destruct Efire as [Hle Hnew].
      apply Qle_bool_iff in Hle. apply negb_true_iff in Hnew.
      destruct (IH (acc ++ [t]) (add_warning t b))
        as (new & Hfst & Hold & Hcnt & Hmem & Hiff & Hr & Hc & Hw).
      exists (t :: new). rewrite Hfst, Hr, Hc, Hw, <- app_assoc.
      change ([t] ++ new) with (t :: new).
      assert (Hstep : forall th, Py.mem th (warnings_triggered (add_warning t b))
                = Qeq_bool th t || Py.mem th (warnings_triggered b))
        by reflexivity.
      assert (Hcons : forall th l, Py.mem th (t :: l) = Qeq_bool th t || Py.mem th l)
        by reflexivity.
      conjs; auto.
      * intros th Hth. rewrite Hcons.
        destruct (Qeq_bool th t) eqn:E.
        -- apply Qeq_bool_iff in E. rewrite (mem_Qeq th t _ E) in Hth. congruence.
        -- simpl. apply Hold. rewrite Hstep, Hth. apply orb_true_r.
      * intro th. unfold count. simpl. destruct (Qeq_bool th t) eqn:E.
        -- simpl. assert (H0 : count th new = 0%nat).
           { apply count_zero_mem. apply Hold. rewrite Hstep, E. reflexivity. }
           unfold count in H0. rewrite H0. lia.
        -- apply Hcnt.
      * intro th. rewrite Hmem, Hstep, Hcons.
        destruct (Qeq_bool th t), (Py.mem th (warnings_triggered b)); reflexivity.
      * intro th. rewrite !Hcons. specialize (Hiff th). rewrite Hstep in Hiff.
        destruct (Qeq_bool th t) eqn:E; simpl in *.
        -- apply Qeq_bool_iff in E. rewrite (mem_Qeq th t _ E), E. tauto.
        -- exact Hiff.
    + destruct (IH acc b) as (new & Hfst & Hold & Hcnt & Hmem & Hiff & Hr & Hc & Hw).
      exists new. conjs; auto.
      intro th. specialize (Hiff th).
      assert (Hcons : Py.mem th (t :: ths) = Qeq_bool th t || Py.mem th ths)
        by reflexivity.
      rewrite Hcons. destruct (Qeq_bool th t) eqn:E; simpl; [|exact Hiff].
      apply Qeq_bool_iff in E.
      apply andb_false_iff in Efire. split.
      * intro H. apply Hiff in H. tauto.
      * intros (_ & H2 & H3). exfalso. destruct Efire as [Hf | Hf].
        -- apply Qle_bool_false in Hf. rewrite E in H2. lra.
        -- apply negb_false_iff in Hf. rewrite (mem_Qeq th t _ E) in H3. congruence.
Qed.

Lemma check_warnings_props (b : t) :
  ~ capacity_mah b == 0 ->
  exists ws b',
    check_warnings b = Some (ws, b') /\
    capacity_mah b' = capacity_mah b /\
    (forall th, Py.mem th (warnings_triggered b) = true -> Py.mem th ws = false) /\
    (forall th, (count th ws <= 1)%nat) /\
    (forall th, Py.mem th (warnings_triggered b')
                = Py.mem th (warnings_triggered b) || Py.mem th ws) /\
    (forall th, Py.mem th ws = true <->
                Py.mem th (warning_thresholds b) = true /\
                remaining_mah b / capacity_mah b <= th /\
                Py.mem th (warnings_triggered b) = false).
Proof.
  intro Hcap. unfold check_warnings, Py.div.
  apply Qeq_bool_false in Hcap. rewrite Hcap.
  destruct (check_loop_props (remaining_mah b / capacity_mah b)
              (warning_thresholds b) [] b)
    as (new & Hfst & Hold & Hcnt & Hmem & Hiff & _ & Hc & _).
  simpl in Hfst.
  exists (fst (check_loop (remaining_mah b / capacity_mah b)
                 (warning_thresholds b) [] b)),
         (snd (check_loop (remaining_mah b / capacity_mah b)
                 (warning_thresholds b) [] b)).
  rewrite <- surjective_pairing. rewrite Hfst. conjs; auto.
Qed.

Lemma do_call_frame (k : call) (b : t) :
  warnings_triggered (do_call k b) = warnings_triggered b /\
  capacity_mah (do_call k b) = capacity_mah b.
Proof.
  assert (Hcons : forall op d b0,
    warnings_triggered (consume op d b0) = warnings_triggered b0 /\
    capacity_mah (consume op d b0) = capacity_mah b0).
  { intros op d b0. unfold consume. destruct (depleted b0); simpl; auto. }
  assert (Hfold : forall d ops b0,
    warnings_triggered (fold_left (fun acc op => consume op d acc) ops b0)
      = warnings_triggered b0 /\
    capacity_mah (fold_left (fun acc op => consume op d acc) ops b0)
      = capacity_mah b0).
  { intros d ops. induction ops as [|op ops IH]; intro b0; simpl; auto.
    destruct (IH (consume op d b0)) as [H1 H2].
    destruct (Hcons op d b0) as [H3 H4]. rewrite H1, H2. auto. }
  destruct k as [op d | ops d]; simpl.
  - apply Hcons.
  - unfold tick. destruct (depleted b); simpl; auto.
    destruct ops as [|o ops]; [apply Hcons | apply Hfold].
Qed.

(** C8 (amended).  Along any run of battery calls and warning checks on a
    battery with a capacity, each threshold is returned at most once, and
    not at all when it had fired before the run; the set of triggered
    thresholds only grows, by exactly the thresholds returned; and one
    [check_warnings] returns a threshold iff it is configured, the
    battery fraction is at or below it, and it has not fired before. *)
Theorem warning_latch (evs : list event) (b : t) :
  ~ capacity_mah b == 0 ->
  (exists fired b',
     run evs b = Some (fired, b') /\
     forall th,
       (count th fired <= 1)%nat /\
       (Py.mem th (warnings_triggered b) = true -> count th fired = 0%nat) /\
       Py.mem th (warnings_triggered b')
         = Py.mem th (warnings_triggered b) || Py.mem th fired) /\
  (exists ws b',
     check_warnings b = Some (ws, b') /\
     forall th, Py.mem th ws = true <->
       Py.mem th (warning_thresholds b) = true /\
       remaining_mah b / capacity_mah b <= th /\
       Py.mem th (warnings_triggered b) = false).
Proof.
  intro Hcap. split.
  - revert b Hcap. induction evs as [|e evs IH]; intros b Hcap.
    + exists [], b. split; [reflexivity|]. intro th. conjs; auto.
      now rewrite orb_false_r.
    + destruct e as [k|]; cbn [run].
      * destruct (do_call_frame k b) as [Hw Hc].
        destruct (IH (do_call k b)) as (fired & b' & Hrun & Hth).
        { now rewrite Hc. }
        exists fired, b'. split; [exact Hrun|]. intro th.
        specialize (Hth th). now rewrite Hw in Hth.
      * destruct (check_warnings_props b Hcap)
          as (ws & b1 & Hchk & Hc & Hold & Hcnt & Hmem & _).
        rewrite Hchk.
        destruct (IH b1) as (fired & b' & Hrun & Hth).
        { now rewrite Hc. }
        rewrite Hrun. exists (ws ++ fired), b'. split; [reflexivity|].
        intro th. destruct (Hth th) as (H1 & H2 & H3).
        rewrite count_app, mem_app, H3, Hmem, orb_assoc.
        conjs; auto.
        -- destruct (Py.mem th ws) eqn:E.
           ++ rewrite H2; [|rewrite Hmem, E; apply orb_true_r].
              specialize (Hcnt th). lia.
           ++ apply count_zero_mem in E. rewrite E. simpl. exact H1.
        -- intro Hin. rewrite H2; [|rewrite Hmem, Hin; reflexivity].
           apply Hold in Hin. apply count_zero_mem in Hin. rewrite Hin.
           reflexivity.
  - destruct (check_warnings_props b Hcap)
      as (ws & b1 & Hchk & _ & _ & _ & _ & Hiff).
    exists ws, b1. auto.
Qed.

(** A battery that is first checked when full, idles, and is checked
    again: the 20 % threshold is configured and never returned. *)
Lemma warning_latch_counterexample :
  exists fired b',
    run [Check; Call (Tick [] 1); Check] (init demo_config) = Some (fired, b') /\
    Py.mem (2 # 10) (warning_thresholds (init demo_config)) = true /\
    count (2 # 10) fired <> 1%nat.
Proof.
  eexists. eexists. split; [vm_compute; reflexivity|].
  split; [reflexivity | discriminate].
Qed.

(** A run that drains the demo battery between two checks. *)
Lemma warning_latch_witness :
  exists fired b',
    run [Check; Call (Consume "transmission" 270); Check; Check]
        (init demo_config) = Some (fired, b') /\
    (count (1 # 2) fired <= 1)%nat.
Proof.
  destruct (warning_latch
              [Check; Call (Consume "transmission" 270); Check; Check]
              (init demo_config)) as [(fired & b' & Hrun & Hth) _].
  - simpl. discriminate.
  - exists fired, b'. split; [exact Hrun | apply (Hth (1 # 2))].
Defined.

End WarningFacts.

(** ** The twin: defaults and the drift metric *)
Section TwinFacts.
Import PyDyn DigitalTwin DriftSpec.

(** C10.  Before any history exists the summary accessors answer 1.0:
    [get_avg_accuracy] on an empty [accuracy_history], and
    [get_sync_success_rate] when [total_syncs] is 0. *)
Theorem twin_defaults (tw : t) :
  (accuracy_history tw = [] -> get_avg_accuracy tw = 1) /\
  (total_syncs tw = 0%Z -> get_sync_success_rate tw = 1).
Proof.
  split; intro H.
  - unfold get_avg_accuracy. now rewrite H.
  - unfold get_sync_success_rate. now rewrite H.
Qed.

(** A fresh twin, and one that has only seen a failed sync. *)
Lemma twin_defaults_witness :
  get_avg_accuracy init = 1 /\
  get_sync_success_rate init = 1 /\
  get_avg_accuracy (record_sync_failure 10 init) = 1.
Proof.
  split; [|split].
  - apply (proj1 (twin_defaults init)). reflexivity.
  - apply (proj2 (twin_defaults init)). reflexivity.
  - apply (proj1 (twin_defaults (record_sync_failure 10 init))). reflexivity.
Defined.

(** Case analysis on the scrutinee of a [match] in the goal. *)
Ltac break_goal :=
  match goal with
  | |- context [match ?x with _ => _ end] =>
      destruct x eqn:?; simpl in *; try discriminate; try congruence
  end.

Lemma field_ok_section (nz : bool) (sec k : string) (d : list (string * value)) :
  field_ok nz sec k (VDict d) = true ->
  (Py.dict_get sec d = None) \/
  (exists sd, Py.dict_get sec d = Some (VDict sd) /\
     (Py.dict_get k sd = None \/
      exists q, Py.dict_get k sd = Some (VNum q) /\
                (nz = true -> Qeq_bool q 0 = false))).
Proof.
  unfold field_ok. simpl.
  destruct (Py.dict_get sec d) as [[| | | | |sd]|]; try discriminate; auto.
  intro H. right. exists sd. split; auto.
  destruct (Py.dict_get k sd) as [[| |q| | |]|]; try discriminate; auto.
  right. exists q. split; auto. intro Hnz. subst nz.
  now apply negb_true_iff in H.
Qed.

Ltac use_field H :=
  apply field_ok_section in H;
  destruct H as [H | (? & H & [? | (? & ? & ?)])].

Ltac unify_sections :=
  repeat match goal with
  | H1 : Py.dict_get ?k ?d = _, H2 : Py.dict_get ?k ?d = _ |- _ =>
      rewrite H1 in H2;
      first [discriminate H2 | injection H2 as <- | injection H2 as -> | clear H2]
  | H : true = true -> _ |- _ => specialize (H eq_refl)
  | H : false = true -> _ |- _ => clear H
  end.

Ltac rewrite_fields :=
  repeat match goal with
  | H : Py.dict_get _ _ = _ |- _ => rewrite H
  | H : Qeq_bool _ _ = _ |- _ => rewrite H
  end.

Ltac settle_fields :=
  unify_sections;
  rewrite_fields; simpl; rewrite_fields; simpl; rewrite_fields; simpl;
  try reflexivity.

Local Arguments Qabs : simpl never.
Local Arguments Qminus : simpl never.
Local Arguments Qdiv : simpl never.
Local Arguments Qeq_bool : simpl never.

Lemma battery_diff_spec (pd ad : list (string * value)) :
  field_ok true "battery" "remaining_mah" (VDict pd) = true ->
  field_ok true "battery" "remaining_mah" (VDict ad) = true ->
  field_ok true "battery" "capacity_mah" (VDict ad) = true ->
  battery_diff (Py.get_or "battery" (VDict []) pd)
               (Py.get_or "battery" (VDict []) ad)
  = Some (match num_field "battery" "remaining_mah" (VDict pd),
                num_field "battery" "remaining_mah" (VDict ad) with
          | Some p, Some a =>
              [Qabs (p - a)
               / or_default 1000 (num_field "battery" "capacity_mah" (VDict ad))]
          | _, _ => []
          end).
Proof.
  intros Hp Ha Hc.
  unfold num_field, battery_diff, get_none, get_default, item, Py.get_or,
    Py.div, PyVal.get, dict_of.
  use_field Hp; use_field Ha; use_field Hc; settle_fields.
Qed.

Lemma memory_diff_spec (pd ad : list (string * value)) :
  field_ok true "memory" "total_kb" (VDict pd) = true ->
  field_ok false "memory" "used_kb" (VDict pd) = true ->
  field_ok true "memory" "total_kb" (VDict ad) = true ->
  field_ok false "memory" "used_kb" (VDict ad) = true ->
  memory_diff (Py.get_or "memory" (VDict []) pd)
              (Py.get_or "memory" (VDict []) ad)
  = Some (match num_field "memory" "total_kb" (VDict pd),
                num_field "memory" "total_kb" (VDict ad) with
          | Some _, Some total =>
              [Qabs (or_default 0 (num_field "memory" "used_kb" (VDict pd))
                     - or_default 0 (num_field "memory" "used_kb" (VDict ad)))
               / total]
          | _, _ => []
          end).
Proof.
  intros Hp Hpu Ha Hau.
  unfold num_field, memory_diff, get_none, get_default, item, Py.get_or,
    Py.div, PyVal.get, dict_of.
  use_field Hp; use_field Hpu; use_field Ha; use_field Hau; settle_fields.
Qed.

Lemma cpu_diff_spec (pd ad : list (string * value)) :
  field_ok false "cpu" "utilization" (VDict pd) = true ->
  field_ok false "cpu" "utilization" (VDict ad) = true ->
  cpu_diff (Py.get_or "cpu" (VDict []) pd) (Py.get_or "cpu" (VDict []) ad)
  = Some (match num_field "cpu" "utilization" (VDict ad) with
          | Some a =>
              [Qabs (or_default 0 (num_field "cpu" "utilization" (VDict pd)) - a)]
          | None => []
          end).
Proof.
  intros Hp Ha.
  unfold num_field, cpu_diff, contains, get_default, Py.get_or, Py.dict_has,
    PyVal.get, dict_of.
  use_field Hp; use_field Ha; settle_fields.
Qed.

Lemma calculate_drift_spec (predicted actual : value) :
  comparable predicted = true -> comparable actual = true ->
  _calculate_drift predicted actual
  = Some (mean (included_terms predicted actual)).
Proof.
  unfold comparable. intros Hp Ha.
  repeat (apply andb_true_iff in Hp; destruct Hp as [Hp ?]).
  repeat (apply andb_true_iff in Ha; destruct Ha as [Ha ?]).
  destruct predicted as [| | | | |pd]; try discriminate.
  destruct actual as [| | | | |ad]; try discriminate.
  unfold _calculate_drift, included_terms.
  unfold get_default at 1 2. cbn [dict_of].
  rewrite battery_diff_spec by assumption.
  unfold get_default at 1 2. cbn [dict_of].
  rewrite memory_diff_spec by assumption.
  unfold get_default at 1 2. cbn [dict_of].
  rewrite cpu_diff_spec by assumption.
  unfold mean.
  match goal with |- match ?l with _ => _ end = _ => destruct l end;
    reflexivity.
Qed.

(** C5 (amended).  On snapshots whose compared fields are numbers, with
    no zero charge or normaliser, the drift computed at [receive_sync] is
    the mean of the included terms and 0 when none applies (or when there
    is no prediction yet).  The battery term is included when both the
    predicted and the actual snapshot carry [remaining_mah], normalised
    by the actual [capacity_mah] or by 1000 when that is absent; the
    memory term when both carry [total_kb]; the CPU term when the actual
    snapshot carries [utilization]. *)
Theorem drift_metric (tw : t) (actual : value) (tick : Z) :
  comparable actual = true ->
  (forall p, predicted_state tw = Some p -> comparable p = true) ->
  exists tw',
    receive_sync actual tick tw = Some tw' /\
    current_drift tw'
    = match predicted_state tw with
      | Some predicted => mean (included_terms predicted actual)
      | None => 0
      end.
Proof.
  intros Ha Hp. unfold receive_sync.
  destruct (predicted_state tw) as [p|] eqn:E.
  - rewrite (calculate_drift_spec p actual (Hp p eq_refl) Ha).
    eexists. split; reflexivity.
  - eexists. split; reflexivity.
Qed.

(** The sync tests' snapshot, received twice with 50 mAh less charge: the
    code includes the battery term (normalised by 1000) although the
    snapshot has no [capacity_mah]. *)
Lemma drift_metric_counterexample :
  exists tw',
    receive_sync (Samples.sync_state 900 200) 200
      (Samples.synced (Samples.sync_state 950 100) 100) = Some tw' /\
    current_drift tw' == 25 # 1000 /\
    ~ current_drift tw'
      == mean (normalizer_terms (Samples.sync_state 950 100)
                 (Samples.sync_state 900 200)).
Proof.
  eexists. split; [vm_compute; reflexivity|]. split; [reflexivity|].
  intro H. vm_compute in H. discriminate.
Qed.

(** The twin tests' snapshot, with less charge and more memory in use. *)
Lemma drift_metric_witness :
  exists tw',
    receive_sync (Samples.device_state (45 # 100) 50 900 200) 200
      (Samples.synced (Samples.device_state (35 # 100) 45 950 100) 100)
    = Some tw' /\
    current_drift tw'
    = mean (included_terms (Samples.device_state (35 # 100) 45 950 100)
              (Samples.device_state (45 # 100) 50 900 200)).
Proof.
  apply (drift_metric
           (Samples.synced (Samples.device_state (35 # 100) 45 950 100) 100)
           (Samples.device_state (45 # 100) 50 900 200) 200).
  - reflexivity.
  - intros p H. injection H as <-. reflexivity.
Defined.

End TwinFacts.

(** ** Clamped quantities stay in the unit interval *)
Section ClampFacts.

Lemma clamp_unit (x : Q) : 0 <= Py.max 0 (Py.min 1 x) <= 1.
Proof.
  split; [apply max_lower|].
  apply max_upper; [lra | apply min_upper].
Qed.

Lemma cpu_tick_with_unit (jitter dt : Q) (c : CPUModel.t) :
  0 <= CPUModel.current_utilization (CPUModel.tick_with jitter dt c) <= 1.
Proof. unfold CPUModel.tick_with. simpl. apply clamp_unit. Qed.

Lemma cpu_tick_unit `{Runtime} (dt : Q) (c : CPUModel.t) (g : rng) :
  0 <= CPUModel.current_utilization (fst (CPUModel.tick dt c g)) <= 1.
Proof.
  unfold CPUModel.tick. destruct (np_random_normal 0 (2 # 100) g) as [j g'].
  simpl fst. apply cpu_tick_with_unit.
Qed.

Lemma inject_Z_nonneg (z : Z) : (0 <= z)%Z -> 0 <= inject_Z z.
Proof. intro H. change 0 with (inject_Z 0). now rewrite <- Zle_Qle. Qed.

Lemma update_usage_inv (c : MemoryModel.config) (m : MemoryModel.t) :
  MemoryRun.config_ok c -> MemoryRun.invariant c m ->
  MemoryRun.invariant c (MemoryModel._update_usage m) /\
  0 <= MemoryModel.current_usage_kb (MemoryModel._update_usage m)
    <= MemoryModel.total_ram_kb c.
Proof.
  intros (Htot & Hbase & Hper) (Hc & Hb & Hl).
  unfold MemoryRun.invariant, MemoryModel._update_usage. simpl. rewrite Hc.
  assert (Hbuf : 0 <= inject_Z (MemoryModel.buffer_count m)
                      * MemoryModel.per_reading_buffer_kb c).
  { apply Qmult_le_0_compat; [now apply inject_Z_nonneg | exact Hper]. }
  conjs; auto;
    qcase (Qle_bool (MemoryModel.total_ram_kb c)
             (MemoryModel.base_usage_kb c
              + inject_Z (MemoryModel.buffer_count m)
                * MemoryModel.per_reading_buffer_kb c
              + MemoryModel.leaked_kb m)); lra.
Qed.

Lemma leak_inv (c : MemoryModel.config) (dt : Q) (m : MemoryModel.t) :
  0 <= dt -> MemoryRun.invariant c m -> MemoryRun.invariant c (MemoryModel.leak dt m).
Proof.
  intros Hdt (Hc & Hb & Hl). unfold MemoryModel.leak.
  destruct (MemoryModel.leak_enabled (MemoryModel.cfg m)); simpl;
    [|unfold MemoryRun.invariant; auto].
  qcase (Py.Qltb 0 (MemoryModel.leak_rate_kb_per_minute (MemoryModel.cfg m)));
    [|unfold MemoryRun.invariant; auto].
  unfold MemoryRun.invariant; simpl. conjs; auto.
  assert (0 <= MemoryModel.leak_rate_kb_per_minute (MemoryModel.cfg m)
               * (dt / 60)).
  { apply Qmult_le_0_compat; [lra | apply Qle_shift_div_l; lra]. }
  lra.
Qed.

Lemma memory_reachable_inv (c : MemoryModel.config) (m : MemoryModel.t) :
  MemoryRun.config_ok c -> MemoryRun.reachable c m -> MemoryRun.invariant c m.
Proof.
  intros Hok. induction 1 as [|m _ IH|m count _ IH|m dt _ IH Hdt].
  - unfold MemoryRun.invariant; simpl. conjs; auto; lra || lia.
  - unfold MemoryModel.allocate_sensor_buffer.
    destruct (MemoryModel.buffer_count m <? _)%Z; [|exact IH].
    apply update_usage_inv; [exact Hok|].
    destruct IH as (Hc & Hb & Hl). unfold MemoryRun.invariant; simpl. conjs; auto. lia.
  - unfold MemoryModel.free_sensor_buffers.
    apply update_usage_inv; [exact Hok|].
    destruct IH as (Hc & Hb & Hl). unfold MemoryRun.invariant; simpl. conjs; auto. lia.
  - destruct (update_usage_inv c (MemoryModel.leak dt m) Hok
                (leak_inv c dt m Hdt IH)) as [Hinv _].
    exact Hinv.
Qed.

Lemma memory_tick_unit (c : MemoryModel.config) (dt : Q) (m : MemoryModel.t) :
  MemoryRun.config_ok c -> 0 <= dt -> MemoryRun.invariant c m ->
  exists u, MemoryModel.get_utilization (MemoryModel.tick dt m) = Some u
            /\ 0 <= u <= 1.
Proof.
  intros Hok Hdt Hinv.
  destruct (update_usage_inv c (MemoryModel.leak dt m) Hok
              (leak_inv c dt m Hdt Hinv)) as [(Hc & _) [Hlo Hhi]].
  destruct Hok as (Htot & _).
  unfold MemoryModel.get_utilization, Py.div, MemoryModel.tick.
  cbn [MemoryModel.cfg MemoryModel.current_usage_kb]. rewrite Hc.
  qcase (Qeq_bool (MemoryModel.total_ram_kb c) 0); [lra|].
  eexists. split; [reflexivity|]. split.
  - apply Qle_shift_div_l; lra.
  - apply Qle_shift_div_r; lra.
Qed.

(** Network: the bytes of the current tick are never negative. *)
Lemma network_reachable_inv (c : NetworkModel.config) (n : NetworkModel.t) :
  NetworkRun.config_ok c -> NetworkRun.reachable c n ->
  NetworkModel.cfg n = c /\ (0 <= NetworkModel.bytes_sent_this_tick n)%Z.
Proof.
  intros Hok. unfold NetworkRun.config_ok in Hok.
  induction 1 as [|n u p _ [Hc Hb] Hp|n dt _ [Hc Hb]]; simpl.
  - split; [reflexivity | lia].
  - unfold NetworkModel.transmit_with.
    destruct (Py.Qltb u _); simpl; split; auto. rewrite Hc. lia.
  - split; [exact Hc | lia].
Qed.

Lemma network_tick_unit (dt : Q) (n : NetworkModel.t) :
  (0 <= NetworkModel.bytes_sent_this_tick n)%Z ->
  0 <= NetworkModel.current_bandwidth_utilization (NetworkModel.tick dt n) <= 1.
Proof.
  intro Hb. unfold NetworkModel.tick. simpl.
  set (max_bytes := NetworkModel.max_bandwidth_kbps (NetworkModel.cfg n)
                    * 1000 / 8 * dt).
  assert (H0 : 0 <= (if Py.Qltb 0 max_bytes
                     then inject_Z (NetworkModel.bytes_sent_this_tick n) / max_bytes
                     else 0)).
  { qcase (Py.Qltb 0 max_bytes); [|lra].
    apply Qle_shift_div_l; [exact E|].
    apply inject_Z_nonneg in Hb. lra. }
  split; [apply min_lower; lra | apply min_upper].
Qed.

(** Twin: without a prediction the drift is still its initial zero. *)
Lemma twin_reachable_inv (tw : DigitalTwin.t) :
  TwinRun.reachable tw ->
  DigitalTwin.predicted_state tw = None -> DigitalTwin.current_drift tw = 0.
Proof.
  induction 1 as [|tw s k tw' _ IH Hs|tw k _ IH|tw k tw' _ IH Ht]; intro Hn.
  - reflexivity.
  - unfold DigitalTwin.receive_sync in Hs.
    destruct (match DigitalTwin.predicted_state tw with
              | Some p => DigitalTwin._calculate_drift p s
              | None => Some 0 end); [|discriminate].
    injection Hs as <-. discriminate Hn.
  - apply IH. exact Hn.
  - unfold DigitalTwin.tick in Ht.
    destruct (DigitalTwin.predicted_state tw) eqn:E.
    + destruct (DigitalTwin.extrapolate _ _ _); [|discriminate].
      injection Ht as <-. discriminate Hn.
    + injection Ht as <-. now apply IH.
Qed.

Lemma twin_tick_unit (tw tw' : DigitalTwin.t) (k : Z) :
  TwinRun.reachable tw -> (DigitalTwin.last_sync_tick tw <= k)%Z ->
  DigitalTwin.tick k tw = Some tw' ->
  0 <= DigitalTwin.current_drift tw' <= 1.
Proof.
  intros Hr Hk Ht. unfold DigitalTwin.tick in Ht.
  destruct (DigitalTwin.predicted_state tw) eqn:E.
  - destruct (DigitalTwin.extrapolate _ _ _); [|discriminate].
    injection Ht as <-. simpl.
    assert (0 <= inject_Z (k - DigitalTwin.last_sync_tick tw))
      by (apply inject_Z_nonneg; lia).
    split; [apply min_lower; lra | apply min_upper].
  - injection Ht as <-. rewrite (twin_reachable_inv tw Hr E). lra.
Qed.

Lemma extrapolate_total (last k : Z) (p : value) :
  TwinRun.battery_shape_ok p = true ->
  exists p', DigitalTwin.extrapolate last k p = Some p'.
Proof.
  unfold TwinRun.battery_shape_ok, DigitalTwin.extrapolate, PyDyn.contains,
    PyDyn.item, PyDyn.get_default, PyDyn.dict_of, Py.dict_has, Py.get_or.
  destruct p as [| | | | |pd]; try discriminate.
  destruct (Py.dict_get "battery" pd) as [[| | | | |bd]|]; try discriminate;
    [|eauto].
  intro H. apply andb_true_iff in H. destruct H as [Hr Hc].
  destruct (Py.dict_get "remaining_mah" bd) as [r|]; [|eauto].
  destruct r as [|b|q| | |]; try discriminate; simpl.
  - destruct (Py.Qltb 0 (if b then 1 else 0)); [|eauto].
    destruct (0 <? last)%Z; [|eauto].
    destruct (Py.dict_get "total_consumed_mah" bd) as [[| | | | |]|];
      try discriminate; simpl; eauto.
  - destruct (Py.Qltb 0 q); [|eauto].
    destruct (0 <? last)%Z; [|eauto].
    destruct (Py.dict_get "total_consumed_mah" bd) as [[| | | | |]|];
      try discriminate; simpl; eauto.
Qed.

(** C9.  After each component's tick the clamped quantity lies in
    [[0, 1]]: the CPU utilization after the jitter step, the memory
    utilization, the bandwidth utilization, and the twin drift.  The
    CPU bound is unconditional; the others hold along every run from the
    initial state (RAM size positive, sizes and time steps non-negative,
    twin ticks not before the last sync), where the twin's tick returns
    whenever the predicted battery section holds numbers. *)
Theorem clamped_after_tick `{Runtime} :
  (forall dt c g,
     0 <= CPUModel.current_utilization (fst (CPUModel.tick dt c g)) <= 1) /\
  (forall c m dt,
     MemoryRun.config_ok c -> MemoryRun.reachable c m -> 0 <= dt ->
     exists u, MemoryModel.get_utilization (MemoryModel.tick dt m) = Some u
               /\ 0 <= u <= 1) /\
  (forall c n dt,
     NetworkRun.config_ok c -> NetworkRun.reachable c n ->
     0 <= NetworkModel.current_bandwidth_utilization (NetworkModel.tick dt n)
       <= 1) /\
  (forall tw k,
     TwinRun.reachable tw -> (DigitalTwin.last_sync_tick tw <= k)%Z ->
     (forall tw', DigitalTwin.tick k tw = Some tw' ->
                  0 <= DigitalTwin.current_drift tw' <= 1) /\
     ((forall p, DigitalTwin.predicted_state tw = Some p ->
                 TwinRun.battery_shape_ok p = true) ->
      exists tw', DigitalTwin.tick k tw = Some tw')).
Proof.
  conjs.
  - intros dt c g. apply cpu_tick_unit.
  - intros c m dt Hok Hr Hdt.
    apply (memory_tick_unit c dt m Hok Hdt).
    now apply memory_reachable_inv.
  - intros c n dt Hok Hr. apply network_tick_unit.
    now destruct (network_reachable_inv c n Hok Hr).
  - intros tw k Hr Hk. split.
    + intros tw' Ht. now apply (twin_tick_unit tw tw' k).
    + intros Hshape. unfold DigitalTwin.tick.
      destruct (DigitalTwin.predicted_state tw) as [p|] eqn:E; [|eauto].
      destruct (extrapolate_total (DigitalTwin.last_sync_tick tw) k p
                  (Hshape p eq_refl)) as [p' Hp'].
      rewrite Hp'. eauto.
Qed.

(** A memory with a leak after a buffer and a tick, a radio after a
    256-byte packet, and a twin 150 ticks after its sync. *)
Lemma clamped_after_tick_witness :
  (exists u,
     MemoryModel.get_utilization
       (MemoryModel.tick 1
          (MemoryModel.allocate_sensor_buffer
             (MemoryModel.init ExampleRuntime.memory_config))) = Some u
     /\ 0 <= u <= 1) /\
  0 <= NetworkModel.current_bandwidth_utilization
         (NetworkModel.tick 1
            (snd (NetworkModel.transmit_with (1 # 2) 300
                    (NetworkModel.init ExampleRuntime.network_config)))) <= 1 /\
  (exists tw',
     DigitalTwin.tick 250
       (Samples.synced (Samples.device_state (35 # 100) 45 950 100) 100)
     = Some tw' /\ 0 <= DigitalTwin.current_drift tw' <= 1).
Proof.
  destruct (@clamped_after_tick ExampleRuntime.runtime) as (_ & Hm & Hn & Ht).
  split; [|split].
  - apply (Hm ExampleRuntime.memory_config).
    + unfold MemoryRun.config_ok. simpl. conjs; reflexivity || discriminate.
    + apply MemoryRun.reach_allocate, MemoryRun.reach_init.
    + discriminate.
  - apply (Hn ExampleRuntime.network_config).
    + unfold NetworkRun.config_ok. simpl. discriminate.
    + apply NetworkRun.reach_transmit; [apply NetworkRun.reach_init | discriminate].
  - destruct (Ht (Samples.synced (Samples.device_state (35 # 100) 45 950 100) 100)
                 250%Z) as [Hb Htot].
    + apply (TwinRun.reach_sync DigitalTwin.init
               (Samples.device_state (35 # 100) 45 950 100) 100%Z).
      * apply TwinRun.reach_init.
      * reflexivity.
    + simpl. discriminate.
    + assert (Hshape : forall p,
        DigitalTwin.predicted_state
          (Samples.synced (Samples.device_state (35 # 100) 45 950 100) 100)
        = Some p -> TwinRun.battery_shape_ok p = true).
      { intros p Hp. injection Hp as <-. reflexivity. }
      destruct (Htot Hshape) as [tw' Htw].
      exists tw'. split; [exact Htw | now apply Hb].
Defined.

End ClampFacts.

(** ** Predictions: confidence bands and the maintenance window *)
Section PredictionFacts.
Import PredictiveMaintenance.













End PredictionFacts.

(** ** Dictionaries *)
Section DictFacts.
Context {A : Type}.

Lemma dict_get_None (k : string) (d : list (string * A)) :
  Py.dict_get k d = None <-> ~ In k (Py.keys d).
Proof.
  induction d as [|[k' v] d IH]; simpl.
  - tauto.
  - destruct (String.eqb_spec k k') as [->|Hne].
    + split; [discriminate | intro H; exfalso; apply H; auto].
    + rewrite IH. split; [intros H [E|E]; [congruence|tauto] | tauto].
Qed.

Lemma dict_get_In (k : string) (v : A) (d : list (string * A)) :
  Py.dict_get k d = Some v -> In (k, v) d.
Proof.
  induction d as [|[k' v'] d IH]; simpl; [discriminate|].
  destruct (String.eqb_spec k k') as [->|Hne].
  - intro H. injection H as ->. auto.
  - auto.
Qed.

Lemma In_dict_get (k : string) (v : A) (d : list (string * A)) :
  NoDup (Py.keys d) -> In (k, v) d -> Py.dict_get k d = Some v.
Proof.
  induction d as [|[k' v'] d IH]; simpl; [tauto|].
  intros Hnd [E|Hin].
  - injection E as -> ->. now rewrite String.eqb_refl.
  - inversion Hnd as [|? ? Hnot Hnd']; subst.
    destruct (String.eqb_spec k k') as [->|Hne].
    + exfalso. apply Hnot. unfold Py.keys. change k' with (fst (k', v)).
      now apply in_map.
    + auto.
Qed.

Lemma keys_dict_set (k : string) (v : A) (d : list (string * A)) :
  Py.keys (Py.dict_set k v d)
  = if Py.dict_has k d then Py.keys d else Py.keys d ++ [k].
Proof.
  unfold Py.dict_has. induction d as [|[k' v'] d IH]; simpl; [reflexivity|].
  destruct (String.eqb_spec k k') as [->|Hne]; simpl; [reflexivity|].
  rewrite IH. now destruct (Py.dict_get k d).
Qed.

Lemma NoDup_dict_set (k : string) (v : A) (d : list (string * A)) :
  NoDup (Py.keys d) -> NoDup (Py.keys (Py.dict_set k v d)).
Proof.
  intro H. rewrite keys_dict_set. unfold Py.dict_has.
  destruct (Py.dict_get k d) eqn:E; [exact H|].
  apply dict_get_None in E.
  apply NoDup_app; [exact H | repeat constructor; auto|].
  intros x Hx [<-|[]]. contradiction.
Qed.

Lemma dict_set_fresh (k : string) (v : A) (d : list (string * A)) :
  ~ In k (Py.keys d) -> Py.dict_set k v d = d ++ [(k, v)].
Proof.
  induction d as [|[k' v'] d IH]; simpl; [reflexivity|].
  intro H. destruct (String.eqb_spec k k') as [->|Hne]; [tauto|].
  rewrite IH; tauto.
Qed.

Lemma dict_get_filter (f : string * A -> bool) (k : string) (v : A)
    (d : list (string * A)) :
  NoDup (Py.keys d) ->
  (Py.dict_get k (filter f d) = Some v
   <-> Py.dict_get k d = Some v /\ f (k, v) = true).
Proof.
  intro Hnd. assert (Hnd' : NoDup (Py.keys (filter f d))).
  { clear k v. induction d as [|[k' v'] d IH]; simpl; [constructor|].
    inversion Hnd as [|? ? Hnot Hd]; subst.
    destruct (f (k', v')); simpl; auto.
    constructor; auto. intro Hin. apply Hnot.
    unfold Py.keys in *. apply in_map_iff in Hin.
    destruct Hin as [[k0 v0] [E Hin]]. simpl in E. subst k0.
    apply filter_In in Hin. change k' with (fst (k', v0)).
    apply in_map. tauto. }
  split.
  - intro H. apply dict_get_In in H. apply filter_In in H.
    split; [apply In_dict_get; tauto | tauto].
  - intros [H Hf]. apply In_dict_get; [exact Hnd'|].
    apply filter_In. split; [now apply dict_get_In | exact Hf].
Qed.

End DictFacts.

(** ** Delta sync: what a payload holds *)
Section DeltaFacts.
Import PyDyn DeltaSync.

Lemma flatten_NoDup :
  forall (d : value) (prefix : string) (result : list (string * scalar)),
    NoDup (Py.keys result) -> NoDup (Py.keys (_flatten d prefix result)).
Proof.
  induction d as [| | | |l Hl|items IH] using value_nested_ind;
    intros prefix result H; simpl; auto.
  revert result H.
  induction IH as [|[key v] rest Hv Hrest IHrest]; intros result H; auto.
  simpl in Hv. cbn.
  destruct v; apply IHrest; auto using NoDup_dict_set.
Qed.

Lemma extract_NoDup (state : value) : NoDup (Py.keys (_extract_numerics state)).
Proof. apply flatten_NoDup. constructor. Qed.

Lemma changed_spec (threshold old new : Q) :
  _changed_significantly threshold old new = true <-> changed threshold old new.
Proof.
  unfold _changed_significantly, changed.
  qcase (Qeq_bool old 0).
  - rewrite negb_true_iff, Qeq_bool_false. tauto.
  - rewrite Qltb_lt. tauto.
Qed.

Lemma emits_spec (threshold : Q) (last : list (string * scalar))
    (k : string) (v : scalar) :
  emits threshold last k v = true
  <-> Py.dict_get k last = None
      \/ exists old, Py.dict_get k last = Some old
                     /\ changed threshold (scalar_num old) (scalar_num v).
Proof.
  unfold emits. destruct (Py.dict_get k last) as [old|].
  - rewrite changed_spec. split.
    + intro H. right. exists old. auto.
    + intros [H|[o [E H]]]; [discriminate|]. now injection E as <-.
  - split; auto.
Qed.

Lemma fold_delta (threshold : Q) (last current acc : list (string * scalar)) :
  NoDup (Py.keys acc ++ Py.keys current) ->
  fold_left
    (fun delta kv =>
       if emits threshold last (fst kv) (snd kv)
       then Py.dict_set (fst kv) (snd kv) delta
       else delta) current acc
  = acc ++ filter (fun kv => emits threshold last (fst kv) (snd kv)) current.
Proof.
  revert acc. induction current as [|[k v] rest IH]; intros acc Hnd; simpl.
  - now rewrite app_nil_r.
  - simpl in Hnd. destruct (emits threshold last k v).
    + rewrite dict_set_fresh.
      * rewrite IH; [now rewrite <- app_assoc|].
        unfold Py.keys in *. rewrite map_app, <- app_assoc. exact Hnd.
      * apply NoDup_remove_2 in Hnd. intro Hin. apply Hnd.
        apply in_or_app. auto.
    + apply IH. now apply NoDup_remove_1 in Hnd.
Qed.

Lemma build_delta_filter (threshold : Q) (last current : list (string * scalar)) :
  NoDup (Py.keys current) ->
  build_delta threshold last current
  = filter (fun kv => emits threshold last (fst kv) (snd kv)) current.
Proof. intro H. unfold build_delta. now rewrite fold_delta. Qed.

(** C6 (amended).  The first [prepare_payload] call returns a payload of
    type ["full_state"] holding the whole state, and leaves a last-synced
    view behind, so every later call takes the delta branch.  A later
    call returns (whenever the stored tick is a number) a payload of type
    ["delta"] whose data holds exactly the flattened numeric keys that have
    no last-synced value or whose relative change from it exceeds
    [delta_threshold] ([|new - old| / |old| > threshold], an old value of
    zero counting as changed iff the new one is not zero);
    [fields_changed] is the number of emitted keys and [fields_total] the
    number of keys of the flattened current state. *)
Theorem delta_payload (s : t) (d : list (string * value)) :
  (last_synced_state s = None ->
   exists s',
     prepare_payload (VDict d) s
     = Some (VDict [("type"%string, VStr "full_state");
                    ("data"%string, VDict d)], s') /\
     last_synced_state s' = Some (_extract_numerics (VDict d))) /\
  (forall last,
     last_synced_state s = Some last ->
     (is_numeric (last_sync_tick s) = true ->
      exists r, prepare_payload (VDict d) s = Some r) /\
     (forall payload s',
        prepare_payload (VDict d) s = Some (payload, s') ->
        exists delta,
          payload
          = VDict [("type"%string, VStr "delta");
                   ("data"%string, scalars_value delta);
                   ("fields_changed"%string,
                    VInt (Z.of_nat (List.length delta)));
                   ("fields_total"%string,
                    VInt (Z.of_nat (List.length (_extract_numerics (VDict d)))))]
          /\ NoDup (Py.keys delta)
          /\ NoDup (Py.keys (_extract_numerics (VDict d)))
          /\ last_synced_state s' = Some (_extract_numerics (VDict d))
          /\ forall k v,
               Py.dict_get k delta = Some v
               <-> Py.dict_get k (_extract_numerics (VDict d)) = Some v
                   /\ (Py.dict_get k last = None
                       \/ exists old,
                            Py.dict_get k last = Some old
                            /\ changed (delta_threshold s)
                                 (scalar_num old) (scalar_num v)))).
Proof.
  split.
  - intro Hnone. unfold prepare_payload. rewrite Hnone. simpl.
    eexists. split; reflexivity.
  - intros last Hlast. unfold prepare_payload. rewrite Hlast.
    cbn [dict_of]. split.
    + intro Hnum. destruct (last_sync_tick s); try discriminate; simpl; eauto.
    + intros payload s' H.
      destruct (as_num (last_sync_tick s)) as [l|]; [|discriminate].
      injection H as <- <-.
      pose proof (extract_NoDup (VDict d)) as Hnd.
      exists (build_delta (delta_threshold s) last (_extract_numerics (VDict d))).
      split; [reflexivity|].
      rewrite (build_delta_filter _ _ _ Hnd).
      split; [|split; [exact Hnd|split; [reflexivity|]]].
      * clear -Hnd. induction (_extract_numerics (VDict d)) as [|[k v] l IH];
          simpl; [constructor|].
        inversion Hnd as [|? ? Hnot Hnd']; subst.
        destruct (emits _ _ _ _); simpl; auto.
        constructor; auto. intro Hin. apply Hnot.
        unfold Py.keys in *. apply in_map_iff in Hin.
        destruct Hin as [[k0 v0] [E Hin]]. simpl in E. subst k0.
        apply filter_In in Hin. change k with (fst (k, v0)).
        apply in_map. tauto.
      * intros k v. rewrite dict_get_filter by exact Hnd.
        simpl. rewrite emits_spec. tauto.
Qed.

(** The payload after the first sensor reading carries the reading's
    temperature, a key without any last-synced value. *)
Lemma delta_payload_counterexample :
  exists payload s' delta last,
    prepare_payload DeltaSamples.after_reading DeltaSamples.after_first
    = Some (payload, s') /\
    PyVal.get "type" payload = Some (VStr "delta") /\
    PyVal.get "data" payload = Some (VDict delta) /\
    Py.dict_get "sensors.last_reading.temperature" delta = Some (VNum 25) /\
    last_synced_state DeltaSamples.after_first = Some last /\
    Py.dict_get "sensors.last_reading.temperature" last = None.
Proof.
  do 4 eexists. split; [vm_compute; reflexivity|].
  repeat split; reflexivity.
Qed.

(** Between the same two snapshots the count of readings moves from
    zero to one. *)
Lemma delta_payload_witness :
  exists delta,
    NoDup (Py.keys delta) /\
    (forall v, Py.dict_get "sensors.total_readings" delta = Some v
               <-> Py.dict_get "sensors.total_readings"
                     (_extract_numerics DeltaSamples.after_reading) = Some v
                   /\ (Py.dict_get "sensors.total_readings"
                         (_extract_numerics DeltaSamples.before_reading) = None
                       \/ exists old,
                            Py.dict_get "sensors.total_readings"
                              (_extract_numerics DeltaSamples.before_reading)
                            = Some old
                            /\ changed (2 # 100)
                                 (scalar_num old) (scalar_num v))).
Proof.
  destruct (proj2 (delta_payload DeltaSamples.after_first
              [("cpu"%string, VDict [("utilization"%string, VNum (2 # 100))]);
               ("battery"%string, VDict [("remaining_mah"%string, VNum 999)]);
               ("sensors"%string,
                VDict [("last_reading"%string,
                        VDict [("temperature"%string, VNum 25);
                               ("anomalies"%string, VList [])]);
                       ("total_readings"%string, VInt 1)]);
               ("is_active"%string, VBool true);
               ("tick"%string, VInt 20)])
              (_extract_numerics DeltaSamples.before_reading) eq_refl)
    as [Htot Hspec].
  destruct (Htot eq_refl) as [[payload s'] Hrun].
  destruct (Hspec payload s' Hrun) as (delta & _ & Hnd & _ & _ & Hiff).
  exists delta. split; [exact Hnd|].
  intro v. apply (Hiff "sensors.total_readings"%string v).
Defined.

End DeltaFacts.

(** ** Transmitting: energy first, buffers on success *)
Section TransmitFacts.
Import SensorNode.

Lemma tx_duration_positive (payload_bytes : Z) (kbps : Q) :
  0 < kbps ->
  tx_duration payload_bytes kbps = inject_Z payload_bytes / (kbps * 1000 / 8).
Proof.
  intro H. unfold tx_duration.
  qcase (Py.Qltb 0 (kbps * 1000 / 8)); [reflexivity|].
  exfalso. assert (0 < kbps * 1000 / 8).
  { apply Qlt_shift_div_l; lra. }
  lra.
Qed.

Lemma tx_duration_guard (payload_bytes : Z) (kbps : Q) :
  kbps <= 0 -> tx_duration payload_bytes kbps = 1.
Proof.
  intro H. unfold tx_duration.
  qcase (Py.Qltb 0 (kbps * 1000 / 8)); [|reflexivity].
  exfalso. assert (kbps * 1000 / 8 <= 0).
  { apply Qle_shift_div_r; lra. }
  lra.
Qed.

Lemma free_all_buffers (m : MemoryModel.t) :
  MemoryModel.buffer_count (MemoryModel.free_sensor_buffers None m) = 0%Z.
Proof.
  unfold MemoryModel.free_sensor_buffers, MemoryModel._update_usage. simpl. lia.
Qed.

(** C7 (amended).  Every [transmit_data] call on an active device
    charges the battery for a ["transmission"] of
    [payload_bytes / (max_bandwidth_kbps * 1000 / 8)] seconds when the
    bandwidth is positive, and of 1.0 second otherwise, whether or not
    the packet is then lost; all sensor buffers are freed iff the network
    transmit succeeds, and a lost packet leaves the memory as it was. *)
Theorem transmit_data_effects `{Runtime} (payload_bytes : Z) (n : t) (g : rng) :
  is_active n = true ->
  let kbps := NetworkModel.max_bandwidth_kbps (NetworkModel.cfg (network n)) in
  let '(result, n', _) := transmit_data payload_bytes n g in
  battery n'
  = BatteryModel.consume "transmission" (tx_duration payload_bytes kbps) (battery n)
  /\ (0 < kbps ->
      tx_duration payload_bytes kbps
      = inject_Z payload_bytes / (kbps * 1000 / 8))
  /\ (kbps <= 0 -> tx_duration payload_bytes kbps = 1)
  /\ (exists r, result = Transmitted r
                /\ fst (fst (NetworkModel.transmit payload_bytes (network n) g)) = r)
  /\ (tx_success result = true ->
      memory n' = MemoryModel.free_sensor_buffers None (memory n)
      /\ MemoryModel.buffer_count (memory n') = 0%Z)
  /\ (tx_success result = false -> memory n' = memory n).
Proof.
  intros Hact kbps. unfold transmit_data. rewrite Hact. simpl negb. cbv iota.
  destruct (NetworkModel.transmit payload_bytes (network n) g) as [[r net'] g'].
  simpl. fold kbps.
  split; [reflexivity|].
  split; [apply tx_duration_positive|].
  split; [apply tx_duration_guard|].
  split; [exists r; auto|].
  split; intro Hs; rewrite Hs; auto.
  split; [reflexivity | apply free_all_buffers].
Qed.

(** With no bandwidth the battery pays for one second (120 mA for
    1 s out of 10 mAh), not for the zero seconds of the formula; with a
    negative one it pays for one second, not for a negative time. *)
Lemma transmit_data_effects_counterexample :
  BatteryModel.remaining_mah
    (battery (snd (fst (@transmit_data ExampleRuntime.runtime 125
                          (ExampleDevice.node (ExampleDevice.radio 0)) 7%Z))))
  == 10 - 120 / 3600 /\
  ~ BatteryModel.remaining_mah
      (battery (snd (fst (@transmit_data ExampleRuntime.runtime 125
                            (ExampleDevice.node (ExampleDevice.radio 0)) 7%Z))))
    == BatteryModel.remaining_mah
         (BatteryModel.consume "transmission"
            (125 / (0 * 1000 / 8))
            (battery (ExampleDevice.node (ExampleDevice.radio 0)))) /\
  ~ BatteryModel.remaining_mah
      (battery (snd (fst (@transmit_data ExampleRuntime.runtime 125
                            (ExampleDevice.node (ExampleDevice.radio (-8))) 7%Z))))
    == BatteryModel.remaining_mah
         (BatteryModel.consume "transmission"
            (125 / (-8 * 1000 / 8))
            (battery (ExampleDevice.node (ExampleDevice.radio (-8))))).
Proof.
  split; [vm_compute; reflexivity|].
  split; intro H; vm_compute in H; discriminate.
Qed.

(** A 125-byte payload on the 50 kbps demo radio. *)
Lemma transmit_data_effects_witness :
  let '(result, n', _) :=
    @transmit_data ExampleRuntime.runtime 125
      (ExampleDevice.node ExampleRuntime.network_config) 500%Z in
  battery n'
  = BatteryModel.consume "transmission" (tx_duration 125 50)
      (battery (ExampleDevice.node ExampleRuntime.network_config))
  /\ tx_success result = true
  /\ MemoryModel.buffer_count (memory n') = 0%Z.
Proof.
  pose proof (@transmit_data_effects ExampleRuntime.runtime 125
                (ExampleDevice.node ExampleRuntime.network_config) 500%Z eq_refl)
    as H.
  cbv zeta in H.
  destruct (@transmit_data ExampleRuntime.runtime 125
              (ExampleDevice.node ExampleRuntime.network_config) 500%Z)
    as [[result n'] g'] eqn:E.
  destruct H as (Hb & _ & _ & _ & Hs & _).
  assert (Hok : tx_success result = true).
  { vm_compute in E. injection E as <- _ _. reflexivity. }
  split; [exact Hb|]. split; [exact Hok|]. apply (Hs Hok).
Defined.

End TransmitFacts.

(** ** Determinism of the simulation loop *)
Section Determinism.
Import PyDyn Main.
Context `{R : Runtime}.

(** Case analysis on an innermost scrutinee of the goal. *)
Ltac inner x :=
  lazymatch x with
  | context [match ?y with _ => _ end] => inner y
  | _ => destruct x eqn:?
  end.

Ltac break_inner :=
  match goal with
  | |- context [match ?x with _ => _ end] => inner x
  end.

(** A snapshot of the device has every field the status line reads. *)
Lemma full_state_prints (n : SensorNode.t) (st : value) (tick : Z) (drift : Q)
    (alerts : list FaultDetector.alert) :
  SensorNode.get_full_state n = Some st ->
  exists lines, live_output tick st drift alerts = Some lines.
Proof.
  unfold SensorNode.get_full_state, MemoryModel.get_state, BatteryModel.get_state.
  destruct (MemoryModel.get_utilization _); [|discriminate].
  destruct (BatteryModel.get_percentage _); [|discriminate].
  intro H. injection H as <-.
  induction alerts as [|a rest [lines IH]]; simpl; [eauto|].
  rewrite IH. eauto.
Qed.

Lemma live_output_some (n : SensorNode.t) (st : value) (tick : Z) (drift : Q)
    (alerts : list FaultDetector.alert) :
  SensorNode.get_full_state n = Some st ->
  live_output tick st drift alerts <> None.
Proof.
  intros H. destruct (full_state_prints n st tick drift alerts H) as [l Hl].
  congruence.
Qed.

Lemma sync_step_same (tick : Z) (ds : value) (s s' : sim) :
  same_simulation s s' ->
  match sync_step tick ds s, sync_step tick ds s' with
  | Some (b, x), Some (b', y) => b = b' /\ same_simulation x y
  | None, None => True
  | _, _ => False
  end.
Proof.
  destruct s, s'. unfold same_simulation. simpl.
  intros (-> & -> & -> & -> & -> & -> & Hl & -> & -> & ->).
  unfold sync_step. cbn [device twin sync_engine generator].
  repeat (break_inner; cbn beta iota; try exact I).
  all: simpl; auto 20.
Qed.

(** One tick keeps two simulations in step, whatever their verbosity. *)
Lemma step_same (c : config) (v v' : bool) (tick : Z) (s s' : sim) :
  same_simulation s s' -> same_result (step c v tick s) (step c v' tick s').
Proof.
  intro Heq. unfold step, same_result.
  destruct Heq as (Hd & Ht & Hse & He & Hf & Hp & Hl & Hla & Hg & Htr).
  rewrite <- Hd, <- Hg, <- He.
  destruct (SensorNode.tick _ _ _) as [[[dr d1] g1]|] eqn:Etick;
    cbn beta iota; [|exact I].
  destruct (SensorNode.get_full_state d1) as [st|] eqn:Est;
    cbn beta iota; [|exact I].
  match goal with
  | |- context [match ?e with Some edge1 => _ | None => None end] =>
      destruct e as [e1|] eqn:Eedge
  end; cbn beta iota; [|exact I].
  match goal with
  | |- context [sync_step tick st ?a] => set (s1 := a)
  end.
  match goal with
  | |- context [sync_step tick st ?b] =>
      tryif is_var b then fail else set (s1' := b)
  end.
  assert (Hs1 : same_simulation s1 s1').
  { unfold same_simulation, s1, s1'. simpl. auto 20. }
  pose proof (sync_step_same tick st s1 s1' Hs1) as Hsync.
  destruct (sync_step tick st s1) as [[b x]|];
    destruct (sync_step tick st s1') as [[b' y]|];
    try contradiction; cbn beta iota; [|exact I].
  destruct Hsync as
    [<- (Hd2 & Ht2 & Hse2 & He2 & Hf2 & Hp2 & Hl2 & Hla2 & Hg2 & Htr2)].
  rewrite <- Hd2, <- Ht2, <- Hse2, <- He2, <- Hf2, <- Hp2, <- Hla2, <- Hg2,
    <- Htr2.
  unfold SimulationLogger.log_tick.
  repeat (break_inner; cbn beta iota; try exact I);
    try (exfalso; eapply live_output_some; eassumption);
    try discriminate;
    unfold same_simulation; simpl; repeat split; congruence.
Qed.

Lemma say_same (line : string) (b : bool) (s s' : sim) :
  same_simulation s s' -> same_simulation (if b then say line s else s) s'.
Proof. intro H. destruct b; exact H. Qed.

Lemma same_simulation_sym (s s' : sim) :
  same_simulation s s' -> same_simulation s' s.
Proof. unfold same_simulation. intuition congruence. Qed.

Lemma run_loop_same (c : config) (v v' : bool) (remaining : nat) :
  forall (tick : Z) (s s' : sim),
    same_simulation s s' ->
    same_result (_run_loop c v remaining tick s) (_run_loop c v' remaining tick s').
Proof.
  induction remaining as [|n IH]; intros tick s s' Heq; simpl.
  - exact Heq.
  - pose proof (step_same c v v' tick s s' Heq) as Hstep.
    unfold same_result in Hstep.
    destruct (step c v tick s) as [x|]; destruct (step c v' tick s') as [y|];
      try contradiction; [|exact I].
    assert (Hd : device x = device y) by apply Hstep.
    rewrite <- Hd.
    destruct (negb (SensorNode.is_active (device x))).
    + simpl. apply say_same. apply same_simulation_sym.
      apply say_same. now apply same_simulation_sym.
    + now apply IH.
Qed.

Lemma observe_same (s s' : sim) :
  same_simulation s s' -> observe s = observe s'.
Proof.
  unfold same_simulation, observe.
  intros (-> & -> & -> & -> & -> & -> & -> & _ & -> & ->). reflexivity.
Qed.

(** C1.  Two runs of the simulation on the same configuration, which
    holds the seed, produce the same tick-by-tick output: the same
    device snapshots, twin states, alerts and sync events at every
    tick, the same tick-log records, and the same final state of every
    component and of the random generator.  This holds whatever else
    differs between the runs: the verbosity, the label, the wall clock
    that names the log file, and the state the global generator was in
    before it was seeded. *)
Theorem simulation_deterministic (c : config) (verbose verbose' : bool)
    (label label' timestamp timestamp' : string) (ambient ambient' : rng) :
  option_map (fun o => observe (final o))
    (run_simulation c verbose label timestamp ambient)
  = option_map (fun o => observe (final o))
      (run_simulation c verbose' label' timestamp' ambient').
Proof.
  unfold run_simulation.
  destruct (SyncEngine.init _ _) as [engine0|]; [|reflexivity].
  cbn beta iota.
  destruct (Py.div _ _) as [ticks|]; [|reflexivity].
  cbn beta iota.
  match goal with
  | |- option_map _ (match _run_loop c verbose ?n ?t ?a with _ => _ end)
       = option_map _ (match _run_loop c verbose' ?n ?t ?b with _ => _ end) =>
      pose proof (run_loop_same c verbose verbose' n t a b) as H;
      destruct (_run_loop c verbose n t a) as [x|];
      destruct (_run_loop c verbose' n t b) as [y|]
  end; simpl in *.
  - f_equal. apply observe_same. apply H.
    unfold same_simulation. simpl. repeat split.
  - exfalso. apply H. unfold same_simulation. simpl. repeat split.
  - exfalso. apply H. unfold same_simulation. simpl. repeat split.
  - reflexivity.
Qed.

End Determinism.

(** The half-minute run under the delta strategy: thirty ticks
    recorded, six of them logged, and syncs at ticks 10, 20 and 30. *)
Example example_run :
  option_map
    (fun o =>
       (List.length (Main.trace (Main.final o)),
        List.length (SimulationLogger.tick_data (Main.logger (Main.final o))),
        map Main.t_tick
          (filter Main.t_sync_occurred (Main.trace (Main.final o)))))
    (@Main.run_simulation ExampleRuntime.runtime (ExampleRun.config "delta" 30)
       false "Simulation" "20260101_000000" 0%Z)
  = Some (30%nat, 6%nat, [10; 20; 30]%Z).
Proof. vm_compute. reflexivity. Qed.

(* ================================================================== *)
(** * Part III: further properties of the components                   *)
(* ================================================================== *)

(** ** Sums *)

Lemma fold_plus_acc (l : list Q) (a : Q) :
  fold_left Qplus l a == a + fold_left Qplus l 0.
Proof.
  revert a. induction l as [|x l IH]; intro a; simpl.
  - lra.
  - rewrite (IH (a + x)), (IH (0 + x)). lra.
Qed.

Lemma sum_cons (x : Q) (l : list Q) : Py.sum (x :: l) == x + Py.sum l.
Proof. unfold Py.sum. simpl. rewrite fold_plus_acc. lra. Qed.

Lemma sum_app (l1 l2 : list Q) : Py.sum (l1 ++ l2) == Py.sum l1 + Py.sum l2.
Proof.
  induction l1 as [|x l1 IH]; simpl.
  - unfold Py.sum at 2. simpl. lra.
  - rewrite !sum_cons, IH. lra.
Qed.


(** ** Battery: energy accounting *)
Section BatteryAccounting.
Import BatteryModel BatteryRun.





Lemma consume_drains (c : config) (op : string) (d : Q) (b : t) :
  config_ok c -> 0 <= d -> invariant c b ->
  remaining_mah (consume op d b) <= remaining_mah b /\
  total_consumed_mah b <= total_consumed_mah (consume op d b) /\
  (remaining_mah b == Py.max 0 (capacity_mah b - total_consumed_mah b) ->
   remaining_mah (consume op d b)
   == Py.max 0 (capacity_mah (consume op d b)
                - total_consumed_mah (consume op d b))).
Proof.
  intros [Hcap Hdraw] Hd (Hc & Hm & [Hlo Hhi] & Hlatch).
  unfold consume. destruct (depleted b) eqn:Edep.
  - split; [lra|]. split; [lra|]. auto.
  - set (used := Py.get_or op 0 (current_draw_ma b) * (d / 3600)).
    assert (Hused : 0 <= used).
    { unfold used. apply Qmult_le_0_compat.
      - rewrite Hm. now apply get_or_nonneg.
      - apply Qle_shift_div_l; lra. }
    simpl. split; [apply max_upper; lra|]. split; [lra|].
    intro Hclosed.
    assert (Hpos : 0 < remaining_mah b).
    { destruct (Qlt_le_dec 0 (remaining_mah b)) as [Hp|Hn]; [exact Hp|].
      assert (Hz : remaining_mah b == 0) by lra.
      apply Hlatch in Hz. congruence. }
    assert (Hr : remaining_mah b == capacity_mah b - total_consumed_mah b).
    { revert Hclosed. unfold Py.max.
      qcase (Py.Qltb 0 (capacity_mah b - total_consumed_mah b)); lra. }
    unfold Py.max.
    qcase (Py.Qltb 0 (remaining_mah b - used));
      qcase (Py.Qltb 0 (capacity_mah b - (total_consumed_mah b + used))); lra.
Qed.

Lemma fold_consume_drains (c : config) (d : Q) (ops : list string) (b : t) :
  config_ok c -> 0 <= d -> invariant c b ->
  let b' := fold_left (fun acc op => consume op d acc) ops b in
  remaining_mah b' <= remaining_mah b /\
  total_consumed_mah b <= total_consumed_mah b' /\
  (remaining_mah b == Py.max 0 (capacity_mah b - total_consumed_mah b) ->
   remaining_mah b' == Py.max 0 (capacity_mah b' - total_consumed_mah b')).
Proof.
  intros Hc Hd. revert b.
  induction ops as [|op ops IH]; intros b Hb; simpl.
  - split; [lra|]. split; [lra|]. auto.
  - destruct (consume_drains c op d b Hc Hd Hb) as (H1 & H2 & H3).
    destruct (IH (consume op d b) (consume_inv c op d b Hc Hd Hb))
      as (H4 & H5 & H6).
    split; [lra|]. split; [lra|]. auto.
Qed.

Lemma do_call_drains (c : config) (k : call) (b : t) :
  config_ok c -> call_ok k -> invariant c b ->
  remaining_mah (do_call k b) <= remaining_mah b /\
  total_consumed_mah b <= total_consumed_mah (do_call k b) /\
  (remaining_mah b == Py.max 0 (capacity_mah b - total_consumed_mah b) ->
   remaining_mah (do_call k b)
   == Py.max 0 (capacity_mah (do_call k b) - total_consumed_mah (do_call k b))).
Proof.
  intros Hc Hk Hb. destruct k as [op d|ops d]; simpl in *.
  - now apply (consume_drains c).
  - unfold tick. destruct (depleted b); simpl.
    + split; [lra|]. split; [lra|]. auto.
    + destruct ops as [|o ops].
      * now apply (consume_drains c).
      * apply (fold_consume_drains c d (o :: ops) b Hc Hk Hb).
Qed.

(** X2.  No call with a non-negative duration ever raises the charge
    or lowers the energy counted as consumed. *)
Theorem battery_only_drains (c : config) (b : t) (k : call) :
  config_ok c -> reachable c b -> call_ok k ->
  remaining_mah (do_call k b) <= remaining_mah b /\
  total_consumed_mah b <= total_consumed_mah (do_call k b).
Proof.
  intros Hc Hr Hk.
  destruct (do_call_drains c k b Hc Hk (reachable_inv c b Hc Hr)) as (H1 & H2 & _).
  auto.
Qed.

Lemma battery_only_drains_witness :
  remaining_mah (do_call (Tick ["idle"%string] 1) (init WarningRun.demo_config))
  <= remaining_mah (init WarningRun.demo_config).
Proof.
  apply (battery_only_drains WarningRun.demo_config).
  - split; [reflexivity | repeat constructor; simpl; discriminate].
  - apply reach_init.
  - simpl. discriminate.
Defined.



End BatteryAccounting.

(** ** Averages and peaks *)
Section PeakFacts.

Lemma len_cons {A} (x : A) (l : list A) : Py.len (x :: l) == 1 + Py.len l.
Proof.
  unfold Py.len. simpl List.length. rewrite Nat2Z.inj_succ.
  unfold Z.succ. rewrite inject_Z_plus.
  change (inject_Z 1) with 1. lra.
Qed.

Lemma len_nonneg {A} (l : list A) : 0 <= Py.len l.
Proof. unfold Py.len. apply inject_Z_nonneg. lia. Qed.

Lemma len_app {A} (l1 l2 : list A) : Py.len (l1 ++ l2) == Py.len l1 + Py.len l2.
Proof.
  unfold Py.len. rewrite length_app, Nat2Z.inj_add, inject_Z_plus. reflexivity.
Qed.

Lemma sum_bounds (lo hi : Q) (l : list Q) :
  Forall (fun u => lo <= u <= hi) l ->
  lo * Py.len l <= Py.sum l <= hi * Py.len l.
Proof.
  induction 1 as [|x l [Hlo Hhi] _ [IHlo IHhi]].
  - unfold Py.sum, Py.len. cbn [fold_left List.length Z.of_nat].
    change (inject_Z 0) with 0. lra.
  - rewrite sum_cons, len_cons. lra.
Qed.

(** The mean of a non-empty list lies between any bounds of its entries. *)
Lemma mean_bounds (lo hi : Q) (l : list Q) :
  l <> [] -> Forall (fun u => lo <= u <= hi) l ->
  lo <= Py.sum l / Py.len l <= hi.
Proof.
  intros Hne H. destruct (sum_bounds lo hi l H) as [Hlo Hhi].
  assert (Hlen : 0 < Py.len l).
  { destruct l as [|x l]; [congruence|].
    rewrite len_cons. pose proof (len_nonneg l). lra. }
  split.
  - apply Qle_shift_div_l; [exact Hlen | lra].
  - apply Qle_shift_div_r; [exact Hlen | lra].
Qed.

Lemma Forall_weaken_upper (hi hi' : Q) (l : list Q) :
  hi <= hi' -> Forall (fun u => 0 <= u <= hi) l ->
  Forall (fun u => 0 <= u <= hi') l.
Proof.
  intros Hle H. eapply Forall_impl; [|exact H]. simpl. intros u Hu. lra.
Qed.

Lemma cpu_peak_inv (c : CPUModel.config) (p : CPUModel.t) :
  CPURun.reachable c p ->
  0 <= CPUModel.peak_utilization p <= 1 /\
  Forall (fun u => 0 <= u <= CPUModel.peak_utilization p)
    (CPUModel.utilization_history p).
Proof.
  induction 1 as [|p task _ IH|p jitter dt _ [[Hlo Hhi] IH]].
  - simpl. split; [lra | constructor].
  - exact IH.
  - unfold CPUModel.tick_with. simpl.
    destruct (clamp_unit
                (CPUModel.raw_utilization
                   (fold_left (fun acc task => acc + snd task)
                      (CPUModel.task_queue p) 0)
                   (CPUModel.max_cycles_per_tick p * dt) + jitter))
      as [Hu0 Hu1].
    set (u := Py.max 0 (Py.min 1 _)) in *.
    qcase (Py.Qltb (CPUModel.peak_utilization p) u).
    + split; [lra|]. apply Forall_app. split.
      * apply (Forall_weaken_upper (CPUModel.peak_utilization p)); [lra|exact IH].
      * repeat constructor; lra.
    + split; [lra|]. apply Forall_app. split; [exact IH|].
      repeat constructor; lra.
Qed.

(** X4.  Along every run of the processor model the peak utilization
    lies in [[0, 1]] and bounds every recorded utilization, and so bounds
    their average: [0 <= get_avg_utilization <= peak_utilization <= 1]. *)
Theorem cpu_average_below_peak (c : CPUModel.config) (p : CPUModel.t) :
  CPURun.reachable c p ->
  Forall (fun u => 0 <= u <= CPUModel.peak_utilization p)
    (CPUModel.utilization_history p) /\
  0 <= CPUModel.get_avg_utilization p /\
  CPUModel.get_avg_utilization p <= CPUModel.peak_utilization p /\
  CPUModel.peak_utilization p <= 1.
Proof.
  intro Hr. destruct (cpu_peak_inv c p Hr) as [[Hlo Hhi] Hall].
  split; [exact Hall|]. unfold CPUModel.get_avg_utilization.
  destruct (CPUModel.utilization_history p) as [|x l] eqn:E.
  - repeat split; lra.
  - destruct (mean_bounds 0 (CPUModel.peak_utilization p) (x :: l)) as [H1 H2];
      [discriminate | exact Hall |].
    repeat split; lra.
Qed.

(** Two ticks: one loaded with both sensing tasks, one idle. *)
Lemma cpu_average_below_peak_witness :
  CPUModel.get_avg_utilization
    (CPUModel.tick_with (-1 # 100) 1
       (CPUModel.tick_with (1 # 100) 1
          (CPUModel.schedule_task "processing"
             (CPUModel.schedule_task "sensing"
                (CPUModel.init ExampleRuntime.cpu_config)))))
  <= CPUModel.peak_utilization
       (CPUModel.tick_with (-1 # 100) 1
          (CPUModel.tick_with (1 # 100) 1
             (CPUModel.schedule_task "processing"
                (CPUModel.schedule_task "sensing"
                   (CPUModel.init ExampleRuntime.cpu_config))))).
Proof.
  apply (cpu_average_below_peak ExampleRuntime.cpu_config).
  repeat first [apply CPURun.reach_tick | apply CPURun.reach_schedule
               | apply CPURun.reach_init].
Defined.

Lemma network_counters_inv (c : NetworkModel.config) (n : NetworkModel.t) :
  NetworkRun.config_ok c -> NetworkRun.reachable c n ->
  (0 <= NetworkModel.total_packets_lost n <= NetworkModel.total_packets_sent n
   /\ 0 <= NetworkModel.bytes_sent_this_tick n <= NetworkModel.total_bytes_sent n
   /\ NetworkModel.total_bytes_sent n
      <= NetworkModel.max_payload_bytes c
         * (NetworkModel.total_packets_sent n - NetworkModel.total_packets_lost n))%Z.
Proof.
  intros Hok Hr. unfold NetworkRun.config_ok in Hok.
  pose proof (network_reachable_inv c n Hok Hr) as [Hcfg _]. revert Hcfg.
  induction Hr as [|n u p Hr IH Hp|n dt Hr IH]; intro Hcfg.
  - simpl. nia.
  - assert (Hc : NetworkModel.cfg n = c)
      by apply (network_reachable_inv c n Hok Hr).
    specialize (IH Hc). unfold NetworkModel.transmit_with.
    destruct (Py.Qltb u _); simpl; rewrite ?Hc; [nia|].
    assert (0 <= Z.min p (NetworkModel.max_payload_bytes c)
            <= NetworkModel.max_payload_bytes c)%Z by lia.
    nia.
  - assert (Hc : NetworkModel.cfg n = c)
      by apply (network_reachable_inv c n Hok Hr).
    specialize (IH Hc). simpl. nia.
Qed.

(** X5.  Along every run of the radio model the lost packets are among
    the sent ones, the bytes sent are at most one full payload for each
    packet that got through, and the packet loss rate is a fraction. *)
Theorem network_counters (c : NetworkModel.config) (n : NetworkModel.t) :
  NetworkRun.config_ok c -> NetworkRun.reachable c n ->
  (0 <= NetworkModel.total_packets_lost n <= NetworkModel.total_packets_sent n)%Z /\
  (0 <= NetworkModel.total_bytes_sent n
   <= NetworkModel.max_payload_bytes c
      * (NetworkModel.total_packets_sent n - NetworkModel.total_packets_lost n))%Z /\
  0 <= NetworkModel.get_packet_loss_rate n <= 1.
Proof.
  intros Hok Hr.
  destruct (network_counters_inv c n Hok Hr) as (Hl & Hb & Ht).
  split; [exact Hl|]. split; [lia|].
  unfold NetworkModel.get_packet_loss_rate.
  destruct (Z.eqb_spec (NetworkModel.total_packets_sent n) 0) as [E|E]; [lra|].
  assert (Hs : 0 < inject_Z (NetworkModel.total_packets_sent n)).
  { change 0 with (inject_Z 0). rewrite <- Zlt_Qlt. lia. }
  assert (Hl0 : 0 <= inject_Z (NetworkModel.total_packets_lost n)).
  { apply inject_Z_nonneg. lia. }
  assert (Hls : inject_Z (NetworkModel.total_packets_lost n)
                <= inject_Z (NetworkModel.total_packets_sent n)).
  { rewrite <- Zle_Qle. lia. }
  split.
  - apply Qle_shift_div_l; [exact Hs | lra].
  - apply Qle_shift_div_r; [exact Hs | lra].
Qed.

(** One packet lost, one delivered. *)
Lemma network_counters_witness :
  0 <= NetworkModel.get_packet_loss_rate
         (snd (NetworkModel.transmit_with (1 # 2) 300
                 (snd (NetworkModel.transmit_with 0 300
                         (NetworkModel.init ExampleRuntime.network_config)))))
    <= 1.
Proof.
  apply (network_counters ExampleRuntime.network_config).
  - unfold NetworkRun.config_ok. simpl. lia.
  - repeat first [apply NetworkRun.reach_transmit | apply NetworkRun.reach_init | lia].
Defined.




Lemma update_usage_peak (m : MemoryModel.t) :
  MemoryModel.current_usage_kb (MemoryModel._update_usage m)
    <= MemoryModel.peak_usage_kb (MemoryModel._update_usage m) /\
  MemoryModel.peak_usage_kb m
    <= MemoryModel.peak_usage_kb (MemoryModel._update_usage m).
Proof.
  unfold MemoryModel._update_usage. simpl.
  set (u := if Qle_bool _ _ then _ else _).
  qcase (Py.Qltb (MemoryModel.peak_usage_kb m) u); split; lra.
Qed.

Lemma Forall_le_weaken (hi hi' : Q) (l : list Q) :
  hi <= hi' -> Forall (fun u => u <= hi) l -> Forall (fun u => u <= hi') l.
Proof.
  intros Hle H. eapply Forall_impl; [|exact H]. simpl. intros u Hu. lra.
Qed.

(** X7.  Along every run of the memory model in which [free_sensor_buffers]
    is given no count or a count that is not negative, the number of
    buffers stays within [[0, max_buffer_readings]], and the peak usage
    bounds the current usage and every recorded usage. *)
Theorem memory_buffers_and_peak (c : MemoryModel.config) (m : MemoryModel.t) :
  (0 <= MemoryModel.max_buffer_readings c)%Z ->
  MemoryBufferRun.reachable c m ->
  (0 <= MemoryModel.buffer_count m <= MemoryModel.max_buffer_readings c)%Z /\
  MemoryModel.current_usage_kb m <= MemoryModel.peak_usage_kb m /\
  Forall (fun u => u <= MemoryModel.peak_usage_kb m) (MemoryModel.usage_history m).
Proof.
  intros Hmax Hr.
  assert (H : MemoryModel.cfg m = c /\
              (0 <= MemoryModel.buffer_count m <= MemoryModel.max_buffer_readings c)%Z /\
              MemoryModel.current_usage_kb m <= MemoryModel.peak_usage_kb m /\
              Forall (fun u => u <= MemoryModel.peak_usage_kb m)
                (MemoryModel.usage_history m)); [|tauto].
  induction Hr as [|m Hr (Hc & Hb & Hp & Hh)|m count Hr (Hc & Hb & Hp & Hh) Hcount
                  |m dt Hr (Hc & Hb & Hp & Hh)].
  - simpl. repeat split; try lia; try lra. constructor.
  - unfold MemoryModel.allocate_sensor_buffer. rewrite Hc.
    destruct (Z.ltb_spec (MemoryModel.buffer_count m)
                (MemoryModel.max_buffer_readings c)) as [E|E]; [|tauto].
    destruct (update_usage_peak
                (MemoryModel.set_buffer_count (MemoryModel.buffer_count m + 1) m))
      as [H1 H2].
    split; [exact Hc|]. split; [simpl; lia|]. split; [exact H1|].
    apply (Forall_le_weaken (MemoryModel.peak_usage_kb m)); [exact H2 | exact Hh].
  - unfold MemoryModel.free_sensor_buffers.
    set (n' := Z.max 0 _).
    destruct (update_usage_peak (MemoryModel.set_buffer_count n' m)) as [H1 H2].
    split; [exact Hc|]. split.
    { simpl. subst n'. destruct count as [k|]; simpl in Hcount; lia. }
    split; [exact H1|].
    apply (Forall_le_weaken (MemoryModel.peak_usage_kb m)); [exact H2 | exact Hh].
  - destruct (update_usage_peak (MemoryModel.leak dt m)) as [H1 H2].
    assert (Hleak : MemoryModel.cfg (MemoryModel.leak dt m) = MemoryModel.cfg m /\
                    MemoryModel.buffer_count (MemoryModel.leak dt m)
                    = MemoryModel.buffer_count m /\
                    MemoryModel.peak_usage_kb (MemoryModel.leak dt m)
                    = MemoryModel.peak_usage_kb m /\
                    MemoryModel.usage_history (MemoryModel.leak dt m)
                    = MemoryModel.usage_history m).
    { unfold MemoryModel.leak. destruct (_ && _); simpl; auto. }
    destruct Hleak as (L1 & L2 & L3 & L4).
    unfold MemoryModel.tick.
    cbn [MemoryModel.cfg MemoryModel.buffer_count MemoryModel.current_usage_kb
         MemoryModel.peak_usage_kb MemoryModel.usage_history].
    split; [simpl; congruence|]. split; [simpl; rewrite L2; lia|].
    split; [exact H1|].
    change (MemoryModel.usage_history (MemoryModel._update_usage (MemoryModel.leak dt m)))
      with (MemoryModel.usage_history (MemoryModel.leak dt m)).
    rewrite L4. apply Forall_app. split.
    + apply (Forall_le_weaken (MemoryModel.peak_usage_kb m)); [|exact Hh].
      rewrite <- L3. exact H2.
    + repeat constructor. exact H1.
Qed.

(** Two buffers allocated, a tick, one buffer freed. *)
Lemma memory_buffers_and_peak_witness :
  (0 <= MemoryModel.buffer_count
          (MemoryModel.free_sensor_buffers (Some 1%Z)
             (MemoryModel.tick 1
                (MemoryModel.allocate_sensor_buffer
                   (MemoryModel.allocate_sensor_buffer
                      (MemoryModel.init ExampleRuntime.memory_config)))))
   <= MemoryModel.max_buffer_readings ExampleRuntime.memory_config)%Z.
Proof.
  apply (memory_buffers_and_peak ExampleRuntime.memory_config).
  - simpl. lia.
  - repeat first [apply MemoryBufferRun.reach_free | apply MemoryBufferRun.reach_tick
                 | apply MemoryBufferRun.reach_allocate
                 | apply MemoryBufferRun.reach_init].
    simpl. lia.
Defined.

Lemma increases_rising (l : list Q) :
  MemoryBufferRun.rising l ->
  MemoryModel.increases l = (Z.of_nat (List.length l) - 1)%Z \/ l = [].
Proof.
  induction l as [|x [|y l] IH]; intro H.
  - now right.
  - now left.
  - left. destruct H as [Hxy H].
    change (MemoryModel.increases (x :: y :: l))
      with ((if Py.Qltb x y then 1 else 0) + MemoryModel.increases (y :: l))%Z.
    destruct (IH H) as [E|E]; [|discriminate].
    rewrite E. qcase (Py.Qltb x y); [|lra].
    cbn [List.length]. lia.
Qed.

Lemma increases_never_rising (l : list Q) :
  MemoryBufferRun.never_rising l -> MemoryModel.increases l = 0%Z.
Proof.
  induction l as [|x [|y l] IH]; intro H; try reflexivity.
  destruct H as [Hxy H].
  change (MemoryModel.increases (x :: y :: l))
    with ((if Py.Qltb x y then 1 else 0) + MemoryModel.increases (y :: l))%Z.
  rewrite (IH H). qcase (Py.Qltb x y); [lra|reflexivity].
Qed.

(** X8.  [is_leak_detected] over a history that holds at least
    [window_size] entries: a window of one entry divides by zero; a
    window of two or more entries reports a leak when each entry is
    greater than the one before it, and none when no entry is. *)
Theorem leak_detection (window_size : nat) (m : MemoryModel.t) :
  (1 <= window_size <= List.length (MemoryModel.usage_history m))%nat ->
  (window_size = 1%nat -> MemoryModel.is_leak_detected window_size m = None) /\
  ((2 <= window_size)%nat ->
   MemoryBufferRun.rising (Py.last_n window_size (MemoryModel.usage_history m)) ->
   MemoryModel.is_leak_detected window_size m = Some true) /\
  ((2 <= window_size)%nat ->
   MemoryBufferRun.never_rising
     (Py.last_n window_size (MemoryModel.usage_history m)) ->
   MemoryModel.is_leak_detected window_size m = Some false).
Proof.
  intros [H1 Hlen]. unfold MemoryModel.is_leak_detected.
  destruct (Nat.ltb_spec (List.length (MemoryModel.usage_history m)) window_size)
    as [E|_]; [lia|].
  destruct window_size as [|k]; [lia|].
  set (window := Py.last_n (S k) (MemoryModel.usage_history m)).
  assert (Hw : List.length window = S k).
  { subst window. unfold Py.last_n. rewrite length_skipn. lia. }
  assert (Hl : Py.len window == inject_Z (Z.of_nat (S k))).
  { unfold Py.len. rewrite Hw. reflexivity. }
  split; [|split].
  - intro Hk. injection Hk as ->.
    destruct window as [|x [|y w]]; try discriminate. reflexivity.
  - intros Hk Hrise.
    destruct (increases_rising window Hrise) as [Ei|Ei];
      [|rewrite Ei in Hw; discriminate].
    rewrite Ei, Hw. unfold Py.div, Py.len. rewrite Hw.
    set (d := inject_Z (Z.of_nat (S k)) - 1).
    assert (Hd : 1 <= d).
    { subst d. assert (2 <= inject_Z (Z.of_nat (S k))).
      { change 2 with (inject_Z 2). rewrite <- Zle_Qle. lia. }
      lra. }
    destruct (Qeq_bool d 0) eqn:Ed.
    { apply Qeq_bool_iff in Ed. lra. }
    f_equal. apply Qltb_lt.
    assert (Hn : inject_Z (Z.of_nat (S k) - 1) == d).
    { subst d. unfold Zminus. rewrite inject_Z_plus. reflexivity. }
    rewrite Hn. apply Qlt_shift_div_l; lra.
  - intros Hk Hflat. rewrite (increases_never_rising window Hflat).
    unfold Py.div, Py.len. rewrite Hw.
    set (d := inject_Z (Z.of_nat (S k)) - 1).
    assert (Hd : 1 <= d).
    { subst d. assert (2 <= inject_Z (Z.of_nat (S k))).
      { change 2 with (inject_Z 2). rewrite <- Zle_Qle. lia. }
      lra. }
    destruct (Qeq_bool d 0) eqn:Ed.
    { apply Qeq_bool_iff in Ed. lra. }
    assert (Hz : inject_Z 0 / d == 0)
      by (unfold Qdiv; change (inject_Z 0) with 0; lra).
    assert (Hf : Py.Qltb (85 # 100) (inject_Z 0 / d) = false)
      by (apply Qltb_ge; lra).
    rewrite Hf. reflexivity.
Qed.

(** A leaking memory after three ticks, seen through a window of two. *)
Lemma leak_detection_witness :
  MemoryModel.is_leak_detected 2
    (MemoryModel.tick 1 (MemoryModel.tick 1 (MemoryModel.tick 1
       (MemoryModel.init
          (MemoryModel.mk_config 256 50 (1 # 2) 100 true 6)))))
  = Some true.
Proof.
  apply leak_detection.
  - simpl. lia.
  - lia.
  - vm_compute. tauto.
Defined.

End PeakFacts.

(** ** The twin's books *)
Section TwinBooks.
Import DigitalTwin DriftSpec.

Lemma twin_counters_inv (tw : t) :
  TwinRun.reachable tw ->
  (0 <= sync_success_count tw)%Z /\ (0 <= sync_fail_count tw)%Z /\
  (sync_success_count tw + sync_fail_count tw = total_syncs tw)%Z /\
  Z.of_nat (List.length (state_history tw)) = sync_success_count tw /\
  List.length (accuracy_history tw) = List.length (drift_history tw).
Proof.
  induction 1 as [|tw s k tw' _ IH Hs|tw k _ IH|tw k tw' _ IH Ht].
  - simpl. repeat split; lia.
  - unfold receive_sync in Hs.
    destruct (match predicted_state tw with
              | Some p => _calculate_drift p s
              | None => Some 0 end); [|discriminate].
    injection Hs as <-. simpl. rewrite !length_app. simpl.
    destruct IH as (? & ? & ? & ? & ?). repeat split; lia.
  - simpl. destruct IH as (? & ? & ? & ? & ?). repeat split; lia.
  - unfold tick in Ht. destruct (predicted_state tw).
    + destruct (extrapolate _ _ _); [|discriminate].
      injection Ht as <-. simpl. rewrite !length_app. simpl.
      destruct IH as (? & ? & ? & ? & ?). repeat split; lia.
    + injection Ht as <-. exact IH.
Qed.

(** X9.  Along every run of the twin (syncs received, sync failures
    recorded, ticks), every sync is counted once as a success or as a
    failure, each success left one entry in the state history, the drift
    and accuracy histories have one entry each per sync and tick, and
    the sync success rate is a fraction. *)
Theorem twin_counters (tw : t) :
  TwinRun.reachable tw ->
  (sync_success_count tw + sync_fail_count tw = total_syncs tw)%Z /\
  Z.of_nat (List.length (state_history tw)) = sync_success_count tw /\
  List.length (accuracy_history tw) = List.length (drift_history tw) /\
  0 <= get_sync_success_rate tw <= 1.
Proof.
  intro Hr. destruct (twin_counters_inv tw Hr) as (Hs & Hf & Ht & Hh & Ha).
  split; [exact Ht|]. split; [exact Hh|]. split; [exact Ha|].
  unfold get_sync_success_rate.
  destruct (Z.eqb_spec (total_syncs tw) 0) as [E|E]; [lra|].
  assert (Hpos : 0 < inject_Z (total_syncs tw)).
  { change 0 with (inject_Z 0). rewrite <- Zlt_Qlt. lia. }
  assert (H0 : 0 <= inject_Z (sync_success_count tw)).
  { apply inject_Z_nonneg. lia. }
  assert (H1 : inject_Z (sync_success_count tw) <= inject_Z (total_syncs tw)).
  { rewrite <- Zle_Qle. lia. }
  split.
  - apply Qle_shift_div_l; [exact Hpos | lra].
  - apply Qle_shift_div_r; [exact Hpos | lra].
Qed.

(** One sync received, one sync lost. *)
Lemma twin_counters_witness :
  get_sync_success_rate
    (record_sync_failure 20
       (Samples.synced (Samples.device_state (4 # 10) 46 800 10) 10))
  <= 1.
Proof.
  refine (proj2 (proj2 (proj2 (proj2 (twin_counters _ _))))).
  apply TwinRun.reach_failure.
  apply (TwinRun.reach_sync init (Samples.device_state (4 # 10) 46 800 10) 10).
  - apply TwinRun.reach_init.
  - reflexivity.
Defined.

Lemma sum_zeros (l : list Q) : Forall (fun x => x == 0) l -> Py.sum l == 0.
Proof.
  induction 1 as [|x l Hx _ IH].
  - reflexivity.
  - rewrite sum_cons, Hx, IH. reflexivity.
Qed.

Lemma mean_zeros (l : list Q) : Forall (fun x => x == 0) l -> mean l == 0.
Proof.
  intro H. destruct l as [|x l]; [reflexivity|].
  unfold mean. rewrite (sum_zeros _ H). unfold Qdiv. apply Qmult_0_l.
Qed.

Lemma Qabs_self (x : Q) : Qabs (x - x) == 0.
Proof.
  assert (E : x - x == 0) by ring. rewrite E. reflexivity.
Qed.

Lemma self_terms_zero (s : value) :
  Forall (fun x => x == 0) (included_terms s s).
Proof.
  unfold included_terms.
  apply Forall_app; split; [|apply Forall_app; split].
  - destruct (num_field "battery" "remaining_mah" s); constructor; [|constructor].
    rewrite Qabs_self. unfold Qdiv. apply Qmult_0_l.
  - destruct (num_field "memory" "total_kb" s); constructor; [|constructor].
    rewrite Qabs_self. unfold Qdiv. apply Qmult_0_l.
  - destruct (num_field "cpu" "utilization" s) as [a|] eqn:E; constructor;
      [|constructor].
    simpl. apply Qabs_self.
Qed.

(** X10.  A twin that receives the snapshot it already predicts measures
    no drift: the sync is accepted, the drift is 0 and the accuracy
    recorded for it is 1. *)
Theorem resync_same_state_no_drift (tw : t) (s : value) (tick : Z) :
  comparable s = true -> predicted_state tw = Some s ->
  exists tw',
    receive_sync s tick tw = Some tw' /\
    current_drift tw' == 0 /\
    exists acc, accuracy_history tw' = accuracy_history tw ++ [acc] /\ acc == 1.
Proof.
  intros Hc Hp. unfold receive_sync. rewrite Hp.
  rewrite (calculate_drift_spec s s Hc Hc).
  eexists. split; [reflexivity|]. simpl.
  pose proof (mean_zeros _ (self_terms_zero s)) as Hz.
  split; [exact Hz|]. eexists. split; [reflexivity|]. rewrite Hz. ring.
Qed.

(** The twin tests' snapshot, received at tick 10 and again at tick 20. *)
Lemma resync_same_state_no_drift_witness :
  exists tw',
    receive_sync (Samples.device_state (4 # 10) 46 800 10) 20
      (Samples.synced (Samples.device_state (4 # 10) 46 800 10) 10) = Some tw' /\
    current_drift tw' == 0.
Proof.
  destruct (resync_same_state_no_drift
              (Samples.synced (Samples.device_state (4 # 10) 46 800 10) 10)
              (Samples.device_state (4 # 10) 46 800 10) 20)
    as (tw' & H1 & H2 & _); [reflexivity | reflexivity |].
  exists tw'. split; assumption.
Defined.

End TwinBooks.

(** ** Sync strategies *)
Section SyncFacts.
Import PyDyn.

Lemma unchanged_not_significant (threshold x : Q) :
  0 <= threshold -> DeltaSync._changed_significantly threshold x x = false.
Proof.
  intro Ht. unfold DeltaSync._changed_significantly.
  destruct (Qeq_bool x 0) eqn:E; [reflexivity|].
  apply Qltb_ge. rewrite Qabs_self. unfold Qdiv. rewrite Qmult_0_l. exact Ht.
Qed.

Lemma filter_none {A} (f : A -> bool) (l : list A) :
  (forall x, In x l -> f x = false) -> filter f l = [].
Proof.
  induction l as [|x l IH]; intro H; [reflexivity|].
  simpl. rewrite (H x (or_introl eq_refl)). apply IH.
  intros y Hin. apply H. now right.
Qed.

Lemma build_delta_unchanged (threshold : Q) (current : list (string * DeltaSync.scalar)) :
  0 <= threshold -> NoDup (Py.keys current) ->
  DeltaSync.build_delta threshold current current = [].
Proof.
  intros Ht Hnd. rewrite build_delta_filter by exact Hnd.
  apply filter_none. intros [k v] Hin. unfold DeltaSync.emits. cbn [fst snd].
  rewrite (In_dict_get k v current Hnd Hin).
  now apply unchanged_not_significant.
Qed.

(** X11.  Delta sync of a state that did not change: when a payload has
    been prepared from a state and [delta_threshold] is not negative,
    preparing a payload from the same state again succeeds and yields a
    delta with no field in it ([fields_changed] 0). *)
Theorem delta_of_unchanged_state_is_empty
    (s s1 : DeltaSync.t) (d : list (string * value)) (p1 : value) :
  0 <= DeltaSync.delta_threshold s ->
  SyncRun.tick_numeric d ->
  DeltaSync.prepare_payload (VDict d) s = Some (p1, s1) ->
  exists s2,
    DeltaSync.prepare_payload (VDict d) s1
    = Some (VDict [("type"%string, VStr "delta");
                   ("data"%string, VDict []);
                   ("fields_changed"%string, VInt 0);
                   ("fields_total"%string,
                    VInt (Z.of_nat (List.length
                                      (DeltaSync._extract_numerics (VDict d)))))],
            s2).
Proof.
  intros Ht Htick H1.
  assert (Hs1 : DeltaSync.delta_threshold s1 = DeltaSync.delta_threshold s /\
                DeltaSync.last_synced_state s1
                = Some (DeltaSync._extract_numerics (VDict d)) /\
                is_numeric (DeltaSync.last_sync_tick s1) = true).
  { unfold DeltaSync.prepare_payload, get_default, dict_of, Py.get_or,
      SyncRun.tick_numeric in *.
    destruct (DeltaSync.last_synced_state s).
    - destruct (as_num (DeltaSync.last_sync_tick s)); [|discriminate].
      injection H1 as <- <-. simpl.
      destruct (Py.dict_get "tick" d); auto.
    - injection H1 as <- <-. simpl.
      destruct (Py.dict_get "tick" d); auto. }
  destruct Hs1 as (Hth & Hlast & Hnum).
  unfold DeltaSync.prepare_payload. rewrite Hlast, Hth.
  rewrite build_delta_unchanged by (auto; apply extract_NoDup).
  cbn [dict_of].
  destruct (DeltaSync.last_sync_tick s1) as [|b|q| | |]; try discriminate;
    eexists; reflexivity.
Qed.

(** The state before the first reading, sent twice. *)
Lemma delta_of_unchanged_state_is_empty_witness :
  exists s2,
    DeltaSync.prepare_payload DeltaSamples.before_reading DeltaSamples.after_first
    = Some (VDict [("type"%string, VStr "delta");
                   ("data"%string, VDict []);
                   ("fields_changed"%string, VInt 0);
                   ("fields_total"%string,
                    VInt (Z.of_nat (List.length
                      (DeltaSync._extract_numerics DeltaSamples.before_reading))))],
            s2).
Proof.
  unfold DeltaSamples.before_reading.
  apply (delta_of_unchanged_state_is_empty (DeltaSync.init 10 (2 # 100))
           DeltaSamples.after_first _
           (VDict [("type"%string, VStr "full_state");
                   ("data"%string, DeltaSamples.before_reading)])).
  - simpl. lra.
  - reflexivity.
  - reflexivity.
Defined.

Lemma metric_of_synced_sections (section field : string)
    (d : list (string * value)) :
  In (section, field) EventDrivenSync.checks ->
  EventDrivenSync.metric section field
    (VDict [("cpu"%string, Py.get_or "cpu" (VDict []) d);
            ("memory"%string, Py.get_or "memory" (VDict []) d);
            ("battery"%string, Py.get_or "battery" (VDict []) d);
            ("network"%string, Py.get_or "network" (VDict []) d)])
  = EventDrivenSync.metric section field (VDict d).
Proof.
  intros [E|[E|[E|[E|[]]]]]; injection E as <- <-; reflexivity.
Qed.

Lemma detect_loop_unchanged (threshold : Q) (last current : value)
    (cs : list (string * string)) :
  0 <= threshold ->
  (forall section field, In (section, field) cs ->
     EventDrivenSync.metric section field current <> None /\
     EventDrivenSync.metric section field last
     = EventDrivenSync.metric section field current) ->
  EventDrivenSync.detect_loop threshold last current cs = Some false.
Proof.
  intros Ht. induction cs as [|[section field] rest IH]; intro H; [reflexivity|].
  cbn [EventDrivenSync.detect_loop].
  destruct (H section field (or_introl eq_refl)) as [Hdef Heq].
  rewrite Heq.
  destruct (EventDrivenSync.metric section field current) as [x|]; [|congruence].
  assert (Hq : Py.Qltb threshold (Qabs (x - x)) = false).
  { apply Qltb_ge. rewrite Qabs_self. exact Ht. }
  rewrite Hq. apply IH. intros sec f Hin. apply H. now right.
Qed.

(** X12.  Event-driven sync of a state that did not change: after a
    payload has been prepared from a state whose [tick] is the number
    [t0] and whose four watched metrics are numbers (or absent), and
    with a [change_threshold] that is not negative, the same state asks
    for a sync exactly when [max_silent_interval] ticks have passed
    since [t0]. *)
Theorem event_driven_quiet_until_heartbeat
    (s s1 : EventDrivenSync.t) (d : list (string * value)) (p1 : value)
    (t0 : Q) (tick : Z) :
  0 <= EventDrivenSync.change_threshold s ->
  Py.dict_get "tick" d = Some (VNum t0) ->
  (forall section field, In (section, field) EventDrivenSync.checks ->
     EventDrivenSync.metric section field (VDict d) <> None) ->
  EventDrivenSync.prepare_payload (VDict d) s = Some (p1, s1) ->
  EventDrivenSync.should_sync tick (VDict d) s1
  = Some (Qle_bool (EventDrivenSync.max_silent_interval s) (inject_Z tick - t0)).
Proof.
  intros Ht Htick Hdef H1.
  unfold EventDrivenSync.prepare_payload in H1. cbn [dict_of] in H1.
  injection H1 as <- <-.
  unfold EventDrivenSync.should_sync, EventDrivenSync._detect_significant_change.
  cbn [EventDrivenSync.last_sync_tick EventDrivenSync.last_synced_state
       EventDrivenSync.max_silent_interval EventDrivenSync.change_threshold].
  unfold Py.get_or at 1. rewrite Htick. cbn [as_num].
  destruct (Qle_bool (EventDrivenSync.max_silent_interval s) (inject_Z tick - t0));
    [reflexivity|].
  apply detect_loop_unchanged; [exact Ht|].
  intros section field Hin. split; [now apply Hdef|].
  now apply metric_of_synced_sections.
Qed.

(** The sync tests' snapshot, sent at tick 10 and looked at again at 40. *)
Lemma event_driven_quiet_until_heartbeat_witness :
  EventDrivenSync.should_sync 40 (Samples.sync_state 950 10)
    {| EventDrivenSync.change_threshold := 5 # 100;
       EventDrivenSync.max_silent_interval := 60;
       EventDrivenSync.last_sync_tick := VInt 10;
       EventDrivenSync.last_synced_state :=
         Some (VDict
           [("cpu"%string, VDict [("utilization"%string, VNum (35 # 100))]);
            ("memory"%string,
             VDict [("utilization"%string, VNum (18 # 100));
                    ("used_kb"%string, VNum 46)]);
            ("battery"%string,
             VDict [("percentage"%string, VNum 95);
                    ("remaining_mah"%string, VNum 950)]);
            ("network"%string,
             VDict [("bandwidth_utilization"%string, VNum (15 # 100))])]) |}
  = Some false.
Proof.
  unfold Samples.sync_state.
  apply (event_driven_quiet_until_heartbeat
           (EventDrivenSync.init (5 # 100) 10) _ _
           (VDict [("type"%string, VStr "event_driven");
                   ("data"%string, Samples.sync_state 950 10)])
           (inject_Z 10) 40).
  - simpl. lra.
  - reflexivity.
  - intros section field [E|[E|[E|[E|[]]]]]; injection E as <- <-; discriminate.
  - reflexivity.
Defined.

(** X13.  Adaptive sync never syncs more often on less charge: when the
    three configured intervals grow as the battery band gets lower, the
    interval chosen for a lower battery level is at least the one chosen
    for a higher level, so a sync that is due at the lower level is due
    at the higher level as well. *)
Theorem adaptive_interval_monotone (s : AdaptiveSync.t) (b1 b2 : Q) (tick : Z) :
  AdaptiveSync.high_battery_interval (AdaptiveSync.cfg s)
    <= AdaptiveSync.medium_battery_interval (AdaptiveSync.cfg s) ->
  AdaptiveSync.medium_battery_interval (AdaptiveSync.cfg s)
    <= AdaptiveSync.low_battery_interval (AdaptiveSync.cfg s) ->
  b1 <= b2 ->
  AdaptiveSync.current_interval (AdaptiveSync._update_interval b2 s)
    <= AdaptiveSync.current_interval (AdaptiveSync._update_interval b1 s) /\
  (forall r1, AdaptiveSync.should_sync tick b1 s = Some (true, r1) ->
   exists r2, AdaptiveSync.should_sync tick b2 s = Some (true, r2)).
Proof.
  intros Hhm Hml Hb.
  assert (Hmono :
    AdaptiveSync.current_interval (AdaptiveSync._update_interval b2 s)
    <= AdaptiveSync.current_interval (AdaptiveSync._update_interval b1 s)).
  { unfold AdaptiveSync._update_interval. simpl.
    qcase (Py.Qltb (AdaptiveSync.high_battery_threshold (AdaptiveSync.cfg s)) b2);
    qcase (Py.Qltb (AdaptiveSync.high_battery_threshold (AdaptiveSync.cfg s)) b1);
    qcase (Py.Qltb (AdaptiveSync.low_battery_threshold (AdaptiveSync.cfg s)) b2);
    qcase (Py.Qltb (AdaptiveSync.low_battery_threshold (AdaptiveSync.cfg s)) b1);
    lra. }
  split; [exact Hmono|].
  intros r1. unfold AdaptiveSync.should_sync.
  change (AdaptiveSync.last_sync_tick (AdaptiveSync._update_interval b1 s))
    with (AdaptiveSync.last_sync_tick s).
  change (AdaptiveSync.last_sync_tick (AdaptiveSync._update_interval b2 s))
    with (AdaptiveSync.last_sync_tick s).
  destruct (as_num (AdaptiveSync.last_sync_tick s)) as [last|]; [|discriminate].
  intro H. injection H as H _. apply Qle_bool_iff in H.
  exists (AdaptiveSync._update_interval b2 s).
  assert (Hq : Qle_bool
                 (AdaptiveSync.current_interval (AdaptiveSync._update_interval b2 s))
                 (inject_Z tick - last) = true)
    by (apply Qle_bool_iff; eapply Qle_trans; [exact Hmono | exact H]).
  rewrite Hq. reflexivity.
Qed.

Lemma adaptive_interval_monotone_witness :
  exists r2,
    AdaptiveSync.should_sync 70 (80 # 100)
      (AdaptiveSync.init (AdaptiveSync.mk_config 5 15 60 (50 # 100) (15 # 100)))
    = Some (true, r2).
Proof.
  destruct (adaptive_interval_monotone
              (AdaptiveSync.init
                 (AdaptiveSync.mk_config 5 15 60 (50 # 100) (15 # 100)))
              (10 # 100) (80 # 100) 70) as [_ H].
  - simpl. lra.
  - simpl. lra.
  - lra.
  - eapply H. reflexivity.
Defined.

Lemma bytes_delivered_app (l : list SyncEngine.sync_event) (ev : SyncEngine.sync_event) :
  SyncRun.bytes_delivered (l ++ [ev])
  = (SyncRun.bytes_delivered l
     + if SyncEngine.e_success ev then SyncEngine.e_size_bytes ev else 0)%Z.
Proof.
  induction l as [|x l IH]; simpl.
  - destruct (SyncEngine.e_success ev); lia.
  - rewrite IH. destruct (SyncEngine.e_success x); lia.
Qed.

Lemma sync_engine_inv (c : SyncEngine.config) (name : string) (e : SyncEngine.t) :
  SyncRun.reachable c name e ->
  SyncEngine.total_syncs e = Z.of_nat (List.length (SyncEngine.sync_events e)) /\
  SyncEngine.total_bytes_synced e
  = SyncRun.bytes_delivered (SyncEngine.sync_events e) /\
  (0 <= SyncEngine.total_bytes_synced e)%Z /\
  Forall (fun ev => SyncEngine.e_strategy ev = SyncEngine.strategy_name e)
    (SyncEngine.sync_events e).
Proof.
  induction 1 as [e Hinit|e st _ IH|e tick size success _ IH Hsize].
  - unfold SyncEngine.init in Hinit.
    destruct (SyncEngine.make_strategy c _); [|discriminate].
    injection Hinit as <-. simpl. repeat split; try lia. constructor.
  - exact IH.
  - destruct IH as (Hn & Hb & H0 & Hs). simpl.
    rewrite length_app, bytes_delivered_app. simpl.
    repeat split.
    + lia.
    + destruct success; lia.
    + destruct success; lia.
    + apply Forall_app. split; [exact Hs|]. repeat constructor.
Qed.

(** X14.  The sync engine's statistics along every run of [record_sync]
    calls with sizes that are not negative: [total_syncs] is the number
    of recorded events, [total_bytes_synced] the bytes of those that
    succeeded, every event carries the engine's strategy name, and
    [avg_payload_bytes] lies between 0 and [total_bytes_synced]. *)
Theorem sync_engine_stats (c : SyncEngine.config) (name : string) (e : SyncEngine.t) :
  SyncRun.reachable c name e ->
  SyncEngine.total_syncs e = Z.of_nat (List.length (SyncEngine.sync_events e)) /\
  SyncEngine.total_bytes_synced e
  = SyncRun.bytes_delivered (SyncEngine.sync_events e) /\
  Forall (fun ev => SyncEngine.e_strategy ev = SyncEngine.strategy_name e)
    (SyncEngine.sync_events e) /\
  0 <= SyncEngine.avg_payload_bytes e <= inject_Z (SyncEngine.total_bytes_synced e).
Proof.
  intro Hr. destruct (sync_engine_inv c name e Hr) as (Hn & Hb & H0 & Hs).
  split; [exact Hn|]. split; [exact Hb|]. split; [exact Hs|].
  unfold SyncEngine.avg_payload_bytes.
  assert (Hq : 0 <= inject_Z (SyncEngine.total_bytes_synced e))
    by now apply inject_Z_nonneg.
  destruct (Z.ltb_spec 0 (SyncEngine.total_syncs e)) as [E|E]; [|lra].
  assert (Hone : 1 <= inject_Z (SyncEngine.total_syncs e)).
  { change 1 with (inject_Z 1). rewrite <- Zle_Qle. lia. }
  split.
  - apply Qle_shift_div_l; lra.
  - apply Qle_shift_div_r; [lra|]. nra.
Qed.

(** A full-state engine after one delivered and one lost payload. *)
Lemma sync_engine_stats_witness :
  SyncEngine.total_bytes_synced
    (SyncEngine.record_sync 20 90 false
       (SyncEngine.record_sync 10 250 true
          {| SyncEngine.strategy_name := "full_state";
             SyncEngine.the_strategy :=
               SyncEngine.FullState (FullStateSync.init 10);
             SyncEngine.total_syncs := 0;
             SyncEngine.total_bytes_synced := 0;
             SyncEngine.sync_events := [] |}))
  = SyncRun.bytes_delivered
      (SyncEngine.sync_events
         (SyncEngine.record_sync 20 90 false
            (SyncEngine.record_sync 10 250 true
               {| SyncEngine.strategy_name := "full_state";
                  SyncEngine.the_strategy :=
                    SyncEngine.FullState (FullStateSync.init 10);
                  SyncEngine.total_syncs := 0;
                  SyncEngine.total_bytes_synced := 0;
                  SyncEngine.sync_events := [] |}))).
Proof.
  refine (proj1 (proj2 (sync_engine_stats (ExampleRun.sync "full_state") "" _ _))).
  apply SyncRun.reach_record; [|lia].
  apply SyncRun.reach_record; [|lia].
  apply SyncRun.reach_init. reflexivity.
Defined.

End SyncFacts.

(** ** Edge components *)
Section QueueFacts.
Import PriorityDataQueue QueueRun.

Lemma enqueued_app (critical : bool) (l1 l2 : list op) :
  enqueued critical (l1 ++ l2) = enqueued critical l1 ++ enqueued critical l2.
Proof.
  induction l1 as [|[data priority| |n] l1 IH]; simpl; auto.
  destruct (Bool.eqb _ critical); simpl; now rewrite IH.
Qed.

Lemma run_snoc (ops : list op) (o : op) : run (ops ++ [o]) = step (run ops) o.
Proof. unfold run. now rewrite fold_left_app. Qed.

(** X15.  The priority queue is two first-in-first-out queues: after any
    sequence of [enqueue], [dequeue_critical] and [dequeue_normal]
    calls, the items handed out so far followed by the items still
    waiting are exactly the items enqueued, in the order they came, for
    critical and for normal data alike; [total_critical] and
    [total_normal] count the items enqueued. *)
Theorem priority_queue_fifo (ops : list op) :
  critical_out (run ops) ++ critical_queue (queue (run ops))
  = enqueued true ops /\
  normal_out (run ops) ++ normal_queue (queue (run ops))
  = enqueued false ops /\
  total_critical (queue (run ops)) = Z.of_nat (List.length (enqueued true ops)) /\
  total_normal (queue (run ops)) = Z.of_nat (List.length (enqueued false ops)).
Proof.
  induction ops as [|o ops IH] using rev_ind.
  - repeat split.
  - destruct IH as (Hc & Hn & Htc & Htn).
    rewrite run_snoc, !enqueued_app, !length_app, !Nat2Z.inj_add, <- Htc, <- Htn,
      <- Hc, <- Hn.
    destruct o as [data priority| |n]; cbn [step enqueued].
    + unfold enqueue. destruct (String.eqb priority "critical");
        cbn [Bool.eqb queue critical_out normal_out critical_queue normal_queue
             total_critical total_normal List.length];
        rewrite ?app_nil_r, ?app_assoc; repeat split; lia.
    + cbn [dequeue_critical queue critical_out normal_out critical_queue
           normal_queue total_critical total_normal List.length].
      rewrite !app_nil_r. repeat split; lia.
    + cbn [dequeue_normal queue critical_out normal_out critical_queue
           normal_queue total_critical total_normal List.length].
      rewrite !app_nil_r, <- app_assoc, firstn_skipn. repeat split; lia.
Qed.

End QueueFacts.

Section CompressorFacts.
Import DataCompressor.

Lemma int_of_scaled (n : Z) (ratio : Q) :
  (0 <= n)%Z -> 0 <= ratio <= 1 ->
  (0 <= Py.int (inject_Z n * ratio) <= n)%Z.
Proof.
  intros Hn [H0 H1].
  assert (Hq : 0 <= inject_Z n) by now apply inject_Z_nonneg.
  assert (Hx0 : 0 <= inject_Z n * ratio) by now apply Qmult_le_0_compat.
  assert (Hx1 : inject_Z n * ratio <= inject_Z n) by nra.
  unfold Py.int.
  destruct (Qle_bool 0 (inject_Z n * ratio)) eqn:E.
  - split.
    + change 0%Z with (Qfloor 0). now apply Qfloor_resp_le.
    + rewrite <- (Qfloor_Z n) at 2. now apply Qfloor_resp_le.
  - apply Qle_bool_false in E. lra.
Qed.

Lemma compressor_inv (ratio : Q) (c : t) :
  0 <= ratio <= 1 -> CompressorRun.reachable ratio c ->
  compression_ratio c = ratio /\
  (0 <= total_compressed_bytes c <= total_original_bytes c)%Z.
Proof.
  intros Hr. induction 1 as [|c n _ [Hc IH] Hn].
  - simpl. split; [reflexivity | lia].
  - unfold estimate_compressed_size. simpl. rewrite Hc.
    pose proof (int_of_scaled n ratio Hn Hr). split; [reflexivity | lia].
Qed.

(** X16.  A compressor whose ratio lies in [[0, 1]], fed payload sizes
    that are not negative: every estimate lies between 0 and the
    original size, the running totals satisfy
    [0 <= total_compressed_bytes <= total_original_bytes], and
    [get_savings_pct] lies in [[0, 100]]. *)
Theorem compressor_never_expands (ratio : Q) (c : t) (original_bytes : Z) :
  0 <= ratio <= 1 -> CompressorRun.reachable ratio c ->
  (0 <= original_bytes)%Z ->
  (0 <= fst (estimate_compressed_size original_bytes c) <= original_bytes)%Z /\
  (0 <= total_compressed_bytes c <= total_original_bytes c)%Z /\
  0 <= get_savings_pct c <= 100.
Proof.
  intros Hr Hc Hn. destruct (compressor_inv ratio c Hr Hc) as [Hratio Htot].
  split; [|split; [exact Htot|]].
  - unfold estimate_compressed_size. simpl. rewrite Hratio.
    now apply int_of_scaled.
  - unfold get_savings_pct.
    destruct (Z.eqb_spec (total_original_bytes c) 0) as [E|E]; [lra|].
    assert (Hpos : 0 < inject_Z (total_original_bytes c)).
    { change 0 with (inject_Z 0). rewrite <- Zlt_Qlt. lia. }
    assert (H0 : 0 <= inject_Z (total_original_bytes c - total_compressed_bytes c)).
    { apply inject_Z_nonneg. lia. }
    assert (H1 : inject_Z (total_original_bytes c - total_compressed_bytes c)
                 <= inject_Z (total_original_bytes c)).
    { rewrite <- Zle_Qle. lia. }
    assert (Hd0 : 0 <= inject_Z (total_original_bytes c - total_compressed_bytes c)
                       / inject_Z (total_original_bytes c)).
    { apply Qle_shift_div_l; [exact Hpos | lra]. }
    assert (Hd1 : inject_Z (total_original_bytes c - total_compressed_bytes c)
                  / inject_Z (total_original_bytes c) <= 1).
    { apply Qle_shift_div_r; [exact Hpos | lra]. }
    split; lra.
Qed.

(** A 250-byte payload at ratio 0.6, then a 99-byte one: 59 bytes. *)
Lemma compressor_never_expands_witness :
  (0 <= fst (estimate_compressed_size 99
               (snd (estimate_compressed_size 250 (init (6 # 10))))) <= 99)%Z.
Proof.
  apply (compressor_never_expands (6 # 10)).
  - lra.
  - apply CompressorRun.reach_estimate; [apply CompressorRun.reach_init | lia].
  - lia.
Defined.

End CompressorFacts.

Section EdgeFacts.
Context `{Runtime}.
Import EdgeProcessor.

Lemma edge_inv (c : config) (e : t) :
  EdgeRun.reachable c e ->
  (0 <= total_filtered e <= total_processed e)%Z /\
  (0 <= anomalies_fast_tracked e
   <= PriorityDataQueue.total_critical (priority_queue e))%Z /\
  (0 <= PriorityDataQueue.total_normal (priority_queue e))%Z /\
  (PriorityDataQueue.total_critical (priority_queue e)
   + PriorityDataQueue.total_normal (priority_queue e) = total_processed e)%Z /\
  (total_compressed_bytes_saved e
   = DataCompressor.total_original_bytes (compressor e)
     - DataCompressor.total_compressed_bytes (compressor e))%Z.
Proof.
  induction 1 as [|e r st e' _ IH Hp].
  - simpl. repeat split; lia.
  - unfold process in Hp.
    destruct (enabled e); cbn [negb] in Hp; [|injection Hp as <-; exact IH].
    destruct (DataFilter.filter_reading r (data_filter e)) as [[fr df]|];
      [|discriminate].
    destruct (PyDyn.get_default "anomalies" (VList []) r) as [an|]; [|discriminate].
    destruct (_check_critical_resources st) as [crit|]; [|discriminate].
    destruct IH as (Hf & Ha & Hn & Hq & Hs).
    destruct (compression_enabled e) eqn:Ec;
      [destruct (DataCompressor.estimate_compressed_size _ _) as [pb comp'] eqn:Eest;
       unfold DataCompressor.estimate_compressed_size in Eest;
       injection Eest as <- <-|];
      injection Hp as <-; cbn [total_filtered total_processed anomalies_fast_tracked
        priority_queue total_compressed_bytes_saved compressor
        DataCompressor.total_original_bytes DataCompressor.total_compressed_bytes];
      unfold PriorityDataQueue.enqueue;
      destruct (truthy an); destruct crit; cbn [orb String.eqb Ascii.eqb Bool.eqb];
      cbn [PriorityDataQueue.total_critical PriorityDataQueue.total_normal];
      destruct (negb (PyEq.eqb fr r)); repeat split; lia.
Qed.

(** X17.  The edge processor's counters along every run of [process]
    calls: filtered readings are among the processed ones; every
    processed reading was enqueued once, as critical or as normal; every
    reading with an anomaly went to the critical queue; the bytes saved
    are the compressor's original minus compressed bytes; and
    [get_data_reduction_ratio] is a fraction. *)
Theorem edge_counters (c : config) (e : t) :
  EdgeRun.reachable c e ->
  (0 <= total_filtered e <= total_processed e)%Z /\
  (PriorityDataQueue.total_critical (priority_queue e)
   + PriorityDataQueue.total_normal (priority_queue e) = total_processed e)%Z /\
  (0 <= anomalies_fast_tracked e
   <= PriorityDataQueue.total_critical (priority_queue e))%Z /\
  (total_compressed_bytes_saved e
   = DataCompressor.total_original_bytes (compressor e)
     - DataCompressor.total_compressed_bytes (compressor e))%Z /\
  0 <= get_data_reduction_ratio e <= 1.
Proof.
  intro Hr. destruct (edge_inv c e Hr) as (Hf & Ha & Hn & Hq & Hs).
  split; [exact Hf|]. split; [exact Hq|]. split; [exact Ha|]. split; [exact Hs|].
  unfold get_data_reduction_ratio.
  destruct (Z.eqb_spec (total_processed e) 0) as [E|E]; [lra|].
  assert (Hpos : 0 < inject_Z (total_processed e)).
  { change 0 with (inject_Z 0). rewrite <- Zlt_Qlt. lia. }
  assert (H0 : 0 <= inject_Z (total_filtered e)) by (apply inject_Z_nonneg; lia).
  assert (H1 : inject_Z (total_filtered e) <= inject_Z (total_processed e)).
  { rewrite <- Zle_Qle. lia. }
  split.
  - apply Qle_shift_div_l; [exact Hpos | lra].
  - apply Qle_shift_div_r; [exact Hpos | lra].
Qed.

End EdgeFacts.

(** One reading with an anomaly: it is fast-tracked as critical. *)
Lemma edge_counters_witness :
  (0 <= EdgeProcessor.anomalies_fast_tracked EdgeRun.after_reading
   <= PriorityDataQueue.total_critical
        (EdgeProcessor.priority_queue EdgeRun.after_reading))%Z.
Proof.
  refine (proj1 (proj2 (proj2
    (edge_counters (H := ExampleRuntime.runtime) ExampleRun.edge _ _)))).
  apply (EdgeRun.reach_process (H := ExampleRuntime.runtime) ExampleRun.edge
           (EdgeProcessor.init ExampleRun.edge) EdgeRun.reading
           (Samples.sync_state 950 10));
    [apply EdgeRun.reach_init | vm_compute; reflexivity].
Defined.

Section FilterFacts.
Import PyDyn DataFilter.

Lemma dict_get_set_other {A} (k k' : string) (v : A) (d : list (string * A)) :
  k <> k' -> Py.dict_get k (Py.dict_set k' v d) = Py.dict_get k d.
Proof.
  intro Hne. induction d as [|[k0 v0] d IH]; simpl.
  - destruct (String.eqb_spec k k'); [contradiction | reflexivity].
  - destruct (String.eqb_spec k' k0) as [->|Hk]; simpl.
    + destruct (String.eqb_spec k k0); [contradiction | reflexivity].
    + now rewrite IH.
Qed.

Lemma dict_get_set_same {A} (k : string) (v : A) (d : list (string * A)) :
  Py.dict_get k (Py.dict_set k v d) = Some v.
Proof.
  induction d as [|[k0 v0] d IH]; simpl.
  - now rewrite String.eqb_refl.
  - destruct (String.eqb_spec k k0) as [->|Hk]; simpl.
    + now rewrite String.eqb_refl.
    + destruct (String.eqb_spec k k0); [contradiction | exact IH].
Qed.

Lemma deque_append_length (maxlen : nat) (x : Q) (w : list Q) :
  (List.length (deque_append maxlen x w) <= maxlen)%nat.
Proof.
  unfold deque_append, Py.last_n. rewrite length_skipn. lia.
Qed.

Lemma Forall_dict_set {A} (P : A -> Prop) (k : string) (v : A)
    (d : list (string * A)) :
  P v -> Forall (fun kv => P (snd kv)) d ->
  Forall (fun kv => P (snd kv)) (Py.dict_set k v d).
Proof.
  intros Hv. induction 1 as [|[k0 v0] d H0 Hd IH]; simpl.
  - repeat constructor. exact Hv.
  - destruct (String.eqb k k0); constructor; auto.
Qed.

Lemma filter_key_frame (key : string) (d fl fl' : list (string * value)) (f f' : t) :
  filter_key key d (fl, f) = Some (fl', f') ->
  Py.keys fl = Py.keys d ->
  window_size f' = window_size f /\
  Py.keys fl' = Py.keys d /\
  (forall k, k <> key -> Py.dict_get k fl' = Py.dict_get k fl) /\
  (Forall (fun kw => (List.length (snd kw) <= window_size f)%nat) (windows f) ->
   Forall (fun kw => (List.length (snd kw) <= window_size f')%nat) (windows f')).
Proof.
  unfold filter_key. intros H Hk.
  destruct (Py.dict_get key d) as [v|] eqn:Ev.
  - destruct (as_num v) as [x|]; [|discriminate].
    set (w := deque_append (window_size f) x (Py.get_or key [] (windows f))) in *.
    assert (Hw : Forall (fun kw => (List.length (snd kw) <= window_size f)%nat)
                   (windows f) ->
                 Forall (fun kw => (List.length (snd kw) <= window_size f)%nat)
                   (Py.dict_set key w (windows f))).
    { apply (Forall_dict_set (fun w => (List.length w <= window_size f)%nat)).
      apply deque_append_length. }
    destruct (2 <=? List.length w)%nat; injection H as <- <-; simpl.
    + split; [reflexivity|]. split; [|split; [|exact Hw]].
      * rewrite keys_dict_set. unfold Py.dict_has.
        destruct (Py.dict_get key fl) eqn:E; [exact Hk|].
        apply dict_get_None in E. rewrite Hk in E.
        exfalso. apply E. apply dict_get_In in Ev.
        unfold Py.keys. change key with (fst (key, v)). now apply in_map.
      * intros k Hne. now apply dict_get_set_other.
    + split; [reflexivity|]. split; [exact Hk|]. split; [reflexivity | exact Hw].
  - injection H as <- <-. repeat split; auto.
Qed.

(** X18.  [filter_reading] only rewrites the three sensor values: the
    filtered reading has the keys of the raw reading, in the same order,
    and every entry other than [temperature], [humidity] and [light] is
    the raw one. *)
Theorem filter_reading_frame (d : list (string * value)) (f f' : t) (filtered : value) :
  filter_reading (VDict d) f = Some (filtered, f') ->
  exists fd,
    filtered = VDict fd /\
    Py.keys fd = Py.keys d /\
    forall k, ~ In k FilterRun.sensors -> Py.dict_get k fd = Py.dict_get k d.
Proof.
  unfold filter_reading. cbn [dict_of]. intro H.
  destruct (filter_key "temperature" d (d, f)) as [[fl1 f1]|] eqn:E1; [|discriminate].
  destruct (filter_key "humidity" d (fl1, f1)) as [[fl2 f2]|] eqn:E2; [|discriminate].
  destruct (filter_key "light" d (fl2, f2)) as [[fl3 f3]|] eqn:E3; [|discriminate].
  injection H as <- <-. cbn [fst].
  destruct (filter_key_frame _ _ _ _ _ _ E1 eq_refl) as (_ & K1 & G1 & _).
  destruct (filter_key_frame _ _ _ _ _ _ E2 K1) as (_ & K2 & G2 & _).
  destruct (filter_key_frame _ _ _ _ _ _ E3 K2) as (_ & K3 & G3 & _).
  exists fl3. split; [reflexivity|]. split; [exact K3|].
  intros k Hk. unfold FilterRun.sensors in Hk. simpl in Hk.
  rewrite G3, G2, G1; [reflexivity| | |]; intro E; apply Hk; auto.
Qed.

(** The third temperature reading is smoothed; the tick is kept. *)
Lemma filter_reading_frame_witness :
  exists fd,
    VDict [("temperature"%string, VNum (2200 # 100)); ("tick"%string, VInt 3)]
    = VDict fd /\
    Py.keys fd = ["temperature"; "tick"]%string /\
    forall k, ~ In k FilterRun.sensors ->
      Py.dict_get k fd
      = Py.dict_get k [("temperature"%string, VNum 24); ("tick"%string, VInt 3)].
Proof.
  apply (filter_reading_frame
           [("temperature"%string, VNum 24); ("tick"%string, VInt 3)]
           FilterRun.after_two
           {| window_size := 5;
              windows := [("temperature"%string, [20; 22; 24])] |}).
  vm_compute. reflexivity.
Defined.

(** X19.  No window of the filter ever holds more than [window_size]
    values, whatever readings it is given. *)
Theorem filter_windows_bounded (size : nat) (f : t) :
  FilterRun.reachable size f ->
  window_size f = size /\
  Forall (fun kw => (List.length (snd kw) <= size)%nat) (windows f).
Proof.
  induction 1 as [|f r fr f' _ [Hs IH] Hf].
  - split; [reflexivity | constructor].
  - unfold filter_reading in Hf.
    destruct (dict_of r) as [d|]; [|discriminate].
    destruct (filter_key "temperature" d (d, f)) as [[fl1 f1]|] eqn:E1; [|discriminate].
    destruct (filter_key "humidity" d (fl1, f1)) as [[fl2 f2]|] eqn:E2; [|discriminate].
    destruct (filter_key "light" d (fl2, f2)) as [[fl3 f3]|] eqn:E3; [|discriminate].
    injection Hf as _ <-. cbn [snd].
    destruct (filter_key_frame _ _ _ _ _ _ E1 eq_refl) as (S1 & K1 & _ & W1).
    destruct (filter_key_frame _ _ _ _ _ _ E2 K1) as (S2 & K2 & _ & W2).
    destruct (filter_key_frame _ _ _ _ _ _ E3 K2) as (S3 & K3 & _ & W3).
    split; [congruence|].
    rewrite <- Hs, <- S1, <- S2, <- S3. apply W3, W2, W1.
    rewrite Hs. exact IH.
Qed.

Lemma filter_windows_bounded_witness :
  Forall (fun kw => (List.length (snd kw) <= 1)%nat)
    (windows {| window_size := 1; windows := [("light"%string, [310])] |}).
Proof.
  refine (proj2 (filter_windows_bounded 1 _ _)).
  apply (FilterRun.reach_filter 1
           {| window_size := 1; windows := [("light"%string, [300])] |}
           (VDict [("light"%string, VNum 310)])
           (VDict [("light"%string, VNum 310)])).
  - apply (FilterRun.reach_filter 1 (init 1)
             (VDict [("light"%string, VNum 300)])
             (VDict [("light"%string, VNum 300)])).
    + apply FilterRun.reach_init.
    + vm_compute. reflexivity.
  - vm_compute. reflexivity.
Defined.

Lemma first_window_short (size : nat) (x : Q) :
  (2 <=? List.length (deque_append size x []))%nat = false.
Proof. destruct size; reflexivity. Qed.

(** X20.  A fresh filter passes its first reading through unchanged,
    provided the sensor values in it are numbers: a moving average needs
    two values in the window. *)
Theorem first_reading_unfiltered (size : nat) (d : list (string * value)) :
  (forall k v, In k FilterRun.sensors -> Py.dict_get k d = Some v ->
     is_numeric v = true) ->
  exists f', filter_reading (VDict d) (init size) = Some (VDict d, f').
Proof.
  intro Hnum. unfold filter_reading. cbn [dict_of].
  assert (Hn : forall k, In k FilterRun.sensors ->
            Py.dict_get k d = None \/
            exists v x, Py.dict_get k d = Some v /\ as_num v = Some x).
  { intros k Hk. destruct (Py.dict_get k d) as [v|] eqn:E; [right | now left].
    specialize (Hnum k v Hk E). exists v.
    destruct v; try discriminate; eexists; split; reflexivity. }
  unfold FilterRun.sensors in Hn.
  destruct (Hn "temperature"%string) as [Et|(vt & xt & Et & Nt)]; [simpl; auto| |];
  destruct (Hn "humidity"%string) as [Eh|(vh & xh & Eh & Nh)]; try (simpl; now auto);
  destruct (Hn "light"%string) as [El|(vl & xl & El & Nl)]; try (simpl; now auto);
  unfold filter_key; cbn [init window_size windows];
  rewrite Et; rewrite ?Nt; cbn [Py.get_or Py.dict_get];
  rewrite ?first_window_short; cbn [window_size windows Py.dict_set];
  rewrite Eh; rewrite ?Nh; cbn [Py.get_or Py.dict_get String.eqb Ascii.eqb Bool.eqb];
  rewrite ?first_window_short; cbn [window_size windows Py.dict_set String.eqb Ascii.eqb Bool.eqb];
  rewrite El; rewrite ?Nl; cbn [Py.get_or Py.dict_get String.eqb Ascii.eqb Bool.eqb];
  rewrite ?first_window_short; eexists; reflexivity.
Qed.

Lemma first_reading_unfiltered_witness :
  exists f',
    filter_reading EdgeRun.reading (init 5) = Some (EdgeRun.reading, f').
Proof.
  apply (first_reading_unfiltered 5).
  intros k v [<-|[<-|[<-|[]]]] E; injection E as <-; reflexivity.
Defined.

End FilterFacts.
